(** * Inventory Management App: the persistence service and the invoice form

    A shallow embedding of [DatabaseService] (the SQLite-backed store of
    src/database/database.ts) and of the parts of [CreateInvoiceScreen]
    that compute invoice totals and drive the store ([addOrUpdateItem],
    [calculateTotals], [handleSave]).

    Conventions of the embedding:
    - a JavaScript [number] that holds money (SQL [REAL]) is a binary64
      float, with the primitive IEEE operations;
    - a [REAL NOT NULL] column refuses NaN (SQLite binds it as NULL) and
      gives -0 back as 0. This is written out for the price of an item,
      which callers of [addItem] and [updateItem] supply ([bind_REAL]).
      The unit prices, amounts and totals of an invoice are modelled on
      the numbers that the invoice form hands over, products and sums of
      positive numbers, which the columns keep as they are: the
      statements of the invoice tables store them as given;
    - row ids, counts and stock quantities (SQL [INTEGER]) are in [Z];
    - an optional TypeScript field ([description?: string]) and a nullable
      SQL column are an [option];
    - a table is the list of its rows in rowid order together with the
      AUTOINCREMENT high-water mark;
    - an asynchronous method is a state transformer over the service that
      returns either a value or the thrown error, and always the state
      reached (the store has no transactions: what was written before a
      throw stays written);
    - [CURRENT_TIMESTAMP] is read from the environment, so operations that
      insert a row with a [created_at] default take the time as an
      argument;
    - the date of the invoice form, a [Date], is kept by its ISO string,
      so the form holds valid dates only; an invoice date is stored as a
      day of the calendar written YYYY-MM-DD;
    - foreign keys are declared in the schema but never switched on
      ([PRAGMA foreign_keys] is not issued), so they are not enforced. *)

From Stdlib Require Import ZArith List String Ascii Bool Lia.
From Stdlib Require Import Sorting.Sorted Sorting.Permutation.
From Stdlib Require Import Decimal DecimalString DecimalZ.
From Stdlib Require Import Floats.PrimFloat Floats.FloatOps Floats.SpecFloat.
Import ListNotations.

Open Scope string_scope.
Open Scope Z_scope.

(** ** Numbers, strings and time *)

(** A JavaScript [number] used for prices and amounts. *)
Definition number := float.

(** The number that stands for an integer: the integer itself up to
    2^53 in absolute value, and beyond that the nearest binary64 (ties to
    even), infinite past the largest one. *)
Definition number_of_Z (z : Z) : number :=
  SF2Prim (binary_normalize prec emax z 0 false).

(** A number bound to a parameter of a [REAL NOT NULL] column. SQLite
    binds NaN as NULL, which the column refuses: [None]. Every other
    number is stored as it is, except that -0 is read back as 0. *)
Definition bind_REAL (x : number) : option number :=
  if PrimFloat.is_nan x then None
  else if PrimFloat.eqb x 0%float then Some 0%float
  else Some x.

(** Seconds since the epoch; [CURRENT_TIMESTAMP] strings order the same way. *)
Definition Timestamp := Z.

(** [description || ''] : the fallback is taken for [undefined] and for
    the empty string, the two falsy strings-or-undefined. *)
Definition or_empty (o : option string) : string :=
  match o with
  | Some s => if String.eqb s "" then "" else s
  | None => ""
  end.

(** [String(n)] for an integer-valued number. *)
Definition String_of (n : Z) : string :=
  NilZero.string_of_int (Z.to_int n).

Fixpoint repeat_string (fill : string) (n : nat) : string :=
  match n with
  | O => ""
  | S n' => fill ++ repeat_string fill n'
  end.

(** [s.padStart(targetLength, fill)] for a one-character [fill]. *)
Definition padStart (targetLength : nat) (fill : string) (s : string) : string :=
  repeat_string fill (targetLength - String.length s) ++ s.

(** [s.split(sep)[0]] for a one-character separator. *)
Fixpoint split_head (sep : ascii) (s : string) : string :=
  match s with
  | EmptyString => EmptyString
  | String c rest =>
      if Ascii.eqb c sep then EmptyString else String c (split_head sep rest)
  end.

(** The digit that a character writes. *)
Definition digit_of (c : ascii) : option Z :=
  let n := Z.of_nat (nat_of_ascii c) in
  if (48 <=? n) && (n <=? 57) then Some (n - 48) else None.

Definition days_in_month (year month : Z) : Z :=
  if (month =? 4) || (month =? 6) || (month =? 9) || (month =? 11) then 30
  else if month =? 2
       then if ((year mod 4 =? 0) && negb (year mod 100 =? 0)) || (year mod 400 =? 0)
            then 29 else 28
       else 31.

(** A day of the calendar written YYYY-MM-DD: the date-only form of the
    ECMAScript date-time string format, with a month from 01 to 12 and a
    day that the month has. *)
Definition is_calendar_date (s : string) : bool :=
  match s with
  | String y1 (String y2 (String y3 (String y4 (String sep1 (String m1 (String m2
      (String sep2 (String d1 (String d2 EmptyString))))))))) =>
      match digit_of y1, digit_of y2, digit_of y3, digit_of y4,
            digit_of m1, digit_of m2, digit_of d1, digit_of d2 with
      | Some a, Some b, Some c, Some e, Some f, Some g, Some h, Some i =>
          let year := 1000 * a + 100 * b + 10 * c + e in
          let month := 10 * f + g in
          let day := 10 * h + i in
          Ascii.eqb sep1 "-" && Ascii.eqb sep2 "-"
          && (1 <=? month) && (month <=? 12)
          && (1 <=? day) && (day <=? days_in_month year month)
      | _, _, _, _, _, _, _, _ => false
      end
  | _ => false
  end.

(** ** Rows (the exported interfaces of database.ts) *)

Module Category.
Record t := mk {
  id : Z;
  name : string;
  description : option string;
  created_at : Timestamp
}.
End Category.

Module Item.
Record t := mk {
  id : Z;
  name : string;
  category_id : Z;
  price : number;
  quantity : Z;
  description : option string;
  created_at : Timestamp
}.
End Item.

Module Customer.
Record t := mk {
  id : Z;
  name : string;
  phone : string;
  email : option string;
  created_at : Timestamp
}.
End Customer.

Module Invoice.
Record t := mk {
  id : Z;
  invoice_number : string;
  customer_id : Z;
  invoice_date : string;
  subtotal : number;
  vat_amount : number;
  total_amount : number;
  created_at : Timestamp
}.
End Invoice.

Module InvoiceItem.
Record t := mk {
  id : Z;
  invoice_id : Z;
  item_id : Z;
  quantity : Z;
  unit_price : number;
  extended_amount : number
}.
End InvoiceItem.

(** ** Tables *)

(** [rows] in rowid order; [seq] is the largest rowid ever handed out
    ([INTEGER PRIMARY KEY AUTOINCREMENT]). *)
Record Table (R : Type) := mkTable {
  rows : list R;
  seq : Z
}.
Arguments mkTable {R} _ _.
Arguments rows {R} _.
Arguments seq {R} _.

Definition empty_table {R : Type} : Table R := mkTable [] 0.

(** [INSERT]: the new row gets rowid [seq + 1]. *)
Definition insert_row {R : Type} (mk : Z -> R) (t : Table R) : Z * Table R :=
  let rowid := seq t + 1 in
  (rowid, mkTable (rows t ++ [mk rowid]) rowid).

(** [UPDATE ... SET ... WHERE p]. *)
Definition update_where {R : Type} (p : R -> bool) (f : R -> R) (t : Table R) : Table R :=
  mkTable (map (fun r => if p r then f r else r) (rows t)) (seq t).

(** [DELETE FROM ... WHERE p]. *)
Definition delete_where {R : Type} (p : R -> bool) (t : Table R) : Table R :=
  mkTable (filter (fun r => negb (p r)) (rows t)) (seq t).

(** [SELECT * FROM ... WHERE p]. *)
Definition select_where {R : Type} (p : R -> bool) (t : Table R) : list R :=
  filter p (rows t).

(** [SELECT COUNT( * )]. *)
Definition count_rows {R : Type} (t : Table R) : Z :=
  Z.of_nat (List.length (rows t)).

(** [ORDER BY]: a stable insertion sort on the key order [le]. *)
Fixpoint insert_sorted {R : Type} (le : R -> R -> bool) (x : R) (l : list R) : list R :=
  match l with
  | [] => [x]
  | y :: l' => if le x y then x :: y :: l' else y :: insert_sorted le x l'
  end.

Definition order_by {R : Type} (le : R -> R -> bool) (l : list R) : list R :=
  fold_right (insert_sorted le) [] l.

(** The five tables of inventory.db. *)
Record Database := mkDatabase {
  categories : Table Category.t;
  items : Table Item.t;
  customers : Table Customer.t;
  invoices : Table Invoice.t;
  invoice_items : Table InvoiceItem.t
}.

Definition empty_database : Database :=
  mkDatabase empty_table empty_table empty_table empty_table empty_table.

Definition set_categories (t : Table Category.t) (d : Database) : Database :=
  mkDatabase t (items d) (customers d) (invoices d) (invoice_items d).
Definition set_items (t : Table Item.t) (d : Database) : Database :=
  mkDatabase (categories d) t (customers d) (invoices d) (invoice_items d).
Definition set_customers (t : Table Customer.t) (d : Database) : Database :=
  mkDatabase (categories d) (items d) t (invoices d) (invoice_items d).
Definition set_invoices (t : Table Invoice.t) (d : Database) : Database :=
  mkDatabase (categories d) (items d) (customers d) t (invoice_items d).
Definition set_invoice_items (t : Table InvoiceItem.t) (d : Database) : Database :=
  mkDatabase (categories d) (items d) (customers d) (invoices d) t.

(** ** The service and its effects *)

(** [db] is [this.db !== null]; [inventory_db] is the content of the file
    'inventory.db', [None] as long as [createTables] has never run on it. *)
Record DatabaseService := mkService {
  db : bool;
  inventory_db : option Database
}.

Inductive Error :=
| NotInitialized                (* new Error('Database not initialized') *)
| SqlError (msg : string).       (* an error of the storage engine *)

Inductive Result (A : Type) :=
| Ok (a : A)
| Throw (e : Error).
Arguments Ok {A} _.
Arguments Throw {A} _.

(** An [async] method of the service. *)
Definition M (A : Type) := DatabaseService -> Result A * DatabaseService.

Definition ret {A : Type} (a : A) : M A := fun s => (Ok a, s).

Definition bind {A B : Type} (m : M A) (k : A -> M B) : M B :=
  fun s =>
    match m s with
    | (Ok a, s') => k a s'
    | (Throw e, s') => (Throw e, s')
    end.

Definition throw {A : Type} (e : Error) : M A := fun s => (Throw e, s).

Declare Scope service_scope.
Delimit Scope service_scope with service.
Notation "x <- m ;; k" := (bind m (fun x => k))
  (at level 61, m at next level, right associativity) : service_scope.
Notation "m ;; k" := (bind m (fun _ => k))
  (at level 61, right associativity) : service_scope.
Open Scope service_scope.

(** [if (!this.db) throw new Error('Database not initialized')]. *)
Definition require_db : M unit :=
  fun s => if db s then (Ok tt, s) else (Throw NotInitialized, s).

(** One SQL statement run on the open database. *)
Definition Statement (A : Type) := Database -> Result A * Database.

Definition run {A : Type} (q : Statement A) : M A :=
  fun s =>
    match inventory_db s with
    | Some d => let (r, d') := q d in (r, mkService (db s) (Some d'))
    | None => (Throw (SqlError "no such table"), s)
    end.

(** [for (const x of l) { await body(x) }]. *)
Fixpoint for_of {A : Type} (l : list A) (body : A -> M unit) : M unit :=
  match l with
  | [] => ret tt
  | x :: l' => body x ;; for_of l' body
  end.

(** [try { m } catch (error) { console.error(...) }]. *)
Definition try_catch_log (m : M unit) : M unit :=
  fun s => let (_, s') := m s in (Ok tt, s').

(** ** SQL statements issued by the service *)

Definition has_category_name (n : string) (t : Table Category.t) : bool :=
  existsb (fun c => String.eqb (Category.name c) n) (rows t).

Definition has_invoice_number (n : string) (t : Table Invoice.t) : bool :=
  existsb (fun i => String.eqb (Invoice.invoice_number i) n) (rows t).

(** [INSERT INTO categories (name, description) VALUES (?, ?)];
    [name] is [UNIQUE]. Returns [lastInsertRowId]. *)
Definition insert_category (now : Timestamp) (name description : string) : Statement Z :=
  fun d =>
    if has_category_name name (categories d)
    then (Throw (SqlError "UNIQUE constraint failed: categories.name"), d)
    else
      let (rowid, t) :=
        insert_row (fun i => Category.mk i name (Some description) now) (categories d) in
      (Ok rowid, set_categories t d).

(** [INSERT OR IGNORE INTO categories (name, description) VALUES (?, ?)]:
    a row whose name is taken is skipped. The rowid was drawn before the
    clash was seen and the statement does not fail, so the counter of
    the table moves on all the same: after a second [initDatabase] on a
    fresh store the counter stands at 8 and the next category gets
    id 9. *)
Definition insert_or_ignore_category (now : Timestamp) (name description : string)
  : Statement unit :=
  fun d =>
    if has_category_name name (categories d)
    then
      (Ok tt,
       set_categories (mkTable (rows (categories d)) (seq (categories d) + 1)) d)
    else
      let (_, t) :=
        insert_row (fun i => Category.mk i name (Some description) now) (categories d) in
      (Ok tt, set_categories t d).

(** [UPDATE categories SET name = ?, description = ? WHERE id = ?]: fails
    when the row exists and another row already bears the new name. *)
Definition update_category (id : Z) (name description : string) : Statement unit :=
  fun d =>
    let t := categories d in
    if existsb (fun c => Category.id c =? id) (rows t)
       && existsb (fun c => negb (Category.id c =? id) && String.eqb (Category.name c) name)
            (rows t)
    then (Throw (SqlError "UNIQUE constraint failed: categories.name"), d)
    else
      (Ok tt,
       set_categories
         (update_where (fun c => Category.id c =? id)
            (fun c => Category.mk (Category.id c) name (Some description)
                        (Category.created_at c)) t) d).

(** [DELETE FROM categories WHERE id = ?]. *)
Definition delete_category (id : Z) : Statement unit :=
  fun d => (Ok tt, set_categories (delete_where (fun c => Category.id c =? id) (categories d)) d).

(** [INSERT INTO items (name, category_id, price, quantity, description)];
    [price] is [REAL NOT NULL]. A statement that fails inserts nothing
    and leaves the counter of the table alone. *)
Definition insert_item (now : Timestamp) (name : string) (categoryId : Z) (price : number)
  (quantity : Z) (description : string) : Statement Z :=
  fun d =>
    match bind_REAL price with
    | None => (Throw (SqlError "NOT NULL constraint failed: items.price"), d)
    | Some stored =>
        let (rowid, t) :=
          insert_row
            (fun i => Item.mk i name categoryId stored quantity (Some description) now)
            (items d) in
        (Ok rowid, set_items t d)
    end.

(** [UPDATE items SET name = ?, category_id = ?, price = ?, quantity = ?,
    description = ? WHERE id = ?]. The [NOT NULL] check is made on the
    rows that the statement reaches: with no row of that id nothing is
    checked and nothing fails. *)
Definition update_item (id : Z) (name : string) (categoryId : Z) (price : number)
  (quantity : Z) (description : string) : Statement unit :=
  fun d =>
    match bind_REAL price with
    | None =>
        if existsb (fun i => Item.id i =? id) (rows (items d))
        then (Throw (SqlError "NOT NULL constraint failed: items.price"), d)
        else (Ok tt, d)
    | Some stored =>
        (Ok tt,
         set_items
           (update_where (fun i => Item.id i =? id)
              (fun i => Item.mk (Item.id i) name categoryId stored quantity
                          (Some description) (Item.created_at i)) (items d)) d)
    end.

(** [UPDATE items SET quantity = ? WHERE id = ?]. *)
Definition update_item_quantity (id : Z) (quantity : Z) : Statement unit :=
  fun d =>
    (Ok tt,
     set_items
       (update_where (fun i => Item.id i =? id)
          (fun i => Item.mk (Item.id i) (Item.name i) (Item.category_id i) (Item.price i)
                      quantity (Item.description i) (Item.created_at i)) (items d)) d).

(** [DELETE FROM items WHERE id = ?]. *)
Definition delete_item (id : Z) : Statement unit :=
  fun d => (Ok tt, set_items (delete_where (fun i => Item.id i =? id) (items d)) d).

(** [INSERT INTO customers (name, phone, email) VALUES (?, ?, ?)]. *)
Definition insert_customer (now : Timestamp) (name phone email : string) : Statement Z :=
  fun d =>
    let (rowid, t) :=
      insert_row (fun i => Customer.mk i name phone (Some email) now) (customers d) in
    (Ok rowid, set_customers t d).

(** [UPDATE customers SET name = ?, phone = ?, email = ? WHERE id = ?]. *)
Definition update_customer (id : Z) (name phone email : string) : Statement unit :=
  fun d =>
    (Ok tt,
     set_customers
       (update_where (fun c => Customer.id c =? id)
          (fun c => Customer.mk (Customer.id c) name phone (Some email)
                      (Customer.created_at c)) (customers d)) d).

(** [DELETE FROM customers WHERE id = ?]. *)
Definition delete_customer (id : Z) : Statement unit :=
  fun d => (Ok tt, set_customers (delete_where (fun c => Customer.id c =? id) (customers d)) d).

(** [INSERT INTO invoices (invoice_number, customer_id, invoice_date,
    subtotal, vat_amount, total_amount)]; [invoice_number] is [UNIQUE].
    The three totals are numbers that the columns keep as they are (see
    the conventions above). *)
Definition insert_invoice (now : Timestamp) (invoiceNumber : string) (customerId : Z)
  (invoiceDate : string) (subtotal vatAmount totalAmount : number) : Statement Z :=
  fun d =>
    if has_invoice_number invoiceNumber (invoices d)
    then (Throw (SqlError "UNIQUE constraint failed: invoices.invoice_number"), d)
    else
      let (rowid, t) :=
        insert_row
          (fun i => Invoice.mk i invoiceNumber customerId invoiceDate subtotal vatAmount
                      totalAmount now) (invoices d) in
      (Ok rowid, set_invoices t d).

(** [UPDATE invoices SET customer_id = ?, invoice_date = ?, subtotal = ?,
    vat_amount = ?, total_amount = ? WHERE id = ?]. The three totals
    are numbers that the columns keep as they are (see the conventions
    above). *)
Definition update_invoice (id : Z) (customerId : Z) (invoiceDate : string)
  (subtotal vatAmount totalAmount : number) : Statement unit :=
  fun d =>
    (Ok tt,
     set_invoices
       (update_where (fun i => Invoice.id i =? id)
          (fun i => Invoice.mk (Invoice.id i) (Invoice.invoice_number i) customerId
                      invoiceDate subtotal vatAmount totalAmount (Invoice.created_at i))
          (invoices d)) d).

(** [INSERT INTO invoice_items (invoice_id, item_id, quantity, unit_price,
    extended_amount) VALUES (?, ?, ?, ?, ?)]. The unit price and the
    amount are numbers that the columns keep as they are (see the
    conventions above). *)
Definition insert_invoice_item (invoiceId itemId quantity : Z)
  (unitPrice extendedAmount : number) : Statement unit :=
  fun d =>
    let (_, t) :=
      insert_row (fun i => InvoiceItem.mk i invoiceId itemId quantity unitPrice extendedAmount)
        (invoice_items d) in
    (Ok tt, set_invoice_items t d).

(** [DELETE FROM invoice_items WHERE invoice_id = ?]. *)
Definition delete_invoice_items (invoiceId : Z) : Statement unit :=
  fun d =>
    (Ok tt,
     set_invoice_items
       (delete_where (fun r => InvoiceItem.invoice_id r =? invoiceId) (invoice_items d)) d).

(** A [SELECT]: reads, never writes. *)
Definition query {A : Type} (f : Database -> A) : Statement A :=
  fun d => (Ok (f d), d).

(** ** DatabaseService *)

(** [SQLite.openDatabaseAsync('inventory.db')] followed by the assignment
    to [this.db]. *)
Definition openDatabase : M unit :=
  fun s => (Ok tt, mkService true (inventory_db s)).

(** Five [CREATE TABLE IF NOT EXISTS]: an existing schema is left alone. *)
Definition createTables : M unit :=
  require_db ;;
  fun s =>
    (Ok tt,
     mkService (db s)
       (match inventory_db s with
        | Some d => Some d
        | None => Some empty_database
        end)).

Definition insertDefaultData (now : Timestamp) : M unit :=
  require_db ;;
  try_catch_log
    (run (insert_or_ignore_category now "Electronics" "Electronic devices and accessories") ;;
     run (insert_or_ignore_category now "Clothing" "Apparel and fashion items") ;;
     run (insert_or_ignore_category now "Books" "Books and educational materials") ;;
     run (insert_or_ignore_category now "Home & Garden"
            "Home improvement and garden supplies")).

(** The [catch] of [initDatabase] logs and rethrows, so it is the
    sequence of its three steps. *)
Definition initDatabase (now : Timestamp) : M unit :=
  openDatabase ;;
  createTables ;;
  insertDefaultData now.

Definition getCategories : M (list Category.t) :=
  require_db ;;
  run (query (fun d =>
    order_by (fun a b => String.leb (Category.name a) (Category.name b))
      (rows (categories d)))).

Definition addCategory (now : Timestamp) (name : string) (description : option string) : M Z :=
  require_db ;;
  run (insert_category now name (or_empty description)).

Definition updateCategory (id : Z) (name : string) (description : option string) : M unit :=
  require_db ;;
  run (update_category id name (or_empty description)).

Definition deleteCategory (id : Z) : M unit :=
  require_db ;;
  run (delete_category id).

Definition getItems : M (list Item.t) :=
  require_db ;;
  run (query (fun d =>
    order_by (fun a b => String.leb (Item.name a) (Item.name b)) (rows (items d)))).

Definition getItemsByCategory (categoryId : Z) : M (list Item.t) :=
  require_db ;;
  run (query (fun d =>
    order_by (fun a b => String.leb (Item.name a) (Item.name b))
      (select_where (fun i => Item.category_id i =? categoryId) (items d)))).

Definition addItem (now : Timestamp) (name : string) (categoryId : Z) (price : number)
  (quantity : Z) (description : option string) : M Z :=
  require_db ;;
  run (insert_item now name categoryId price quantity (or_empty description)).

Definition updateItem (id : Z) (name : string) (categoryId : Z) (price : number)
  (quantity : Z) (description : option string) : M unit :=
  require_db ;;
  run (update_item id name categoryId price quantity (or_empty description)).

Definition updateItemQuantity (id : Z) (quantity : Z) : M unit :=
  require_db ;;
  run (update_item_quantity id quantity).

Definition deleteItem (id : Z) : M unit :=
  require_db ;;
  run (delete_item id).

Definition getCustomers : M (list Customer.t) :=
  require_db ;;
  run (query (fun d =>
    order_by (fun a b => String.leb (Customer.name a) (Customer.name b))
      (rows (customers d)))).

Definition addCustomer (now : Timestamp) (name phone : string) (email : option string) : M Z :=
  require_db ;;
  run (insert_customer now name phone (or_empty email)).

Definition updateCustomer (id : Z) (name phone : string) (email : option string) : M unit :=
  require_db ;;
  run (update_customer id name phone (or_empty email)).

Definition deleteCustomer (id : Z) : M unit :=
  require_db ;;
  run (delete_customer id).

(** [ORDER BY created_at DESC]. *)
Definition getInvoices : M (list Invoice.t) :=
  require_db ;;
  run (query (fun d =>
    order_by (fun a b => Invoice.created_at b <=? Invoice.created_at a)
      (rows (invoices d)))).

Definition generateInvoiceNumber : M string :=
  require_db ;;
  result <- run (query (fun d => count_rows (invoices d))) ;;
  let count := if result =? 0 then 0 else result in   (* result?.count || 0 *)
  ret ("INV-" ++ padStart 6 "0" (String_of (count + 1))).

Definition addInvoice (now : Timestamp) (invoiceNumber : string) (customerId : Z)
  (invoiceDate : string) (subtotal vatAmount totalAmount : number) : M Z :=
  require_db ;;
  run (insert_invoice now invoiceNumber customerId invoiceDate subtotal vatAmount totalAmount).

Definition addInvoiceItem (invoiceId itemId quantity : Z)
  (unitPrice extendedAmount : number) : M unit :=
  require_db ;;
  run (insert_invoice_item invoiceId itemId quantity unitPrice extendedAmount).

Definition updateInvoice (id : Z) (customerId : Z) (invoiceDate : string)
  (subtotal vatAmount totalAmount : number) : M unit :=
  require_db ;;
  run (update_invoice id customerId invoiceDate subtotal vatAmount totalAmount).

Definition deleteInvoiceItems (invoiceId : Z) : M unit :=
  require_db ;;
  run (delete_invoice_items invoiceId).

Definition getInvoiceItems (invoiceId : Z) : M (list InvoiceItem.t) :=
  require_db ;;
  run (query (fun d =>
    select_where (fun r => InvoiceItem.invoice_id r =? invoiceId) (invoice_items d))).

Record DashboardStats := mkStats {
  totalItems : Z;
  totalInvoices : Z;
  totalCustomers : Z
}.

Definition getDashboardStats : M DashboardStats :=
  require_db ;;
  itemCount <- run (query (fun d => count_rows (items d))) ;;
  invoiceCount <- run (query (fun d => count_rows (invoices d))) ;;
  customerCount <- run (query (fun d => count_rows (customers d))) ;;
  ret (mkStats (if itemCount =? 0 then 0 else itemCount)
               (if invoiceCount =? 0 then 0 else invoiceCount)
               (if customerCount =? 0 then 0 else customerCount)).

(** ** CreateInvoiceScreen *)

Module InvoiceItemData.
Record t := mk {
  id : option Z;
  item_id : Z;
  item_name : string;
  quantity : Z;
  unit_price : number;
  extended_amount : number
}.
End InvoiceItemData.

Module FormData.
(** [invoice_date] holds [invoice_date.toISOString()]. *)
Record t := mk {
  customer_id : Z;
  invoice_date : string;
  items : list InvoiceItemData.t
}.
End FormData.

#[local] Set Warnings "-inexact-float".
Definition VAT_RATE : number := 0.15%float.
#[local] Set Warnings "+inexact-float".

(** What the screen shows when a handler ends. *)
Inductive Toast :=
| showError (msg : string)
| showSuccess (msg : string).

(** [if (invoiceId)]: [undefined] and [0] are falsy. *)
Definition truthy_id (o : option Z) : option Z :=
  match o with
  | Some i => if i =? 0 then None else Some i
  | None => None
  end.

(** [a[i] = x] on a copy of [a], for [0 <= i]. Writing past the end would
    leave holes in the array; that case is [None], it is outside this
    model. *)
Fixpoint array_set {A : Type} (a : list A) (i : nat) (x : A) : option (list A) :=
  match a, i with
  | [], O => Some [x]
  | [], S _ => None
  | _ :: a', O => Some (x :: a')
  | y :: a', S i' => option_map (cons y) (array_set a' i' x)
  end.

Module Screen.
(** The React state of the screen that the handlers below read.
    [itemQuantity] and [itemPrice] are the two text fields after
    [Number(...)]; a quantity that is not a number is [None]. *)
Record t := mk {
  invoiceId : option Z;
  items : list Item.t;
  invoiceNumber : string;
  selectedItemId : Z;
  itemQuantity : option Z;
  itemPrice : number;
  editingItemIndex : Z;
  formData : FormData.t
}.

Definition set_formData (f : FormData.t) (scr : t) : t :=
  mk (invoiceId scr) (items scr) (invoiceNumber scr) (selectedItemId scr)
     (itemQuantity scr) (itemPrice scr) (editingItemIndex scr) f.

Definition set_items (l : list Item.t) (scr : t) : t :=
  mk (invoiceId scr) l (invoiceNumber scr) (selectedItemId scr)
     (itemQuantity scr) (itemPrice scr) (editingItemIndex scr) (formData scr).

Definition set_invoiceNumber (n : string) (scr : t) : t :=
  mk (invoiceId scr) (items scr) n (selectedItemId scr)
     (itemQuantity scr) (itemPrice scr) (editingItemIndex scr) (formData scr).

(** The state at mount: [useState] initial values. *)
Definition initial (invoiceId : option Z) (today : string) : t :=
  mk invoiceId [] "" 0 (Some 1) 0%float (-1) (FormData.mk 0 today []).
End Screen.

Inductive FormOutcome :=
| Rejected (toast : Toast)        (* a validation message, state unchanged *)
| Ignored                          (* silent return, state unchanged *)
| Accepted (scr : Screen.t)        (* the new state *)
| SparseArray.                     (* an edit index past the end of the lines *)

Record Totals := mkTotals {
  subtotal : number;
  vatAmount : number;
  total : number
}.

Module CreateInvoiceScreen.

Definition closeItemModal (scr : Screen.t) : Screen.t :=
  Screen.mk (Screen.invoiceId scr) (Screen.items scr) (Screen.invoiceNumber scr)
    0 (Some 1) 0%float (-1) (Screen.formData scr).

Definition addOrUpdateItem (scr : Screen.t) : FormOutcome :=
  if Screen.selectedItemId scr =? 0 then Rejected (showError "Please select an item")
  else
    match Screen.itemQuantity scr with
    | None => Rejected (showError "Please enter a valid quantity")
    | Some quantity =>
        if quantity <=? 0 then Rejected (showError "Please enter a valid quantity")
        else
          let price := Screen.itemPrice scr in
          if PrimFloat.is_nan price || PrimFloat.leb price 0%float
          then Rejected (showError "Please enter a valid price")
          else
            match find (fun i => Item.id i =? Screen.selectedItemId scr) (Screen.items scr) with
            | None => Ignored
            | Some item =>
                let newItem :=
                  InvoiceItemData.mk None (Screen.selectedItemId scr) (Item.name item)
                    quantity price (PrimFloat.mul (number_of_Z quantity) price) in
                let prev := Screen.formData scr in
                let newItems :=
                  if Screen.editingItemIndex scr >=? 0
                  then array_set (FormData.items prev)
                         (Z.to_nat (Screen.editingItemIndex scr)) newItem
                  else Some (FormData.items prev ++ [newItem])%list in
                match newItems with
                | None => SparseArray
                | Some l =>
                    Accepted
                      (closeItemModal
                         (Screen.set_formData
                            (FormData.mk (FormData.customer_id prev)
                               (FormData.invoice_date prev) l) scr))
                end
            end
    end.

Definition calculateTotals (formData : FormData.t) : Totals :=
  let subtotal :=
    fold_left (fun sum item => PrimFloat.add sum (InvoiceItemData.extended_amount item))
      (FormData.items formData) 0%float in
  let vatAmount := PrimFloat.mul subtotal VAT_RATE in
  let total := PrimFloat.add subtotal vatAmount in
  mkTotals subtotal vatAmount total.

(** The [try] block of [handleSave]. *)
Definition saveInvoice (now : Timestamp) (scr : Screen.t) : M unit :=
  let formData := Screen.formData scr in
  let totals := calculateTotals formData in
  let invoiceDate := split_head "T" (FormData.invoice_date formData) in
  match truthy_id (Screen.invoiceId scr) with
  | Some invoiceId =>
      updateInvoice invoiceId (FormData.customer_id formData) invoiceDate
        (subtotal totals) (vatAmount totals) (total totals) ;;
      deleteInvoiceItems invoiceId ;;
      for_of (FormData.items formData) (fun item =>
        addInvoiceItem invoiceId (InvoiceItemData.item_id item)
          (InvoiceItemData.quantity item) (InvoiceItemData.unit_price item)
          (InvoiceItemData.extended_amount item))
  | None =>
      newInvoiceId <- addInvoice now (Screen.invoiceNumber scr)
                        (FormData.customer_id formData) invoiceDate
                        (subtotal totals) (vatAmount totals) (total totals) ;;
      for_of (FormData.items formData) (fun item =>
        addInvoiceItem newInvoiceId (InvoiceItemData.item_id item)
          (InvoiceItemData.quantity item) (InvoiceItemData.unit_price item)
          (InvoiceItemData.extended_amount item) ;;
        match find (fun i => Item.id i =? InvoiceItemData.item_id item) (Screen.items scr) with
        | Some currentItem =>
            let newQuantity :=
              Z.max 0 (Item.quantity currentItem - InvoiceItemData.quantity item) in
            updateItemQuantity (InvoiceItemData.item_id item) newQuantity
        | None => ret tt
        end)
  end.

Definition handleSave (now : Timestamp) (scr : Screen.t)
  : DatabaseService -> Toast * DatabaseService :=
  fun s =>
    if FormData.customer_id (Screen.formData scr) =? 0
    then (showError "Please select a customer", s)
    else if (List.length (FormData.items (Screen.formData scr)) =? 0)%nat
    then (showError "Please add at least one item", s)
    else
      match saveInvoice now scr s with
      | (Ok _, s') =>
          (showSuccess (match truthy_id (Screen.invoiceId scr) with
                        | Some _ => "Invoice updated successfully"
                        | None => "Invoice created successfully"
                        end), s')
      | (Throw _, s') => (showError "Failed to save invoice", s')
      end.

(** [loadData]: the three lists are fetched; only the item list is kept
    in the modelled state, next to the preselected customer. *)
Definition loadData (scr : Screen.t) : DatabaseService -> Screen.t * DatabaseService :=
  fun s =>
    match (customersData <- getCustomers ;;
           _ <- getCategories ;;
           itemsData <- getItems ;;
           ret (customersData, itemsData)) s with
    | (Ok (customersData, itemsData), s') =>
        let scr1 := Screen.set_items itemsData scr in
        match customersData, truthy_id (Screen.invoiceId scr) with
        | c :: _, None =>
            let prev := Screen.formData scr1 in
            (Screen.set_formData
               (FormData.mk (Customer.id c) (FormData.invoice_date prev)
                  (FormData.items prev)) scr1, s')
        | _, _ => (scr1, s')
        end
    | (Throw _, s') => (scr, s')
    end.

Definition generateInvoiceNumber (scr : Screen.t)
  : DatabaseService -> Screen.t * DatabaseService :=
  fun s =>
    match generateInvoiceNumber s with
    | (Ok number, s') => (Screen.set_invoiceNumber number scr, s')
    | (Throw _, s') => (scr, s')
    end.

(** [new Date(d).toISOString()] for a stored date [d]. A day of the
    calendar written YYYY-MM-DD is read as that day at midnight UTC. The
    state of this model keeps the date of the form by its ISO string, so
    it holds valid Dates only; for any other stored value the Date is
    one it cannot hold (Invalid Date, whose [toISOString] throws
    RangeError in [handleSave], or an instant that depends on the
    parser of the engine or on the storage class SQLite gave the text):
    that is [None]. *)
Definition iso_of_date (d : string) : option string :=
  if is_calendar_date d then Some (d ++ "T00:00:00.000Z") else None.

(** [loadInvoice]; [None] when the stored date of the invoice is not a
    calendar date (see [iso_of_date]): the model stops there. *)
Definition loadInvoice (scr : Screen.t)
  : DatabaseService -> option (Screen.t * DatabaseService) :=
  fun s =>
    match truthy_id (Screen.invoiceId scr) with
    | None => Some (scr, s)
    | Some invoiceId =>
        match getInvoices s with
        | (Throw _, s') => Some (scr, s')
        | (Ok invoices, s') =>
            match find (fun i => Invoice.id i =? invoiceId) invoices with
            | None => Some (scr, s')
            | Some invoice =>
                match iso_of_date (Invoice.invoice_date invoice) with
                | None => None
                | Some invoice_date =>
                    let scr1 :=
                      Screen.set_formData
                        (FormData.mk (Invoice.customer_id invoice) invoice_date
                           (FormData.items (Screen.formData scr)))
                        (Screen.set_invoiceNumber (Invoice.invoice_number invoice) scr) in
                    match (invoiceItems <- getInvoiceItems invoiceId ;;
                           allItems <- getItems ;;
                           ret (invoiceItems, allItems)) s' with
                    | (Throw _, s'') => Some (scr1, s'')
                    | (Ok (invoiceItems, allItems), s'') =>
                        let itemsWithNames :=
                          map (fun item =>
                                 let itemData :=
                                   find (fun i => Item.id i =? InvoiceItem.item_id item)
                                     allItems in
                                 InvoiceItemData.mk (Some (InvoiceItem.id item))
                                   (InvoiceItem.item_id item)
                                   (match itemData with
                                    | Some i =>
                                        if String.eqb (Item.name i) "" then "Unknown Item"
                                        else Item.name i
                                    | None => "Unknown Item"
                                    end)
                                   (InvoiceItem.quantity item) (InvoiceItem.unit_price item)
                                   (InvoiceItem.extended_amount item))
                            invoiceItems in
                        let prev := Screen.formData scr1 in
                        Some (Screen.set_formData
                                (FormData.mk (FormData.customer_id prev)
                                   (FormData.invoice_date prev) itemsWithNames) scr1, s'')
                    end
                end
            end
        end
    end.

(** The screen as it stands once the first mount effect has run:
    [loadData], then the number when the invoice is a new one. *)
Definition mount (invoiceId : option Z) (today : string)
  : DatabaseService -> Screen.t * DatabaseService :=
  fun s =>
    let (scr1, s1) := loadData (Screen.initial invoiceId today) s in
    match truthy_id invoiceId with
    | None => generateInvoiceNumber scr1 s1
    | Some _ => (scr1, s1)
    end.

(** The screen of an existing invoice once both mount effects have run:
    the first one, then [loadInvoice]. *)
Definition mount_edit (invoiceId : Z) (today : string)
  : DatabaseService -> option (Screen.t * DatabaseService) :=
  fun s =>
    let (scr1, s1) := mount (Some invoiceId) today s in
    loadInvoice scr1 s1.

End CreateInvoiceScreen.

(** The service once [initDatabase] has run, holding the tables [d]. *)
Definition opened (d : Database) : DatabaseService := mkService true (Some d).

(** ** A small store used to exercise the statements *)

(** The store after a first [initDatabase], one item, one customer. *)
Definition example_service : DatabaseService :=
  Eval vm_compute in
    snd ((initDatabase 100 ;;
          _ <- addItem 101 "Widget" 1 5%float 10 None ;;
          _ <- addItem 101 "Gadget" 1 2.5%float 2 (Some "small") ;;
          _ <- addCustomer 102 "Bob" "555-0100" None ;;
          ret tt) (mkService false None)).

Definition example_db : Database :=
  Eval vm_compute in
    match inventory_db example_service with
    | Some d => d
    | None => empty_database
    end.

(** ** Vocabulary of the statements *)

(** The items table of the service, if the file has tables. *)
Definition items_of (s : DatabaseService) : option (Table Item.t) :=
  option_map items (inventory_db s).

(** An effect that leaves the items table alone, whatever it returns. *)
Definition keeps_items {A : Type} (m : M A) : Prop :=
  forall s, items_of (snd (m s)) = items_of s.

(** The tables after one iteration of the loop of the update path. *)
Definition add_line_db (invoiceId : Z) (item : InvoiceItemData.t) (d : Database) : Database :=
  snd (insert_invoice_item invoiceId (InvoiceItemData.item_id item)
         (InvoiceItemData.quantity item) (InvoiceItemData.unit_price item)
         (InvoiceItemData.extended_amount item) d).

(** The tables after one iteration of the loop of the create path, which
    looks the item up in the screen's own list [snapshot]. *)
Definition sell_line_db (snapshot : list Item.t) (invoiceId : Z)
  (item : InvoiceItemData.t) (d : Database) : Database :=
  let d1 := add_line_db invoiceId item d in
  match find (fun i => Item.id i =? InvoiceItemData.item_id item) snapshot with
  | Some currentItem =>
      snd (update_item_quantity (InvoiceItemData.item_id item)
             (Z.max 0 (Item.quantity currentItem - InvoiceItemData.quantity item)) d1)
  | None => d1
  end.

(** The rows of the categories table, none when the file has no tables. *)
Definition category_rows (s : DatabaseService) : list Category.t :=
  match inventory_db s with
  | Some d => rows (categories d)
  | None => []
  end.

(** The names seeded by [insertDefaultData]. *)
Definition default_categories : list string :=
  ["Electronics"; "Clothing"; "Books"; "Home & Garden"].

(** The tables after the four statements of [insertDefaultData]. *)
Definition seed_db (now : Timestamp) (d : Database) : Database :=
  let d1 := snd (insert_or_ignore_category now "Electronics"
                   "Electronic devices and accessories" d) in
  let d2 := snd (insert_or_ignore_category now "Clothing" "Apparel and fashion items" d1) in
  let d3 := snd (insert_or_ignore_category now "Books" "Books and educational materials" d2) in
  snd (insert_or_ignore_category now "Home & Garden"
         "Home improvement and garden supplies" d3).

(** The number written by a string of decimal digits (leading zeros
    allowed); [None] when a character is not a digit. *)
Definition number_of_digits (s : string) : option Z :=
  option_map Z.of_uint (NilEmpty.uint_of_string s).

(** [INV-] followed by [n] zero-padded to six digits, as
    [generateInvoiceNumber] builds it. *)
Definition INV (n : Z) : string := "INV-" ++ padStart 6 "0" (String_of n).

(** The tables after the create path of [handleSave] has run to its end:
    the invoice row is inserted with rowid [seq (invoices d) + 1], then
    the loop runs over the lines of the form. *)
Definition created_db (now : Timestamp) (scr : Screen.t) (d : Database) : Database :=
  let formData := Screen.formData scr in
  let totals := CreateInvoiceScreen.calculateTotals formData in
  let d1 :=
    snd (insert_invoice now (Screen.invoiceNumber scr) (FormData.customer_id formData)
           (split_head "T" (FormData.invoice_date formData))
           (subtotal totals) (vatAmount totals) (total totals) d) in
  fold_left (fun acc x => sell_line_db (Screen.items scr) (seq (invoices d) + 1) x acc)
    (FormData.items formData) d1.

(** One visit to the screen for a new invoice: the screen mounts, the
    user fills in the form, and saves. *)
Definition create_invoice (now : Timestamp) (form : FormData.t)
  : DatabaseService -> Toast * DatabaseService :=
  fun s =>
    let (scr, s1) := CreateInvoiceScreen.mount None (FormData.invoice_date form) s in
    CreateInvoiceScreen.handleSave now (Screen.set_formData form scr) s1.

(** A run of such visits, one after the other. *)
Fixpoint create_invoices (orders : list (Timestamp * FormData.t)) (s : DatabaseService)
  : DatabaseService :=
  match orders with
  | [] => s
  | (now, form) :: rest => create_invoices rest (snd (create_invoice now form s))
  end.

(** A form that passes the two checks at the head of [handleSave]. *)
Definition complete_form (form : FormData.t) : Prop :=
  FormData.customer_id form <> 0 /\ FormData.items form <> [].

(** The invoice numbers of the store in creation (rowid) order. *)
Definition invoice_numbers (d : Database) : list string :=
  map Invoice.invoice_number (rows (invoices d)).

(** The invoices are numbered INV-000001, INV-000002, ... in creation
    order. *)
Definition numbered (d : Database) : Prop :=
  invoice_numbers d
  = map (fun n => INV (Z.of_nat n)) (List.seq 1 (List.length (rows (invoices d)))).

(** The invoice_items row written for a line of the form. *)
Definition line_row (invoiceId rowid : Z) (x : InvoiceItemData.t) : InvoiceItem.t :=
  InvoiceItem.mk rowid invoiceId (InvoiceItemData.item_id x) (InvoiceItemData.quantity x)
    (InvoiceItemData.unit_price x) (InvoiceItemData.extended_amount x).

(** The rows written for the lines of the form, rowids following [after]. *)
Fixpoint line_rows (invoiceId after : Z) (lines : list InvoiceItemData.t)
  : list InvoiceItem.t :=
  match lines with
  | [] => []
  | x :: rest => line_row invoiceId (after + 1) x :: line_rows invoiceId (after + 1) rest
  end.

(** The subtotal recomputed from stored line items, summed in the order
    in which they are read. *)
Definition stored_subtotal (lines : list InvoiceItem.t) : number :=
  fold_left (fun sum r => PrimFloat.add sum (InvoiceItem.extended_amount r)) lines 0%float.

(** The number written 0.15: the binary64 nearest to 15/100. *)
Definition fifteen_percent : number := 0x1.3333333333333p-3%float.

(** The three totals of an invoice row agree with its line items:
    subtotal = the sum of the extended amounts, vat_amount = subtotal
    times 0.15, total_amount = subtotal + vat_amount. *)
Definition totals_match (inv : Invoice.t) (lines : list InvoiceItem.t) : Prop :=
  Invoice.subtotal inv = stored_subtotal lines
  /\ Invoice.vat_amount inv = PrimFloat.mul (Invoice.subtotal inv) fifteen_percent
  /\ Invoice.total_amount inv
     = PrimFloat.add (Invoice.subtotal inv) (Invoice.vat_amount inv).

(** Rowids handed out so far do not exceed the high-water mark of the
    invoices table, and no line item points at an invoice that does not
    exist yet. *)
Definition well_keyed (d : Database) : Prop :=
  0 <= seq (invoices d)
  /\ (forall i, In i (rows (invoices d)) -> Invoice.id i <= seq (invoices d))
  /\ (forall r, In r (rows (invoice_items d)) ->
                InvoiceItem.invoice_id r <= seq (invoices d)).

(** The tables after the update path of [handleSave] has run to its end. *)
Definition updated_db (scr : Screen.t) (invoiceId : Z) (d : Database) : Database :=
  let formData := Screen.formData scr in
  let totals := CreateInvoiceScreen.calculateTotals formData in
  let d1 :=
    snd (update_invoice invoiceId (FormData.customer_id formData)
           (split_head "T" (FormData.invoice_date formData))
           (subtotal totals) (vatAmount totals) (total totals) d) in
  let d2 := snd (delete_invoice_items invoiceId d1) in
  fold_left (fun acc x => add_line_db invoiceId x acc) (FormData.items formData) d2.

(** [UPDATE items SET quantity = q] on one row. *)
Definition with_quantity (q : Z) (i : Item.t) : Item.t :=
  Item.mk (Item.id i) (Item.name i) (Item.category_id i) (Item.price i) q
    (Item.description i) (Item.created_at i).

(** What the create path of [handleSave] makes of an items row: the
    last line of the form that names the item decides, and the quantity
    it is subtracted from is the one in the screen's own list. *)
Definition stock_after (snapshot : list Item.t) (lines : list InvoiceItemData.t)
  (i : Item.t) : Item.t :=
  match find (fun x => InvoiceItemData.item_id x =? Item.id i) (List.rev lines),
        find (fun c => Item.id c =? Item.id i) snapshot with
  | Some x, Some currentItem =>
      with_quantity (Z.max 0 (Item.quantity currentItem - InvoiceItemData.quantity x)) i
  | _, _ => i
  end.

(** The user picks an item in the modal and types a quantity and a
    price. *)
Definition fill_item_modal (itemId : Z) (quantity : option Z) (price : number)
  (scr : Screen.t) : Screen.t :=
  Screen.mk (Screen.invoiceId scr) (Screen.items scr) (Screen.invoiceNumber scr)
    itemId quantity price (Screen.editingItemIndex scr) (Screen.formData scr).

(** The user opens the modal on the line at [index]. *)
Definition edit_line (index : Z) (scr : Screen.t) : Screen.t :=
  Screen.mk (Screen.invoiceId scr) (Screen.items scr) (Screen.invoiceNumber scr)
    (Screen.selectedItemId scr) (Screen.itemQuantity scr) (Screen.itemPrice scr)
    index (Screen.formData scr).

(** The screen after [addOrUpdateItem], unchanged unless the line was
    accepted. *)
Definition after_add (scr : Screen.t) : Screen.t :=
  match CreateInvoiceScreen.addOrUpdateItem scr with
  | Accepted scr' => scr'
  | _ => scr
  end.

(** A new invoice for 3 of the Widget, of which the store holds 10. *)
Definition example_order_screen : Screen.t :=
  after_add
    (fill_item_modal 1 (Some 3) 5%float
       (fst (CreateInvoiceScreen.mount None "2025-01-02T10:00:00.000Z"
               (opened example_db)))).

(** The same form after a second line is added for the same item: 3 and
    then 4 of the Widget. *)
Definition repeated_item_screen : Screen.t :=
  after_add (fill_item_modal 1 (Some 4) 5%float example_order_screen).

(** The store after [example_order_screen] is saved. *)
Definition example_sold_db : Database :=
  Eval vm_compute in created_db 200 example_order_screen example_db.

(** A second new invoice, opened on that store, for 5 of the Gadget. *)
Definition second_order_screen : Screen.t :=
  after_add
    (fill_item_modal 2 (Some 5) 2.5%float
       (fst (CreateInvoiceScreen.mount None "2025-01-03T09:00:00.000Z"
               (opened example_sold_db)))).

(** The first invoice opened for editing, its line changed to 7. *)
Definition example_edit_screen : Screen.t :=
  after_add
    (edit_line 0
       (fill_item_modal 1 (Some 7) 5%float
          (match CreateInvoiceScreen.mount_edit 1 "2025-01-04T09:00:00.000Z"
                   (opened example_sold_db) with
           | Some (scr, _) => scr
           | None => Screen.initial (Some 1) "2025-01-04T09:00:00.000Z"
           end))).

(** A store in which the user has edited one seeded category and deleted
    another. *)
Definition edited_service : DatabaseService :=
  Eval vm_compute in
    snd ((updateCategory 3 "Books" (Some "My library") ;; deleteCategory 2)
           example_service).

(** A line whose amount is its quantity times its unit price. *)
Definition priced (x : InvoiceItemData.t) : Prop :=
  InvoiceItemData.extended_amount x
  = PrimFloat.mul (number_of_Z (InvoiceItemData.quantity x)) (InvoiceItemData.unit_price x).

(** ** Sequences of calls *)

(** A call of one of the methods of the service that write to the
    store. *)
Inductive Call :=
| InitDatabase (now : Timestamp)
| AddCategory (now : Timestamp) (name : string) (description : option string)
| UpdateCategory (id : Z) (name : string) (description : option string)
| DeleteCategory (id : Z)
| AddItem (now : Timestamp) (name : string) (categoryId : Z) (price : number)
    (quantity : Z) (description : option string)
| UpdateItem (id : Z) (name : string) (categoryId : Z) (price : number)
    (quantity : Z) (description : option string)
| UpdateItemQuantity (id quantity : Z)
| DeleteItem (id : Z)
| AddCustomer (now : Timestamp) (name phone : string) (email : option string)
| UpdateCustomer (id : Z) (name phone : string) (email : option string)
| DeleteCustomer (id : Z)
| AddInvoice (now : Timestamp) (invoiceNumber : string) (customerId : Z)
    (invoiceDate : string) (subtotal vatAmount totalAmount : number)
| AddInvoiceItem (invoiceId itemId quantity : Z) (unitPrice extendedAmount : number)
| UpdateInvoice (id customerId : Z) (invoiceDate : string)
    (subtotal vatAmount totalAmount : number)
| DeleteInvoiceItems (invoiceId : Z).

(** The call made, its result dropped. *)
Definition perform (c : Call) : M unit :=
  match c with
  | InitDatabase now => initDatabase now
  | AddCategory now name description => _ <- addCategory now name description ;; ret tt
  | UpdateCategory id name description => updateCategory id name description
  | DeleteCategory id => deleteCategory id
  | AddItem now name categoryId price quantity description =>
      _ <- addItem now name categoryId price quantity description ;; ret tt
  | UpdateItem id name categoryId price quantity description =>
      updateItem id name categoryId price quantity description
  | UpdateItemQuantity id quantity => updateItemQuantity id quantity
  | DeleteItem id => deleteItem id
  | AddCustomer now name phone email => _ <- addCustomer now name phone email ;; ret tt
  | UpdateCustomer id name phone email => updateCustomer id name phone email
  | DeleteCustomer id => deleteCustomer id
  | AddInvoice now invoiceNumber customerId invoiceDate subtotal vatAmount totalAmount =>
      _ <- addInvoice now invoiceNumber customerId invoiceDate subtotal vatAmount
             totalAmount ;;
      ret tt
  | AddInvoiceItem invoiceId itemId quantity unitPrice extendedAmount =>
      addInvoiceItem invoiceId itemId quantity unitPrice extendedAmount
  | UpdateInvoice id customerId invoiceDate subtotal vatAmount totalAmount =>
      updateInvoice id customerId invoiceDate subtotal vatAmount totalAmount
  | DeleteInvoiceItems invoiceId => deleteInvoiceItems invoiceId
  end.

(** Calls made one after the other, each caller catching what its call
    throws. *)
Fixpoint perform_all (calls : list Call) (s : DatabaseService) : DatabaseService :=
  match calls with
  | [] => s
  | c :: rest => perform_all rest (snd (perform c s))
  end.

(** The tables a call leaves, on an initialized store: the statement
    that the called method runs. *)
Definition effect (c : Call) (d : Database) : Database :=
  match c with
  | InitDatabase now => seed_db now d
  | AddCategory now name description =>
      snd (insert_category now name (or_empty description) d)
  | UpdateCategory id name description =>
      snd (update_category id name (or_empty description) d)
  | DeleteCategory id => snd (delete_category id d)
  | AddItem now name categoryId price quantity description =>
      snd (insert_item now name categoryId price quantity (or_empty description) d)
  | UpdateItem id name categoryId price quantity description =>
      snd (update_item id name categoryId price quantity (or_empty description) d)
  | UpdateItemQuantity id quantity => snd (update_item_quantity id quantity d)
  | DeleteItem id => snd (delete_item id d)
  | AddCustomer now name phone email =>
      snd (insert_customer now name phone (or_empty email) d)
  | UpdateCustomer id name phone email =>
      snd (update_customer id name phone (or_empty email) d)
  | DeleteCustomer id => snd (delete_customer id d)
  | AddInvoice now invoiceNumber customerId invoiceDate subtotal vatAmount totalAmount =>
      snd (insert_invoice now invoiceNumber customerId invoiceDate subtotal vatAmount
             totalAmount d)
  | AddInvoiceItem invoiceId itemId quantity unitPrice extendedAmount =>
      snd (insert_invoice_item invoiceId itemId quantity unitPrice extendedAmount d)
  | UpdateInvoice id customerId invoiceDate subtotal vatAmount totalAmount =>
      snd (update_invoice id customerId invoiceDate subtotal vatAmount totalAmount d)
  | DeleteInvoiceItems invoiceId => snd (delete_invoice_items invoiceId d)
  end.

(** Rowids are positive, bounded by the counter of the table, and no two
    rows share one. *)
Definition keyed {R : Type} (id : R -> Z) (t : Table R) : Prop :=
  0 <= seq t
  /\ (forall r, In r (rows t) -> 0 < id r <= seq t)
  /\ NoDup (map id (rows t)).

(** What the schema promises: primary keys in all five tables, unique
    category names and unique invoice numbers. *)
Definition consistent (d : Database) : Prop :=
  keyed Category.id (categories d)
  /\ keyed Item.id (items d)
  /\ keyed Customer.id (customers d)
  /\ keyed Invoice.id (invoices d)
  /\ keyed InvoiceItem.id (invoice_items d)
  /\ NoDup (map Category.name (rows (categories d)))
  /\ NoDup (map Invoice.invoice_number (rows (invoices d))).

(** ** Vocabulary of the further properties *)


(** What an invoice line says, its rowid apart. *)
Definition line_content (r : InvoiceItem.t) : Z * Z * Z * number * number :=
  (InvoiceItem.invoice_id r, InvoiceItem.item_id r, InvoiceItem.quantity r,
   InvoiceItem.unit_price r, InvoiceItem.extended_amount r).

(** ** The other handlers of CreateInvoiceScreen *)

(** [a.filter((_, i) => p(i))], the positions counted from [i]. *)
Fixpoint filter_index {A : Type} (p : Z -> bool) (i : Z) (a : list A) : list A :=
  match a with
  | [] => []
  | x :: a' => if p i then x :: filter_index p (i + 1) a' else filter_index p (i + 1) a'
  end.

(** The 'Remove' button of the confirmation raised by
    [handleRemoveItem (index)]. *)
Definition handleRemoveItem (index : Z) (scr : Screen.t) : Screen.t :=
  let prev := Screen.formData scr in
  Screen.set_formData
    (FormData.mk (FormData.customer_id prev) (FormData.invoice_date prev)
       (filter_index (fun i => negb (i =? index)) 0 (FormData.items prev)))
    scr.

(** [openItemModal (index)]: for [index >= 0] the modal is filled from
    the line at that position; reading a line that is not there throws,
    which is [None]. The two text fields receive [toString()] of the
    line's numbers, read back by [Number(...)] as the same numbers. *)
Definition openItemModal (index : Z) (scr : Screen.t) : option Screen.t :=
  if index >=? 0 then
    match nth_error (FormData.items (Screen.formData scr)) (Z.to_nat index) with
    | Some item =>
        Some (Screen.mk (Screen.invoiceId scr) (Screen.items scr) (Screen.invoiceNumber scr)
                (InvoiceItemData.item_id item) (Some (InvoiceItemData.quantity item))
                (InvoiceItemData.unit_price item) index (Screen.formData scr))
    | None => None
    end
  else
    Some (Screen.mk (Screen.invoiceId scr) (Screen.items scr) (Screen.invoiceNumber scr)
            0 (Some 1) 0%float index (Screen.formData scr)).

(** [selectItem (itemId)]: the price field takes the catalog price of
    the item, when the item is in the screen's list. *)
Definition selectItem (itemId : Z) (scr : Screen.t) : Screen.t :=
  match find (fun i => Item.id i =? itemId) (Screen.items scr) with
  | Some item =>
      Screen.mk (Screen.invoiceId scr) (Screen.items scr) (Screen.invoiceNumber scr)
        itemId (Screen.itemQuantity scr) (Item.price item) (Screen.editingItemIndex scr)
        (Screen.formData scr)
  | None =>
      Screen.mk (Screen.invoiceId scr) (Screen.items scr) (Screen.invoiceNumber scr)
        itemId (Screen.itemQuantity scr) (Screen.itemPrice scr)
        (Screen.editingItemIndex scr) (Screen.formData scr)
  end.

(** The user types a quantity into the modal. *)
Definition setItemQuantity (quantity : option Z) (scr : Screen.t) : Screen.t :=
  Screen.mk (Screen.invoiceId scr) (Screen.items scr) (Screen.invoiceNumber scr)
    (Screen.selectedItemId scr) quantity (Screen.itemPrice scr)
    (Screen.editingItemIndex scr) (Screen.formData scr).

(** The store after [second_order_screen] is saved too: two invoices. *)
Definition example_two_invoices_db : Database :=
  Eval vm_compute in created_db 210 second_order_screen example_sold_db.

(** ** Strings of the screens *)

(** The strings of the screens are taken to hold characters with codes
    below 256. Among these, the white space and line terminators that
    [trim] removes are 9 to 13, 32 and 160. *)
Definition is_space (c : ascii) : bool :=
  let n := nat_of_ascii c in
  ((9 <=? n) && (n <=? 13) || (n =? 32) || (n =? 160))%nat.

Fixpoint trimStart (s : string) : string :=
  match s with
  | EmptyString => EmptyString
  | String c s' => if is_space c then trimStart s' else s
  end.

Fixpoint trimEnd (s : string) : string :=
  match s with
  | EmptyString => EmptyString
  | String c s' =>
      match trimEnd s' with
      | EmptyString => if is_space c then EmptyString else String c EmptyString
      | t => String c t
      end
  end.

(** [s.trim()]. *)
Definition trim (s : string) : string := trimEnd (trimStart s).

(** ** CategoryListScreen *)

Module CategoryScreen.
(** The React state of the screen that its handlers read and write. *)
Record t := mk {
  categories : list Category.t;
  modalVisible : bool;
  editingCategory : option Category.t;
  categoryName : string;
  categoryDescription : string;
  nameError : string
}.

Definition set_categories (l : list Category.t) (scr : t) : t :=
  mk l (modalVisible scr) (editingCategory scr) (categoryName scr)
    (categoryDescription scr) (nameError scr).

Definition set_nameError (e : string) (scr : t) : t :=
  mk (categories scr) (modalVisible scr) (editingCategory scr) (categoryName scr)
    (categoryDescription scr) e.
End CategoryScreen.

Module CategoryListScreen.

Definition openAddModal (scr : CategoryScreen.t) : CategoryScreen.t :=
  CategoryScreen.mk (CategoryScreen.categories scr) true None "" "" "".

Definition openEditModal (category : Category.t) (scr : CategoryScreen.t)
  : CategoryScreen.t :=
  CategoryScreen.mk (CategoryScreen.categories scr) true (Some category)
    (Category.name category) (or_empty (Category.description category)) "".

Definition closeModal (scr : CategoryScreen.t) : CategoryScreen.t :=
  CategoryScreen.mk (CategoryScreen.categories scr) false None "" "" "".

(** [loadCategories]: the store is initialized again on every load. The
    result carries the toasts shown. *)
Definition loadCategories (now : Timestamp) (scr : CategoryScreen.t)
  : DatabaseService -> CategoryScreen.t * list Toast * DatabaseService :=
  fun s =>
    match (initDatabase now ;; getCategories) s with
    | (Ok categoriesData, s') => (CategoryScreen.set_categories categoriesData scr, [], s')
    | (Throw _, s') => (scr, [showError "Failed to load categories"], s')
    end.

(** [validateForm]: the new state and the verdict. *)
Definition validateForm (scr : CategoryScreen.t) : CategoryScreen.t * bool :=
  if String.eqb (trim (CategoryScreen.categoryName scr)) ""
  then (CategoryScreen.set_nameError "Category name is required" scr, false)
  else (CategoryScreen.set_nameError "" scr, true).

(** [handleSave]; on success the modal is closed and the list is loaded
    again. *)
Definition handleSave (now : Timestamp) (scr : CategoryScreen.t)
  : DatabaseService -> CategoryScreen.t * list Toast * DatabaseService :=
  fun s =>
    let (scr1, valid) := validateForm scr in
    if negb valid then (scr1, [], s)
    else
      let name := trim (CategoryScreen.categoryName scr1) in
      let description := trim (CategoryScreen.categoryDescription scr1) in
      let save :=
        match CategoryScreen.editingCategory scr1 with
        | Some editingCategory =>
            updateCategory (Category.id editingCategory) name (Some description)
        | None => _ <- addCategory now name (Some description) ;; ret tt
        end in
      match save s with
      | (Ok _, s') =>
          let toast :=
            match CategoryScreen.editingCategory scr1 with
            | Some _ => showSuccess "Category updated successfully"
            | None => showSuccess "Category added successfully"
            end in
          let '(scr2, toasts, s'') := loadCategories now (closeModal scr1) s' in
          (scr2, toast :: toasts, s'')
      | (Throw _, s') => (scr1, [showError "Failed to save category"], s')
      end.

(** The 'Delete' button of the confirmation raised by
    [handleDeleteCategory]: what [deleteCategory] throws is only
    logged. *)
Definition confirmDelete (now : Timestamp) (category : Category.t) (scr : CategoryScreen.t)
  : DatabaseService -> CategoryScreen.t * list Toast * DatabaseService :=
  fun s =>
    match deleteCategory (Category.id category) s with
    | (Ok _, s') =>
        let '(scr1, toasts, s'') := loadCategories now scr s' in
        (scr1, (toasts ++ [showSuccess "Category deleted successfully"])%list, s'')
    | (Throw _, s') => (scr, [], s')
    end.

End CategoryListScreen.

(** ** InventoryScreen *)

(** [c.toLowerCase()] on a character below 256: the letters A to Z and
    the capital letters 192 to 222, the multiplication sign 215 apart,
    move up by 32. *)
Definition lower_char (c : ascii) : ascii :=
  let n := nat_of_ascii c in
  if ((65 <=? n) && (n <=? 90) || (192 <=? n) && (n <=? 222) && negb (n =? 215))%nat
  then ascii_of_nat (n + 32)
  else c.

Fixpoint toLowerCase (s : string) : string :=
  match s with
  | EmptyString => EmptyString
  | String c s' => String (lower_char c) (toLowerCase s')
  end.

(** [s.includes(q)]. *)
Fixpoint includes (s q : string) : bool :=
  String.prefix q s
  || match s with
     | EmptyString => false
     | String _ s' => includes s' q
     end.

(** [Alert.alert(title, message)]. *)
Inductive Alert :=
| alert (title message : string).

Module ItemWithCategory.
(** [{...item, category_name}]. *)
Record t := mk {
  item : Item.t;
  category_name : string
}.
End ItemWithCategory.

Inductive StockFilter :=
| all
| low
| out.

Module InventoryState.
Record t := mk {
  items : list ItemWithCategory.t;
  filteredItems : list ItemWithCategory.t;
  categories : list Category.t;
  isLoading : bool;
  searchQuery : string;
  selectedCategory : Z;
  stockFilter : StockFilter
}.

Definition set_loaded (i : list ItemWithCategory.t) (c : list Category.t) (scr : t) : t :=
  mk i (filteredItems scr) c false (searchQuery scr) (selectedCategory scr) (stockFilter scr).

Definition set_isLoading (b : bool) (scr : t) : t :=
  mk (items scr) (filteredItems scr) (categories scr) b (searchQuery scr)
    (selectedCategory scr) (stockFilter scr).

Definition set_filteredItems (l : list ItemWithCategory.t) (scr : t) : t :=
  mk (items scr) l (categories scr) (isLoading scr) (searchQuery scr)
    (selectedCategory scr) (stockFilter scr).
End InventoryState.

Record StockStatus := mkStatus {
  status : string;
  color : string;
  icon : string
}.

Record FilterSummary := mkSummary {
  summary_total : nat;
  outOfStock : nat;
  lowStock : nat;
  inStock : nat
}.

Module InventoryScreen.

(** The join of [loadData]: [category?.name || 'Unknown']. *)
Definition with_category (categoriesData : list Category.t) (item : Item.t)
  : ItemWithCategory.t :=
  let category :=
    find (fun cat => Category.id cat =? Item.category_id item) categoriesData in
  ItemWithCategory.mk item
    (match category with
     | Some cat =>
         if String.eqb (Category.name cat) "" then "Unknown" else Category.name cat
     | None => "Unknown"
     end).

Definition loadData (now : Timestamp) (scr : InventoryState.t)
  : DatabaseService -> InventoryState.t * list Alert * DatabaseService :=
  fun s =>
    match (initDatabase now ;;
           itemsData <- getItems ;;
           categoriesData <- getCategories ;;
           ret (itemsData, categoriesData)) s with
    | (Ok (itemsData, categoriesData), s') =>
        (InventoryState.set_loaded (map (with_category categoriesData) itemsData)
           categoriesData scr, [], s')
    | (Throw _, s') =>
        (InventoryState.set_isLoading false scr,
         [alert "Error" "Failed to load inventory data"], s')
    end.

Definition filterItems (scr : InventoryState.t) : InventoryState.t :=
  let filtered := InventoryState.items scr in
  let filtered :=
    if negb (String.eqb (trim (InventoryState.searchQuery scr)) "")
    then
      let query := toLowerCase (InventoryState.searchQuery scr) in
      filter (fun item =>
                includes (toLowerCase (Item.name (ItemWithCategory.item item))) query
                || includes (toLowerCase (ItemWithCategory.category_name item)) query)
        filtered
    else filtered in
  let filtered :=
    if InventoryState.selectedCategory scr >? 0
    then filter (fun item =>
                   Item.category_id (ItemWithCategory.item item)
                   =? InventoryState.selectedCategory scr) filtered
    else filtered in
  let filtered :=
    match InventoryState.stockFilter scr with
    | low =>
        filter (fun item =>
                  (Item.quantity (ItemWithCategory.item item) >? 0)
                  && (Item.quantity (ItemWithCategory.item item) <=? 10)) filtered
    | out => filter (fun item => Item.quantity (ItemWithCategory.item item) =? 0) filtered
    | all => filtered
    end in
  InventoryState.set_filteredItems filtered scr.

Definition getStockStatus (quantity : Z) : StockStatus :=
  if quantity =? 0 then mkStatus "Out of Stock" "#f44336" "alert-circle"
  else if quantity <=? 10 then mkStatus "Low Stock" "#ff9800" "warning"
  else mkStatus "In Stock" "#4caf50" "checkmark-circle".

Definition getFilterSummary (scr : InventoryState.t) : FilterSummary :=
  let filteredItems := InventoryState.filteredItems scr in
  mkSummary
    (List.length filteredItems)
    (List.length
       (filter (fun item => Item.quantity (ItemWithCategory.item item) =? 0) filteredItems))
    (List.length
       (filter (fun item =>
                  (Item.quantity (ItemWithCategory.item item) >? 0)
                  && (Item.quantity (ItemWithCategory.item item) <=? 10)) filteredItems))
    (List.length
       (filter (fun item => Item.quantity (ItemWithCategory.item item) >? 10) filteredItems)).

End InventoryScreen.

(** ** CustomerListScreen *)

Module CustomerListState.
Record t := mk {
  customers : list Customer.t;
  filteredCustomers : list Customer.t;
  isLoading : bool;
  searchQuery : string;
  isDeleting : bool
}.

Definition set_loaded (l : list Customer.t) (scr : t) : t :=
  mk l (filteredCustomers scr) false (searchQuery scr) (isDeleting scr).

Definition set_isLoading (b : bool) (scr : t) : t :=
  mk (customers scr) (filteredCustomers scr) b (searchQuery scr) (isDeleting scr).

Definition set_filteredCustomers (l : list Customer.t) (scr : t) : t :=
  mk (customers scr) l (isLoading scr) (searchQuery scr) (isDeleting scr).

Definition set_isDeleting (b : bool) (scr : t) : t :=
  mk (customers scr) (filteredCustomers scr) (isLoading scr) (searchQuery scr) b.
End CustomerListState.

Module CustomerListScreen.

Definition loadCustomers (now : Timestamp) (scr : CustomerListState.t)
  : DatabaseService -> CustomerListState.t * list Toast * DatabaseService :=
  fun s =>
    match (initDatabase now ;; getCustomers) s with
    | (Ok customersData, s') => (CustomerListState.set_loaded customersData scr, [], s')
    | (Throw _, s') =>
        (CustomerListState.set_isLoading false scr, [showError "Failed to load customers"], s')
    end.

Definition filterCustomers (scr : CustomerListState.t) : CustomerListState.t :=
  if String.eqb (trim (CustomerListState.searchQuery scr)) ""
  then CustomerListState.set_filteredCustomers (CustomerListState.customers scr) scr
  else
    let query := toLowerCase (CustomerListState.searchQuery scr) in
    let filtered :=
      filter (fun customer =>
                includes (toLowerCase (Customer.name customer)) query
                || includes (toLowerCase (Customer.phone customer)) query
                || match Customer.email customer with
                   | Some email =>
                       negb (String.eqb email "") && includes (toLowerCase email) query
                   | None => false
                   end)
        (CustomerListState.customers scr) in
    CustomerListState.set_filteredCustomers filtered scr.

(** [confirmDelete]: the success toast is shown before the list is
    loaded again. *)
Definition confirmDelete (now : Timestamp) (customer : Customer.t) (scr : CustomerListState.t)
  : DatabaseService -> CustomerListState.t * list Toast * DatabaseService :=
  fun s =>
    match deleteCustomer (Customer.id customer) s with
    | (Ok _, s') =>
        let '(scr1, toasts, s'') :=
          loadCustomers now (CustomerListState.set_isDeleting false scr) s' in
        (scr1, (showSuccess "Customer deleted successfully" :: toasts)%list, s'')
    | (Throw _, s') => (CustomerListState.set_isDeleting false scr, [], s')
    end.

End CustomerListScreen.

(** ** InvoiceListScreen *)

Module InvoiceWithCustomer.
(** [{...invoice, customer_name}]. *)
Record t := mk {
  invoice : Invoice.t;
  customer_name : string
}.
End InvoiceWithCustomer.

Module InvoiceListState.
Record t := mk {
  invoices : list InvoiceWithCustomer.t;
  filteredInvoices : list InvoiceWithCustomer.t;
  customers : list Customer.t;
  isLoading : bool;
  searchQuery : string
}.

Definition set_loaded (i : list InvoiceWithCustomer.t) (c : list Customer.t) (scr : t) : t :=
  mk i (filteredInvoices scr) c false (searchQuery scr).

Definition set_isLoading (b : bool) (scr : t) : t :=
  mk (invoices scr) (filteredInvoices scr) (customers scr) b (searchQuery scr).

Definition set_filteredInvoices (l : list InvoiceWithCustomer.t) (scr : t) : t :=
  mk (invoices scr) l (customers scr) (isLoading scr) (searchQuery scr).

Definition set_searchQuery (q : string) (scr : t) : t :=
  mk (invoices scr) (filteredInvoices scr) (customers scr) (isLoading scr) q.
End InvoiceListState.

Module InvoiceListScreen.

(** The join of [loadData]: [customer?.name || 'Unknown Customer']. *)
Definition with_customer (customersData : list Customer.t) (invoice : Invoice.t)
  : InvoiceWithCustomer.t :=
  let customer :=
    find (fun c => Customer.id c =? Invoice.customer_id invoice) customersData in
  InvoiceWithCustomer.mk invoice
    (match customer with
     | Some c =>
         if String.eqb (Customer.name c) "" then "Unknown Customer" else Customer.name c
     | None => "Unknown Customer"
     end).

Definition loadData (now : Timestamp) (scr : InvoiceListState.t)
  : DatabaseService -> InvoiceListState.t * list Toast * DatabaseService :=
  fun s =>
    match (initDatabase now ;;
           invoicesData <- getInvoices ;;
           customersData <- getCustomers ;;
           ret (invoicesData, customersData)) s with
    | (Ok (invoicesData, customersData), s') =>
        (InvoiceListState.set_loaded (map (with_customer customersData) invoicesData)
           customersData scr, [], s')
    | (Throw _, s') =>
        (InvoiceListState.set_isLoading false scr, [showError "Failed to load invoices"], s')
    end.

Definition filterInvoices (scr : InvoiceListState.t) : InvoiceListState.t :=
  if String.eqb (trim (InvoiceListState.searchQuery scr)) ""
  then InvoiceListState.set_filteredInvoices (InvoiceListState.invoices scr) scr
  else
    let query := toLowerCase (InvoiceListState.searchQuery scr) in
    let filtered :=
      filter (fun invoice =>
                includes
                  (toLowerCase (Invoice.invoice_number (InvoiceWithCustomer.invoice invoice)))
                  query
                || includes (toLowerCase (InvoiceWithCustomer.customer_name invoice)) query)
        (InvoiceListState.invoices scr) in
    InvoiceListState.set_filteredInvoices filtered scr.

End InvoiceListScreen.

(** * Properties *)

(** ** Basic facts about the effects *)

Lemma require_db_closed {A : Type} (m : M A) (s : DatabaseService) :
  db s = false -> (require_db ;; m) s = (Throw NotInitialized, s).
Proof.
  intros Hdb. unfold bind, require_db. now rewrite Hdb.
Qed.

Lemma require_db_open {A : Type} (m : M A) (s : DatabaseService) :
  db s = true -> (require_db ;; m) s = m s.
Proof.
  intros Hdb. unfold bind, require_db. now rewrite Hdb.
Qed.

Lemma run_opened {A : Type} (q : Statement A) (d : Database) :
  run q (opened d) = (fst (q d), opened (snd (q d))).
Proof.
  unfold run, opened. simpl. now destruct (q d).
Qed.

Lemma guarded_run_opened {A : Type} (q : Statement A) (d : Database) :
  (require_db ;; run q) (opened d) = (fst (q d), opened (snd (q d))).
Proof.
  rewrite require_db_open by reflexivity. apply run_opened.
Qed.

Lemma bind_Ok {A B : Type} (m : M A) (k : A -> M B) s a s' :
  m s = (Ok a, s') -> bind m k s = k a s'.
Proof. intros H. unfold bind. now rewrite H. Qed.

Lemma bind_Throw {A B : Type} (m : M A) (k : A -> M B) s e s' :
  m s = (Throw e, s') -> bind m k s = (Throw e, s').
Proof. intros H. unfold bind. now rewrite H. Qed.

(** ** Basic facts about tables *)

Lemma map_unmatched {R : Type} (p : R -> bool) (f : R -> R) (l : list R) :
  (forall r, In r l -> p r = false) ->
  map (fun r => if p r then f r else r) l = l.
Proof.
  induction l as [| r l IH]; intros Hp; simpl.
  - reflexivity.
  - rewrite (Hp r) by now left.
    f_equal. apply IH. intros r' Hr'. apply Hp. now right.
Qed.

Lemma filter_unmatched {R : Type} (p : R -> bool) (l : list R) :
  (forall r, In r l -> p r = false) ->
  filter (fun r => negb (p r)) l = l.
Proof.
  induction l as [| r l IH]; intros Hp; simpl.
  - reflexivity.
  - rewrite (Hp r) by now left. simpl.
    f_equal. apply IH. intros r' Hr'. apply Hp. now right.
Qed.

Lemma existsb_unmatched {R : Type} (p : R -> bool) (l : list R) :
  (forall r, In r l -> p r = false) -> existsb p l = false.
Proof.
  induction l as [| r l IH]; intros Hp; simpl.
  - reflexivity.
  - rewrite (Hp r) by now left. apply IH. intros r' Hr'. apply Hp. now right.
Qed.

Lemma update_where_unmatched {R : Type} (p : R -> bool) (f : R -> R) (t : Table R) :
  (forall r, In r (rows t) -> p r = false) -> update_where p f t = t.
Proof.
  intros Hp. unfold update_where. rewrite map_unmatched by assumption. now destruct t.
Qed.

Lemma delete_where_unmatched {R : Type} (p : R -> bool) (t : Table R) :
  (forall r, In r (rows t) -> p r = false) -> delete_where p t = t.
Proof.
  intros Hp. unfold delete_where. rewrite filter_unmatched by assumption. now destruct t.
Qed.

Lemma set_categories_same d : set_categories (categories d) d = d.
Proof. now destruct d. Qed.
Lemma set_items_same d : set_items (items d) d = d.
Proof. now destruct d. Qed.
Lemma set_customers_same d : set_customers (customers d) d = d.
Proof. now destruct d. Qed.
Lemma set_invoices_same d : set_invoices (invoices d) d = d.
Proof. now destruct d. Qed.
Lemma set_invoice_items_same d : set_invoice_items (invoice_items d) d = d.
Proof. now destruct d. Qed.

(** The order of a [SELECT ... ORDER BY] does not change which rows are
    returned. *)
Lemma insert_sorted_In {R : Type} (le : R -> R -> bool) (x y : R) (l : list R) :
  In y (insert_sorted le x l) <-> y = x \/ In y l.
Proof.
  induction l as [| z l IH]; simpl.
  - intuition.
  - destruct (le x z); simpl; rewrite ?IH; intuition.
Qed.

Lemma order_by_In {R : Type} (le : R -> R -> bool) (y : R) (l : list R) :
  In y (order_by le l) <-> In y l.
Proof.
  induction l as [| x l IH]; simpl.
  - reflexivity.
  - rewrite insert_sorted_In, IH. intuition.
Qed.

(** ** An uninitialized service *)

(** C7. Every public operation of the store, called while [this.db] is
    still null, throws 'Database not initialized' and leaves the service
    exactly as it was. *)
Theorem uninitialized_fails_fast (s : DatabaseService) :
  db s = false ->
  getCategories s = (Throw NotInitialized, s)
  /\ (forall now name description,
        addCategory now name description s = (Throw NotInitialized, s))
  /\ (forall id name description,
        updateCategory id name description s = (Throw NotInitialized, s))
  /\ (forall id, deleteCategory id s = (Throw NotInitialized, s))
  /\ getItems s = (Throw NotInitialized, s)
  /\ (forall categoryId, getItemsByCategory categoryId s = (Throw NotInitialized, s))
  /\ (forall now name categoryId price quantity description,
        addItem now name categoryId price quantity description s
        = (Throw NotInitialized, s))
  /\ (forall id name categoryId price quantity description,
        updateItem id name categoryId price quantity description s
        = (Throw NotInitialized, s))
  /\ (forall id quantity, updateItemQuantity id quantity s = (Throw NotInitialized, s))
  /\ (forall id, deleteItem id s = (Throw NotInitialized, s))
  /\ getCustomers s = (Throw NotInitialized, s)
  /\ (forall now name phone email,
        addCustomer now name phone email s = (Throw NotInitialized, s))
  /\ (forall id name phone email,
        updateCustomer id name phone email s = (Throw NotInitialized, s))
  /\ (forall id, deleteCustomer id s = (Throw NotInitialized, s))
  /\ getInvoices s = (Throw NotInitialized, s)
  /\ generateInvoiceNumber s = (Throw NotInitialized, s)
  /\ (forall now invoiceNumber customerId invoiceDate subtotal vatAmount totalAmount,
        addInvoice now invoiceNumber customerId invoiceDate subtotal vatAmount totalAmount s
        = (Throw NotInitialized, s))
  /\ (forall invoiceId itemId quantity unitPrice extendedAmount,
        addInvoiceItem invoiceId itemId quantity unitPrice extendedAmount s
        = (Throw NotInitialized, s))
  /\ (forall id customerId invoiceDate subtotal vatAmount totalAmount,
        updateInvoice id customerId invoiceDate subtotal vatAmount totalAmount s
        = (Throw NotInitialized, s))
  /\ (forall invoiceId, deleteInvoiceItems invoiceId s = (Throw NotInitialized, s))
  /\ (forall invoiceId, getInvoiceItems invoiceId s = (Throw NotInitialized, s))
  /\ getDashboardStats s = (Throw NotInitialized, s).
Proof.
  intros Hdb.
  repeat split; intros; apply require_db_closed; exact Hdb.
Qed.

Lemma uninitialized_fails_fast_witness :
  getDashboardStats (mkService false (Some empty_database))
  = (Throw NotInitialized, mkService false (Some empty_database)).
Proof.
  apply (uninitialized_fails_fast (mkService false (Some empty_database))).
  reflexivity.
Defined.

(** ** Deleting a category *)

(** C8. [deleteCategory id] on an initialized store never throws, removes
    exactly the category rows with that id, and leaves the items,
    customers, invoices and invoice_items tables as they were; an item
    that referenced the category is still there, with the same
    [category_id]. *)
Theorem deleteCategory_no_cascade (d : Database) (id : Z) :
  exists d',
    deleteCategory id (opened d) = (Ok tt, opened d')
    /\ rows (categories d')
       = filter (fun c => negb (Category.id c =? id)) (rows (categories d))
    /\ items d' = items d
    /\ customers d' = customers d
    /\ invoices d' = invoices d
    /\ invoice_items d' = invoice_items d
    /\ (forall i, In i (rows (items d)) -> Item.category_id i = id ->
                  In i (rows (items d')) /\ Item.category_id i = id).
Proof.
  exists (set_categories (delete_where (fun c => Category.id c =? id) (categories d)) d).
  unfold deleteCategory. rewrite guarded_run_opened. simpl.
  repeat split; auto.
Qed.

(** ** Updates and deletes of rows that do not exist *)

Lemma update_item_absent id name categoryId price quantity description d :
  (forall i, In i (rows (items d)) -> Item.id i <> id) ->
  update_item id name categoryId price quantity description d = (Ok tt, d).
Proof.
  intros Habsent.
  assert (Hno : forall i, In i (rows (items d)) -> (Item.id i =? id) = false)
    by (intros i Hi; apply Z.eqb_neq; now apply Habsent).
  unfold update_item. destruct (bind_REAL price) as [stored |].
  - now rewrite update_where_unmatched, set_items_same.
  - now rewrite existsb_unmatched.
Qed.

(** C10. On an initialized store, an update or a delete whose id matches
    no row of its table returns normally and leaves the whole store
    unchanged. *)
Theorem absent_id_is_silent_noop (d : Database) (id : Z) :
  ((forall c, In c (rows (categories d)) -> Category.id c <> id) ->
     (forall name description,
        updateCategory id name description (opened d) = (Ok tt, opened d))
     /\ deleteCategory id (opened d) = (Ok tt, opened d))
  /\ ((forall i, In i (rows (items d)) -> Item.id i <> id) ->
     (forall name categoryId price quantity description,
        updateItem id name categoryId price quantity description (opened d)
        = (Ok tt, opened d))
     /\ (forall quantity, updateItemQuantity id quantity (opened d) = (Ok tt, opened d))
     /\ deleteItem id (opened d) = (Ok tt, opened d))
  /\ ((forall c, In c (rows (customers d)) -> Customer.id c <> id) ->
     (forall name phone email,
        updateCustomer id name phone email (opened d) = (Ok tt, opened d))
     /\ deleteCustomer id (opened d) = (Ok tt, opened d))
  /\ ((forall i, In i (rows (invoices d)) -> Invoice.id i <> id) ->
     (forall customerId invoiceDate subtotal vatAmount totalAmount,
        updateInvoice id customerId invoiceDate subtotal vatAmount totalAmount (opened d)
        = (Ok tt, opened d)))
  /\ ((forall r, In r (rows (invoice_items d)) -> InvoiceItem.invoice_id r <> id) ->
     deleteInvoiceItems id (opened d) = (Ok tt, opened d)).
Proof.
  repeat split; intros;
    unfold updateCategory, deleteCategory, updateItem, updateItemQuantity, deleteItem,
      updateCustomer, deleteCustomer, updateInvoice, deleteInvoiceItems;
    rewrite guarded_run_opened; rewrite ?update_item_absent by assumption; simpl.
  - unfold update_category.
    rewrite (existsb_unmatched (fun c => Category.id c =? id)); simpl.
    + rewrite update_where_unmatched, set_categories_same; [reflexivity |].
      intros c Hc. apply Z.eqb_neq. now apply H.
    + intros c Hc. apply Z.eqb_neq. now apply H.
  - rewrite delete_where_unmatched, set_categories_same; [reflexivity |].
    intros c Hc. apply Z.eqb_neq. now apply H.
  - reflexivity.
  - rewrite update_where_unmatched, set_items_same; [reflexivity |].
    intros c Hc. apply Z.eqb_neq. now apply H.
  - rewrite delete_where_unmatched, set_items_same; [reflexivity |].
    intros c Hc. apply Z.eqb_neq. now apply H.
  - rewrite update_where_unmatched, set_customers_same; [reflexivity |].
    intros c Hc. apply Z.eqb_neq. now apply H.
  - rewrite delete_where_unmatched, set_customers_same; [reflexivity |].
    intros c Hc. apply Z.eqb_neq. now apply H.
  - rewrite update_where_unmatched, set_invoices_same; [reflexivity |].
    intros c Hc. apply Z.eqb_neq. now apply H.
  - rewrite delete_where_unmatched, set_invoice_items_same; [reflexivity |].
    intros c Hc. apply Z.eqb_neq. now apply H.
Qed.

Lemma absent_id_is_silent_noop_witness :
  deleteCategory 99 (opened example_db) = (Ok tt, opened example_db)
  /\ (forall quantity,
        updateItemQuantity 99 quantity (opened example_db) = (Ok tt, opened example_db))
  /\ deleteCustomer 99 (opened example_db) = (Ok tt, opened example_db)
  /\ deleteInvoiceItems 99 (opened example_db) = (Ok tt, opened example_db).
Proof.
  destruct (absent_id_is_silent_noop example_db 99) as (Hcat & Hitem & Hcust & _ & Hlines).
  split; [| split; [| split]].
  - apply Hcat. simpl. intros c Hc. repeat destruct Hc as [<- | Hc]; try discriminate.
    contradiction.
  - apply Hitem. simpl. intros c Hc. repeat destruct Hc as [<- | Hc]; try discriminate.
    contradiction.
  - apply Hcust. simpl. intros c Hc. repeat destruct Hc as [<- | Hc]; try discriminate.
    contradiction.
  - apply Hlines. simpl. intros c Hc. contradiction.
Defined.

(** ** Absent optional fields *)

Lemma update_where_In {R : Type} (p : R -> bool) (f : R -> R) (t : Table R) (c : R) :
  In c (rows (update_where p f t)) ->
  (exists r, In r (rows t) /\ p r = true /\ c = f r) \/ (In c (rows t) /\ p c = false).
Proof.
  unfold update_where. simpl. rewrite in_map_iff.
  intros (r & Hc & Hr). destruct (p r) eqn:Hp.
  - left. exists r. auto.
  - right. subst c. auto.
Qed.

Lemma update_where_present {R : Type} (p : R -> bool) (f : R -> R) (t : Table R) (r : R) :
  In r (rows t) -> p r = true -> In (f r) (rows (update_where p f t)).
Proof.
  intros Hr Hp. unfold update_where. simpl. apply in_map_iff.
  exists r. now rewrite Hp.
Qed.

(** C9. When the optional argument is absent, the store writes the empty
    string: after [addCategory], [addItem] or [addCustomer] without a
    description or e-mail, the listing of the table contains the new row
    with that field equal to the empty string; after [updateCategory],
    [updateItem] or [updateCustomer] without it, every listed row with the
    updated id has that field equal to the empty string. (Category names
    are unique, so the two category operations are stated for a name that
    no other row bears. The price of an item is [REAL NOT NULL], so the
    two item operations are stated for a price that is a number, stored
    as [bind_REAL] gives it; with NaN for the price [addItem] throws, and
    so does [updateItem] when a row has the id, and the store is left as
    it was. The two customer operations never fail.) *)
Theorem absent_optional_is_empty_string (d : Database) :
  (forall now name,
     has_category_name name (categories d) = false ->
     exists id d' listing,
       addCategory now name None (opened d) = (Ok id, opened d')
       /\ getCategories (opened d') = (Ok listing, opened d')
       /\ In (Category.mk id name (Some "") now) listing)
  /\ (forall id name,
        (forall c, In c (rows (categories d)) -> Category.id c <> id ->
                   Category.name c <> name) ->
        exists d' listing,
          updateCategory id name None (opened d) = (Ok tt, opened d')
          /\ getCategories (opened d') = (Ok listing, opened d')
          /\ (forall c, In c listing -> Category.id c = id ->
                        Category.description c = Some "")
          /\ (forall c0, In c0 (rows (categories d)) -> Category.id c0 = id ->
                         exists c, In c listing /\ Category.id c = id))
  /\ (forall now name categoryId price quantity stored,
        bind_REAL price = Some stored ->
        exists id d' listing,
          addItem now name categoryId price quantity None (opened d) = (Ok id, opened d')
          /\ getItems (opened d') = (Ok listing, opened d')
          /\ In (Item.mk id name categoryId stored quantity (Some "") now) listing)
  /\ (forall now name categoryId price quantity,
        bind_REAL price = None ->
        addItem now name categoryId price quantity None (opened d)
        = (Throw (SqlError "NOT NULL constraint failed: items.price"), opened d))
  /\ (forall id name categoryId price quantity stored,
        bind_REAL price = Some stored ->
        exists d' listing,
          updateItem id name categoryId price quantity None (opened d) = (Ok tt, opened d')
          /\ getItems (opened d') = (Ok listing, opened d')
          /\ (forall i, In i listing -> Item.id i = id -> Item.description i = Some "")
          /\ (forall i0, In i0 (rows (items d)) -> Item.id i0 = id ->
                         exists i, In i listing /\ Item.id i = id))
  /\ (forall id name categoryId price quantity i0,
        bind_REAL price = None ->
        In i0 (rows (items d)) -> Item.id i0 = id ->
        updateItem id name categoryId price quantity None (opened d)
        = (Throw (SqlError "NOT NULL constraint failed: items.price"), opened d))
  /\ (forall now name phone,
        exists id d' listing,
          addCustomer now name phone None (opened d) = (Ok id, opened d')
          /\ getCustomers (opened d') = (Ok listing, opened d')
          /\ In (Customer.mk id name phone (Some "") now) listing)
  /\ (forall id name phone,
        exists d' listing,
          updateCustomer id name phone None (opened d) = (Ok tt, opened d')
          /\ getCustomers (opened d') = (Ok listing, opened d')
          /\ (forall c, In c listing -> Customer.id c = id -> Customer.email c = Some "")
          /\ (forall c0, In c0 (rows (customers d)) -> Customer.id c0 = id ->
                         exists c, In c listing /\ Customer.id c = id)).
Proof.
  split; [| split; [| split; [| split; [| split; [| split; [| split]]]]]].
  - intros now name Hfree.
    unfold addCategory, getCategories. rewrite guarded_run_opened.
    unfold insert_category. rewrite Hfree. simpl.
    eexists _, _, _. split; [reflexivity |].
    rewrite guarded_run_opened. simpl. split; [reflexivity |].
    apply order_by_In. simpl. apply in_or_app. right. now left.
  - intros id name Hfree.
    unfold updateCategory, getCategories. rewrite guarded_run_opened.
    unfold update_category.
    replace (existsb (fun c => negb (Category.id c =? id) && String.eqb (Category.name c) name)
               (rows (categories d))) with false.
    2:{ symmetry. apply existsb_unmatched. intros c Hc.
        destruct (Category.id c =? id) eqn:Hid; simpl; [reflexivity |].
        apply String.eqb_neq. apply Hfree; [assumption |]. now apply Z.eqb_neq. }
    rewrite andb_false_r. simpl.
    eexists _, _. split; [reflexivity |].
    rewrite guarded_run_opened. simpl. split; [reflexivity | split].
    + intros c Hc Hid. apply order_by_In in Hc.
      apply (update_where_In _ _ (categories d)) in Hc.
      destruct Hc as [(r & _ & _ & ->) | (_ & Hne)].
      * reflexivity.
      * apply Z.eqb_neq in Hne. contradiction.
    + intros c0 Hc0 Hid0. eexists. split.
      * apply order_by_In. apply (update_where_present _ _ (categories d) c0 Hc0).
        now apply Z.eqb_eq.
      * exact Hid0.
  - intros now name categoryId price quantity stored Hprice.
    unfold addItem, getItems. rewrite guarded_run_opened.
    unfold insert_item. rewrite Hprice. simpl.
    eexists _, _, _. split; [reflexivity |].
    rewrite guarded_run_opened. simpl. split; [reflexivity |].
    apply order_by_In. simpl. apply in_or_app. right. now left.
  - intros now name categoryId price quantity Hprice.
    unfold addItem. rewrite guarded_run_opened.
    unfold insert_item. now rewrite Hprice.
  - intros id name categoryId price quantity stored Hprice.
    unfold updateItem, getItems. rewrite guarded_run_opened.
    unfold update_item. rewrite Hprice. simpl.
    eexists _, _. split; [reflexivity |].
    rewrite guarded_run_opened. simpl. split; [reflexivity | split].
    + intros c Hc Hid. apply order_by_In in Hc.
      apply (update_where_In _ _ (items d)) in Hc.
      destruct Hc as [(r & _ & _ & ->) | (_ & Hne)].
      * reflexivity.
      * apply Z.eqb_neq in Hne. contradiction.
    + intros c0 Hc0 Hid0. eexists. split.
      * apply order_by_In. apply (update_where_present _ _ (items d) c0 Hc0).
        now apply Z.eqb_eq.
      * exact Hid0.
  - intros id name categoryId price quantity i0 Hprice Hi0 Hid0.
    unfold updateItem. rewrite guarded_run_opened.
    unfold update_item. rewrite Hprice.
    replace (existsb (fun i => Item.id i =? id) (rows (items d))) with true; [reflexivity |].
    symmetry. apply existsb_exists. exists i0. split; [assumption | now apply Z.eqb_eq].
  - intros now name phone.
    unfold addCustomer, getCustomers. rewrite guarded_run_opened. simpl.
    eexists _, _, _. split; [reflexivity |].
    rewrite guarded_run_opened. simpl. split; [reflexivity |].
    apply order_by_In. simpl. apply in_or_app. right. now left.
  - intros id name phone.
    unfold updateCustomer, getCustomers. rewrite guarded_run_opened. simpl.
    eexists _, _. split; [reflexivity |].
    rewrite guarded_run_opened. simpl. split; [reflexivity | split].
    + intros c Hc Hid. apply order_by_In in Hc.
      apply (update_where_In _ _ (customers d)) in Hc.
      destruct Hc as [(r & _ & _ & ->) | (_ & Hne)].
      * reflexivity.
      * apply Z.eqb_neq in Hne. contradiction.
    + intros c0 Hc0 Hid0. eexists. split.
      * apply order_by_In. apply (update_where_present _ _ (customers d) c0 Hc0).
        now apply Z.eqb_eq.
      * exact Hid0.
Qed.

Lemma absent_optional_is_empty_string_witness :
  (exists id d' listing,
      addCategory 300 "Toys" None (opened example_db) = (Ok id, opened d')
      /\ getCategories (opened d') = (Ok listing, opened d')
      /\ In (Category.mk id "Toys" (Some "") 300) listing)
  /\ (exists d' listing,
        updateCategory 1 "Gizmos" None (opened example_db) = (Ok tt, opened d')
        /\ getCategories (opened d') = (Ok listing, opened d')
        /\ (forall c, In c listing -> Category.id c = 1 ->
                      Category.description c = Some "")
        /\ (forall c0, In c0 (rows (categories example_db)) -> Category.id c0 = 1 ->
                       exists c, In c listing /\ Category.id c = 1))
  /\ (exists id d' listing,
        addItem 300 "Sprocket" 2 1.5%float 4 None (opened example_db) = (Ok id, opened d')
        /\ getItems (opened d') = (Ok listing, opened d')
        /\ In (Item.mk id "Sprocket" 2 1.5%float 4 (Some "") 300) listing)
  /\ updateItem 1 "Widget" 1 nan 10 None (opened example_db)
     = (Throw (SqlError "NOT NULL constraint failed: items.price"), opened example_db).
Proof.
  destruct (absent_optional_is_empty_string example_db)
    as (Hadd & Hupd & Hitem & _ & _ & Hnan & _).
  split; [| split; [| split]].
  - apply Hadd. reflexivity.
  - apply Hupd. simpl. intros c Hc Hid.
    repeat destruct Hc as [<- | Hc]; simpl in *; try discriminate; try contradiction.
  - apply Hitem. reflexivity.
  - apply (Hnan 1 "Widget" 1 nan 10 (Item.mk 1 "Widget" 1 5%float 10 (Some "") 101)).
    + reflexivity.
    + simpl. auto.
    + reflexivity.
Defined.

(** ** Saving an invoice: the two loops *)

Lemma for_of_opened {A : Type} (l : list A) (body : A -> M unit)
  (step : A -> Database -> Database) :
  (forall x d, body x (opened d) = (Ok tt, opened (step x d))) ->
  forall d, for_of l body (opened d) = (Ok tt, opened (fold_left (fun d x => step x d) l d)).
Proof.
  intros Hbody. induction l as [| x l IH]; intros d; simpl.
  - reflexivity.
  - rewrite (bind_Ok _ _ _ _ _ (Hbody x d)). apply IH.
Qed.

Lemma addInvoiceItem_opened invoiceId (item : InvoiceItemData.t) d :
  addInvoiceItem invoiceId (InvoiceItemData.item_id item) (InvoiceItemData.quantity item)
    (InvoiceItemData.unit_price item) (InvoiceItemData.extended_amount item) (opened d)
  = (Ok tt, opened (add_line_db invoiceId item d)).
Proof.
  unfold addInvoiceItem. rewrite guarded_run_opened. reflexivity.
Qed.

Lemma updateInvoice_opened id customerId invoiceDate subtotal vatAmount totalAmount d :
  updateInvoice id customerId invoiceDate subtotal vatAmount totalAmount (opened d)
  = (Ok tt,
     opened (snd (update_invoice id customerId invoiceDate subtotal vatAmount totalAmount d))).
Proof.
  unfold updateInvoice. rewrite guarded_run_opened. reflexivity.
Qed.

Lemma deleteInvoiceItems_opened invoiceId d :
  deleteInvoiceItems invoiceId (opened d)
  = (Ok tt, opened (snd (delete_invoice_items invoiceId d))).
Proof.
  unfold deleteInvoiceItems. rewrite guarded_run_opened. reflexivity.
Qed.

(** ** The update path and the stock *)

Lemma keeps_items_ret {A : Type} (a : A) : keeps_items (ret a).
Proof. intros s. reflexivity. Qed.

Lemma keeps_items_bind {A B : Type} (m : M A) (k : A -> M B) :
  keeps_items m -> (forall a, keeps_items (k a)) -> keeps_items (bind m k).
Proof.
  intros Hm Hk s. unfold bind. specialize (Hm s).
  destruct (m s) as [[a | e] s']; simpl in *.
  - now rewrite Hk.
  - assumption.
Qed.

Lemma keeps_items_require_db : keeps_items require_db.
Proof. intros s. unfold require_db. now destruct (db s). Qed.

Lemma keeps_items_run {A : Type} (q : Statement A) :
  (forall d, items (snd (q d)) = items d) -> keeps_items (run q).
Proof.
  intros Hq s. unfold run, items_of. destruct (inventory_db s) as [d |] eqn:Hd.
  - specialize (Hq d). destruct (q d) as [r d']. simpl in *. now rewrite Hq.
  - simpl. now rewrite Hd.
Qed.

Lemma keeps_items_for_of {A : Type} (l : list A) (body : A -> M unit) :
  (forall x, keeps_items (body x)) -> keeps_items (for_of l body).
Proof.
  intros Hbody. induction l as [| x l IH]; simpl.
  - apply keeps_items_ret.
  - apply keeps_items_bind; auto.
Qed.

Lemma keeps_items_update_path now scr id :
  truthy_id (Screen.invoiceId scr) = Some id ->
  keeps_items (CreateInvoiceScreen.saveInvoice now scr).
Proof.
  intros Hid. unfold CreateInvoiceScreen.saveInvoice. rewrite Hid.
  unfold updateInvoice, deleteInvoiceItems, addInvoiceItem.
  apply keeps_items_bind; [| intros _; apply keeps_items_bind; [| intros _]].
  - apply keeps_items_bind; [apply keeps_items_require_db | intros _].
    apply keeps_items_run. intros d. reflexivity.
  - apply keeps_items_bind; [apply keeps_items_require_db | intros _].
    apply keeps_items_run. intros d. reflexivity.
  - apply keeps_items_for_of. intros item.
    apply keeps_items_bind; [apply keeps_items_require_db | intros _].
    apply keeps_items_run. intros d. reflexivity.
Qed.

(** C5. Saving an existing invoice (the update path of [handleSave])
    leaves the items table, and so every item quantity, exactly as it
    was, whichever customer, date or lines the form holds and whether or
    not the save goes through; on an initialized store with a customer
    and at least one line it does go through. *)
Theorem handleSave_update_keeps_stock now scr id :
  truthy_id (Screen.invoiceId scr) = Some id ->
  (forall s, items_of (snd (CreateInvoiceScreen.handleSave now scr s)) = items_of s)
  /\ (forall d,
        FormData.customer_id (Screen.formData scr) <> 0 ->
        FormData.items (Screen.formData scr) <> [] ->
        exists d',
          CreateInvoiceScreen.handleSave now scr (opened d)
          = (showSuccess "Invoice updated successfully", opened d')
          /\ items d' = items d).
Proof.
  intros Hid.
  assert (Hkeep : forall s,
             items_of (snd (CreateInvoiceScreen.handleSave now scr s)) = items_of s).
  { intros s. unfold CreateInvoiceScreen.handleSave.
    destruct (FormData.customer_id (Screen.formData scr) =? 0); [reflexivity |].
    destruct (List.length (FormData.items (Screen.formData scr)) =? 0)%nat; [reflexivity |].
    pose proof (keeps_items_update_path now scr id Hid s) as Hk.
    destruct (CreateInvoiceScreen.saveInvoice now scr s) as [[u | e] s']; exact Hk. }
  split; [exact Hkeep |].
  intros d Hcust Hlines.
  specialize (Hkeep (opened d)). revert Hkeep.
  unfold CreateInvoiceScreen.handleSave.
  apply Z.eqb_neq in Hcust. rewrite Hcust.
  destruct (FormData.items (Screen.formData scr)) as [| l0 ls] eqn:Hl; [congruence |].
  simpl Nat.eqb. cbv iota.
  unfold CreateInvoiceScreen.saveInvoice. rewrite Hid, Hl.
  rewrite (bind_Ok _ _ _ _ _ (updateInvoice_opened _ _ _ _ _ _ _)).
  rewrite (bind_Ok _ _ _ _ _ (deleteInvoiceItems_opened _ _)).
  rewrite (for_of_opened _ _ (add_line_db id)) by (intros; apply addInvoiceItem_opened).
  intros Hkeep. eexists. split; [reflexivity |].
  unfold items_of in Hkeep. simpl in Hkeep. now injection Hkeep.
Qed.

(** ** Initialization and the seed data *)

Lemma has_category_name_In n (t : Table Category.t) :
  has_category_name n t = true <-> In n (map Category.name (rows t)).
Proof.
  unfold has_category_name. rewrite existsb_exists, in_map_iff.
  split; intros (c & H1 & H2).
  - exists c. apply String.eqb_eq in H2. auto.
  - exists c. subst n. split; [assumption | apply String.eqb_refl].
Qed.

Section InsertOrIgnore.
Variables (now : Timestamp) (n description : string) (d : Database).

Let d' := snd (insert_or_ignore_category now n description d).

Lemma insert_or_ignore_Ok :
  fst (insert_or_ignore_category now n description d) = Ok tt.
Proof.
  unfold insert_or_ignore_category.
  now destruct (has_category_name n (categories d)).
Qed.

Lemma insert_or_ignore_taken :
  has_category_name n (categories d) = true ->
  d' = set_categories (mkTable (rows (categories d)) (seq (categories d) + 1)) d.
Proof.
  intros H. unfold d', insert_or_ignore_category. now rewrite H.
Qed.

Lemma insert_or_ignore_rows :
  rows (categories d')
  = (rows (categories d)
     ++ if has_category_name n (categories d) then []
        else [Category.mk (seq (categories d) + 1) n (Some description) now])%list.
Proof.
  unfold d', insert_or_ignore_category.
  destruct (has_category_name n (categories d)); simpl.
  - now rewrite app_nil_r.
  - reflexivity.
Qed.

Lemma insert_or_ignore_names m :
  In m (map Category.name (rows (categories d')))
  <-> m = n \/ In m (map Category.name (rows (categories d))).
Proof.
  rewrite insert_or_ignore_rows, map_app, in_app_iff.
  destruct (has_category_name n (categories d)) eqn:Hn; simpl.
  - apply has_category_name_In in Hn. intuition; subst; auto.
  - intuition.
Qed.

Lemma insert_or_ignore_NoDup :
  NoDup (map Category.name (rows (categories d))) ->
  NoDup (map Category.name (rows (categories d'))).
Proof.
  intros Hnd. rewrite insert_or_ignore_rows, map_app.
  destruct (has_category_name n (categories d)) eqn:Hn; simpl.
  - now rewrite app_nil_r.
  - apply NoDup_app; [assumption | repeat constructor; intros [] |].
    intros m Hm [<- | []]. apply has_category_name_In in Hm. congruence.
Qed.
End InsertOrIgnore.

Lemma run_insert_or_ignore now n description d :
  run (insert_or_ignore_category now n description) (opened d)
  = (Ok tt, opened (snd (insert_or_ignore_category now n description d))).
Proof.
  rewrite run_opened. now rewrite insert_or_ignore_Ok.
Qed.

Lemma insertDefaultData_opened now d :
  insertDefaultData now (opened d) = (Ok tt, opened (seed_db now d)).
Proof.
  unfold insertDefaultData. rewrite require_db_open by reflexivity.
  unfold try_catch_log.
  repeat rewrite (bind_Ok _ _ _ _ _ (run_insert_or_ignore _ _ _ _)).
  rewrite run_insert_or_ignore. reflexivity.
Qed.

Lemma initDatabase_opened now s :
  initDatabase now s
  = (Ok tt,
     opened (seed_db now (match inventory_db s with
                          | Some d => d
                          | None => empty_database
                          end))).
Proof.
  unfold initDatabase, openDatabase, createTables.
  unfold bind at 1. unfold bind at 1. unfold bind at 1. unfold require_db at 1. simpl.
  destruct (inventory_db s) as [d |]; apply insertDefaultData_opened.
Qed.

Lemma seed_db_names now d m :
  In m (map Category.name (rows (categories (seed_db now d))))
  <-> In m default_categories \/ In m (map Category.name (rows (categories d))).
Proof.
  unfold seed_db, default_categories. cbv zeta.
  rewrite !insert_or_ignore_names. simpl. intuition.
Qed.

(** On a store that has the four default names, the seeding inserts no
    row and changes no row: it moves the counter of the categories table
    on by four. *)
Lemma seed_db_again now d :
  (forall m, In m default_categories -> In m (map Category.name (rows (categories d)))) ->
  seed_db now d
  = set_categories (mkTable (rows (categories d)) (seq (categories d) + 4)) d.
Proof.
  intros Hall. unfold seed_db. cbv zeta.
  assert (H1 : has_category_name "Electronics" (categories d) = true)
    by (apply has_category_name_In, Hall; simpl; auto).
  assert (H2 : has_category_name "Clothing" (categories d) = true)
    by (apply has_category_name_In, Hall; simpl; auto).
  assert (H3 : has_category_name "Books" (categories d) = true)
    by (apply has_category_name_In, Hall; simpl; auto).
  assert (H4 : has_category_name "Home & Garden" (categories d) = true)
    by (apply has_category_name_In, Hall; simpl; auto 6).
  rewrite (insert_or_ignore_taken _ _ _ d H1).
  set (d1 := set_categories _ d).
  rewrite (insert_or_ignore_taken _ _ _ d1 H2).
  set (d2 := set_categories _ d1).
  rewrite (insert_or_ignore_taken _ _ _ d2 H3).
  set (d3 := set_categories _ d2).
  rewrite (insert_or_ignore_taken _ _ _ d3 H4).
  unfold d3, d2, d1, set_categories. cbn [categories items customers invoices invoice_items rows seq].
  do 2 f_equal. lia.
Qed.

Lemma seed_db_rows now d :
  exists seeded, rows (categories (seed_db now d)) = (rows (categories d) ++ seeded)%list.
Proof.
  unfold seed_db. cbv zeta.
  rewrite !insert_or_ignore_rows, <- !app_assoc. eexists. reflexivity.
Qed.

Lemma seed_db_NoDup now d :
  NoDup (map Category.name (rows (categories d))) ->
  NoDup (map Category.name (rows (categories (seed_db now d)))).
Proof.
  intros H. unfold seed_db. cbv zeta.
  now do 4 apply insert_or_ignore_NoDup.
Qed.

(** C6. [initDatabase] always succeeds, and running it a second time (at
    any later time) leaves the category rows exactly as the first run
    left them. The first run keeps every row that was already there,
    unchanged and in place, and only appends rows; afterwards each of the
    four default names is present, and if names were unique before they
    still are. *)
Theorem initDatabase_idempotent (s : DatabaseService) (now1 now2 : Timestamp) :
  let s1 := snd (initDatabase now1 s) in
  let s2 := snd (initDatabase now2 s1) in
  fst (initDatabase now1 s) = Ok tt
  /\ fst (initDatabase now2 s1) = Ok tt
  /\ category_rows s2 = category_rows s1
  /\ (exists seeded, category_rows s1 = (category_rows s ++ seeded)%list)
  /\ (forall n, In n default_categories -> In n (map Category.name (category_rows s1)))
  /\ (NoDup (map Category.name (category_rows s)) ->
      NoDup (map Category.name (category_rows s1))).
Proof.
  cbv zeta. rewrite (initDatabase_opened now1 s).
  set (d0 := match inventory_db s with Some d => d | None => empty_database end).
  cbn [fst snd]. rewrite (initDatabase_opened now2 (opened (seed_db now1 d0))).
  cbn [fst snd opened inventory_db].
  assert (Hrows : category_rows s = rows (categories d0)).
  { unfold category_rows, d0. now destruct (inventory_db s). }
  assert (Hnames : forall n, In n default_categories ->
                             In n (map Category.name (rows (categories (seed_db now1 d0))))).
  { intros n Hn. apply seed_db_names. now left. }
  unfold category_rows at 1 2 3 5 7. cbn [opened inventory_db]. rewrite Hrows.
  split; [reflexivity | split; [reflexivity | split; [| split; [| split]]]].
  - now rewrite seed_db_again.
  - apply seed_db_rows.
  - exact Hnames.
  - apply seed_db_NoDup.
Qed.

(** ** Invoice numbers *)

Lemma number_of_digits_string_of_uint (u : Decimal.uint) :
  number_of_digits (NilZero.string_of_uint u) = Some (Z.of_uint u).
Proof.
  unfold number_of_digits.
  destruct u; try (unfold NilZero.string_of_uint; rewrite NilEmpty.usu; reflexivity).
  reflexivity.
Qed.

Lemma number_of_digits_String_of (n : Z) :
  0 <= n -> number_of_digits (String_of n) = Some n.
Proof.
  intros Hn. unfold String_of.
  pose proof (DecimalZ.of_to n) as Hof.
  destruct (Z.to_int n) as [u | u] eqn:Hu.
  - simpl. rewrite number_of_digits_string_of_uint. now rewrite <- Hof.
  - destruct n; simpl in Hu; try discriminate. lia.
Qed.

Lemma number_of_digits_zero (s : string) :
  number_of_digits (String "0" s) = number_of_digits s.
Proof.
  unfold number_of_digits. simpl.
  now destruct (NilEmpty.uint_of_string s).
Qed.

Lemma number_of_digits_padding (k : nat) (s : string) :
  number_of_digits (repeat_string "0" k ++ s) = number_of_digits s.
Proof.
  induction k as [| k IH]; simpl.
  - reflexivity.
  - now rewrite number_of_digits_zero.
Qed.

Lemma length_repeat_string_0 (k : nat) : String.length (repeat_string "0" k) = k.
Proof.
  induction k as [| k IH]; simpl; congruence.
Qed.

Lemma length_string_app (s1 s2 : string) :
  String.length (s1 ++ s2) = (String.length s1 + String.length s2)%nat.
Proof.
  induction s1 as [| c s1 IH]; simpl; congruence.
Qed.

Lemma length_padStart (s : string) :
  String.length (padStart 6 "0" s) = Nat.max 6 (String.length s).
Proof.
  unfold padStart. rewrite length_string_app, length_repeat_string_0. lia.
Qed.

Lemma INV_digits (n : Z) :
  0 <= n ->
  exists digits,
    INV n = "INV-" ++ digits
    /\ number_of_digits digits = Some n
    /\ (6 <= String.length digits)%nat
    /\ (String.length digits = 6%nat \/ digits = String_of n).
Proof.
  intros Hn. exists (padStart 6 "0" (String_of n)).
  split; [reflexivity |]. split; [| split].
  - unfold padStart. rewrite number_of_digits_padding.
    now apply number_of_digits_String_of.
  - rewrite length_padStart. lia.
  - destruct (Nat.le_gt_cases (String.length (String_of n)) 6) as [Hle | Hgt].
    + left. rewrite length_padStart. lia.
    + right. unfold padStart.
      replace (6 - String.length (String_of n))%nat with 0%nat by lia. reflexivity.
Qed.

Lemma INV_inj (a b : Z) : 0 <= a -> 0 <= b -> INV a = INV b -> a = b.
Proof.
  intros Ha Hb Heq.
  destruct (INV_digits a Ha) as (da & Ea & Va & _).
  destruct (INV_digits b Hb) as (db & Eb & Vb & _).
  rewrite Ea, Eb in Heq. injection Heq as Heq. congruence.
Qed.

Lemma query_opened {A : Type} (f : Database -> A) (d : Database) :
  (require_db ;; run (query f)) (opened d) = (Ok (f d), opened d).
Proof.
  rewrite guarded_run_opened. reflexivity.
Qed.

Lemma run_query_opened {A : Type} (f : Database -> A) (d : Database) :
  run (query f) (opened d) = (Ok (f d), opened d).
Proof.
  rewrite run_opened. reflexivity.
Qed.

Lemma generateInvoiceNumber_opened (d : Database) :
  generateInvoiceNumber (opened d) = (Ok (INV (count_rows (invoices d) + 1)), opened d).
Proof.
  unfold generateInvoiceNumber.
  rewrite require_db_open by reflexivity.
  rewrite (bind_Ok _ _ _ _ _ (run_query_opened _ _)). unfold ret, INV.
  destruct (count_rows (invoices d) =? 0) eqn:Hc.
  - apply Z.eqb_eq in Hc. now rewrite Hc.
  - reflexivity.
Qed.

(** ** The create path *)

Lemma updateItemQuantity_opened id quantity d :
  updateItemQuantity id quantity (opened d)
  = (Ok tt, opened (snd (update_item_quantity id quantity d))).
Proof.
  unfold updateItemQuantity. rewrite guarded_run_opened. reflexivity.
Qed.

Lemma sell_line_opened (snapshot : list Item.t) newInvoiceId (item : InvoiceItemData.t) d :
  (addInvoiceItem newInvoiceId (InvoiceItemData.item_id item)
     (InvoiceItemData.quantity item) (InvoiceItemData.unit_price item)
     (InvoiceItemData.extended_amount item) ;;
   match find (fun i => Item.id i =? InvoiceItemData.item_id item) snapshot with
   | Some currentItem =>
       let newQuantity :=
         Z.max 0 (Item.quantity currentItem - InvoiceItemData.quantity item) in
       updateItemQuantity (InvoiceItemData.item_id item) newQuantity
   | None => ret tt
   end) (opened d)
  = (Ok tt, opened (sell_line_db snapshot newInvoiceId item d)).
Proof.
  rewrite (bind_Ok _ _ _ _ _ (addInvoiceItem_opened _ _ _)).
  unfold sell_line_db.
  destruct (find (fun i => Item.id i =? InvoiceItemData.item_id item) snapshot).
  - cbv zeta. apply updateItemQuantity_opened.
  - reflexivity.
Qed.

Lemma saveInvoice_create_opened now scr d :
  truthy_id (Screen.invoiceId scr) = None ->
  has_invoice_number (Screen.invoiceNumber scr) (invoices d) = false ->
  CreateInvoiceScreen.saveInvoice now scr (opened d) = (Ok tt, opened (created_db now scr d)).
Proof.
  intros Hid Hfresh. unfold CreateInvoiceScreen.saveInvoice. rewrite Hid.
  unfold addInvoice. cbv zeta.
  erewrite bind_Ok.
  2:{ rewrite guarded_run_opened. unfold insert_invoice. rewrite Hfresh.
      cbn [fst snd insert_row]. reflexivity. }
  rewrite (for_of_opened _ _ (sell_line_db (Screen.items scr) (seq (invoices d) + 1)))
    by (intros; apply sell_line_opened).
  unfold created_db, insert_invoice. rewrite Hfresh. reflexivity.
Qed.

(** A number that is already taken stops the create path at its first
    statement: nothing is written. *)
Lemma saveInvoice_duplicate_number now scr d :
  truthy_id (Screen.invoiceId scr) = None ->
  has_invoice_number (Screen.invoiceNumber scr) (invoices d) = true ->
  CreateInvoiceScreen.saveInvoice now scr (opened d)
  = (Throw (SqlError "UNIQUE constraint failed: invoices.invoice_number"), opened d).
Proof.
  intros Hid Htaken. unfold CreateInvoiceScreen.saveInvoice. rewrite Hid.
  unfold addInvoice. cbv zeta.
  erewrite bind_Throw; [reflexivity |].
  rewrite guarded_run_opened. unfold insert_invoice. rewrite Htaken. reflexivity.
Qed.

Lemma handleSave_create_opened now scr d :
  truthy_id (Screen.invoiceId scr) = None ->
  complete_form (Screen.formData scr) ->
  has_invoice_number (Screen.invoiceNumber scr) (invoices d) = false ->
  CreateInvoiceScreen.handleSave now scr (opened d)
  = (showSuccess "Invoice created successfully", opened (created_db now scr d)).
Proof.
  intros Hid [Hcust Hlines] Hfresh. unfold CreateInvoiceScreen.handleSave.
  apply Z.eqb_neq in Hcust. rewrite Hcust.
  destruct (FormData.items (Screen.formData scr)) as [| l0 ls] eqn:Hl; [congruence |].
  cbn [List.length Nat.eqb].
  rewrite (saveInvoice_create_opened now scr d Hid Hfresh). now rewrite Hid.
Qed.

Lemma sell_line_db_invoices snapshot newInvoiceId item d :
  invoices (sell_line_db snapshot newInvoiceId item d) = invoices d.
Proof.
  unfold sell_line_db. cbv zeta.
  now destruct (find (fun i => Item.id i =? InvoiceItemData.item_id item) snapshot).
Qed.

Lemma sell_lines_invoices snapshot newInvoiceId lines d :
  invoices (fold_left (fun acc x => sell_line_db snapshot newInvoiceId x acc) lines d)
  = invoices d.
Proof.
  revert d. induction lines as [| x lines IH]; intros d; simpl.
  - reflexivity.
  - rewrite IH. apply sell_line_db_invoices.
Qed.

Lemma created_db_invoices now scr d :
  has_invoice_number (Screen.invoiceNumber scr) (invoices d) = false ->
  invoices (created_db now scr d)
  = snd (insert_row
           (fun i =>
              let totals := CreateInvoiceScreen.calculateTotals (Screen.formData scr) in
              Invoice.mk i (Screen.invoiceNumber scr)
                (FormData.customer_id (Screen.formData scr))
                (split_head "T" (FormData.invoice_date (Screen.formData scr)))
                (subtotal totals) (vatAmount totals) (total totals) now)
           (invoices d)).
Proof.
  intros Hfresh. unfold created_db. cbv zeta. rewrite sell_lines_invoices.
  unfold insert_invoice. rewrite Hfresh. reflexivity.
Qed.

Lemma mount_new_opened today d :
  exists scr,
    CreateInvoiceScreen.mount None today (opened d) = (scr, opened d)
    /\ Screen.invoiceId scr = None
    /\ Screen.invoiceNumber scr = INV (count_rows (invoices d) + 1)
    /\ Screen.items scr
       = order_by (fun a b => String.leb (Item.name a) (Item.name b)) (rows (items d)).
Proof.
  unfold CreateInvoiceScreen.mount, CreateInvoiceScreen.loadData.
  unfold getCustomers, getCategories, getItems.
  rewrite (bind_Ok _ _ _ _ _ (query_opened _ _)).
  rewrite (bind_Ok _ _ _ _ _ (query_opened _ _)).
  rewrite (bind_Ok _ _ _ _ _ (query_opened _ _)).
  unfold ret. cbn [truthy_id Screen.invoiceId Screen.initial].
  unfold CreateInvoiceScreen.generateInvoiceNumber.
  destruct (order_by _ (rows (customers d))) as [| c cs];
    rewrite generateInvoiceNumber_opened; eexists; split; try reflexivity; auto.
Qed.

Lemma numbered_fresh d :
  numbered d ->
  has_invoice_number (INV (count_rows (invoices d) + 1)) (invoices d) = false.
Proof.
  unfold numbered, invoice_numbers, count_rows. intros Hnum.
  unfold has_invoice_number. apply existsb_unmatched. intros r Hr.
  apply String.eqb_neq. intros Heq.
  assert (Hin : In (Invoice.invoice_number r)
                  (map (fun n => INV (Z.of_nat n))
                     (List.seq 1 (List.length (rows (invoices d)))))).
  { rewrite <- Hnum. now apply in_map. }
  apply in_map_iff in Hin. destruct Hin as (j & Hj & Hrange).
  apply in_seq in Hrange.
  rewrite Heq in Hj. apply INV_inj in Hj; lia.
Qed.

Lemma create_invoice_numbered now form d :
  numbered d ->
  complete_form form ->
  exists d',
    create_invoice now form (opened d)
    = (showSuccess "Invoice created successfully", opened d')
    /\ numbered d'
    /\ List.length (rows (invoices d')) = S (List.length (rows (invoices d)))
    /\ (exists inv,
          rows (invoices d') = (rows (invoices d) ++ [inv])%list
          /\ Invoice.invoice_number inv = INV (count_rows (invoices d) + 1)).
Proof.
  intros Hnum Hform. unfold create_invoice.
  destruct (mount_new_opened (FormData.invoice_date form) d)
    as (scr & -> & Hid & Hnumber & _).
  pose proof (numbered_fresh d Hnum) as Hfresh. rewrite <- Hnumber in Hfresh.
  set (scr' := Screen.set_formData form scr).
  assert (Hid' : truthy_id (Screen.invoiceId scr') = None) by (simpl; now rewrite Hid).
  exists (created_db now scr' d).
  split; [| split; [| split]].
  - now apply handleSave_create_opened.
  - unfold numbered, invoice_numbers.
    rewrite (created_db_invoices now scr' d Hfresh). cbn [insert_row snd rows].
    rewrite length_app, Nat.add_comm. cbn [List.length Nat.add].
    rewrite seq_S, !map_app. cbn [map]. unfold numbered, invoice_numbers in Hnum.
    rewrite <- Hnum. f_equal. f_equal. cbn [scr' Screen.set_formData Screen.invoiceNumber].
    rewrite Hnumber. unfold count_rows. cbn [Invoice.invoice_number]. f_equal. lia.
  - rewrite (created_db_invoices now scr' d Hfresh). cbn [insert_row snd rows].
    rewrite length_app. simpl. lia.
  - rewrite (created_db_invoices now scr' d Hfresh). cbn [insert_row snd rows].
    eexists. split; [reflexivity |]. exact Hnumber.
Qed.

Lemma create_invoices_numbered orders :
  forall d,
    numbered d ->
    Forall (fun o => complete_form (snd o)) orders ->
    exists d',
      create_invoices orders (opened d) = opened d'
      /\ numbered d'
      /\ List.length (rows (invoices d'))
         = (List.length (rows (invoices d)) + List.length orders)%nat.
Proof.
  induction orders as [| [now form] orders IH]; intros d Hnum Hall.
  - exists d. simpl. auto.
  - inversion Hall as [| o os Hform Hrest]; subst.
    destruct (create_invoice_numbered now form d Hnum Hform) as (d1 & Hrun & Hnum1 & Hlen & _).
    destruct (IH d1 Hnum1 Hrest) as (d' & Hruns & Hnum' & Hlen').
    exists d'. simpl. rewrite Hrun. simpl. split; [assumption |].
    split; [assumption | lia].
Qed.

(** C4. With [k] invoice rows in the store, [generateInvoiceNumber]
    returns ["INV-"] followed by the decimal digits of [k + 1] with zeros
    in front up to a width of six: the digits read back as [k + 1], they
    are at least six, and more than six only when [k + 1] itself needs
    more. So 1 gives INV-000001 and 42 gives INV-000042, and [N] invoices
    created one after the other in a store that had none are numbered
    INV-1 ... INV-N (padded) in creation order. *)
Theorem invoice_numbers_sequential :
  (forall d,
     generateInvoiceNumber (opened d) = (Ok (INV (count_rows (invoices d) + 1)), opened d))
  /\ (forall n, 0 <= n ->
        exists digits,
          INV n = "INV-" ++ digits
          /\ number_of_digits digits = Some n
          /\ (6 <= String.length digits)%nat
          /\ (String.length digits = 6%nat \/ digits = String_of n))
  /\ INV 1 = "INV-000001"
  /\ INV 42 = "INV-000042"
  /\ (forall d orders,
        rows (invoices d) = [] ->
        Forall (fun o => complete_form (snd o)) orders ->
        exists d',
          create_invoices orders (opened d) = opened d'
          /\ invoice_numbers d'
             = map (fun n => INV (Z.of_nat n)) (List.seq 1 (List.length orders))).
Proof.
  split; [exact generateInvoiceNumber_opened |].
  split; [exact INV_digits |].
  split; [reflexivity |]. split; [reflexivity |].
  intros d orders Hempty Hall.
  assert (Hnum : numbered d) by (unfold numbered, invoice_numbers; now rewrite Hempty).
  destruct (create_invoices_numbered orders d Hnum Hall) as (d' & Hrun & Hnum' & Hlen).
  exists d'. split; [assumption |].
  rewrite Hnum', Hlen, Hempty. reflexivity.
Qed.

(** ** What a save leaves in the invoice_items table *)

Lemma add_line_db_invoice_items invoiceId x d :
  invoice_items (add_line_db invoiceId x d)
  = mkTable (rows (invoice_items d) ++ [line_row invoiceId (seq (invoice_items d) + 1) x])
      (seq (invoice_items d) + 1).
Proof. reflexivity. Qed.

Lemma sell_line_db_invoice_items snapshot invoiceId x d :
  invoice_items (sell_line_db snapshot invoiceId x d)
  = invoice_items (add_line_db invoiceId x d).
Proof.
  unfold sell_line_db. cbv zeta.
  now destruct (find (fun i => Item.id i =? InvoiceItemData.item_id x) snapshot).
Qed.

Lemma fold_lines_invoice_items (step : InvoiceItemData.t -> Database -> Database) invoiceId :
  (forall x d, invoice_items (step x d) = invoice_items (add_line_db invoiceId x d)) ->
  forall lines d,
    rows (invoice_items (fold_left (fun acc x => step x acc) lines d))
    = (rows (invoice_items d) ++ line_rows invoiceId (seq (invoice_items d)) lines)%list.
Proof.
  intros Hstep lines. induction lines as [| x lines IH]; intros d; simpl.
  - now rewrite app_nil_r.
  - rewrite IH, Hstep, add_line_db_invoice_items. simpl. now rewrite <- app_assoc.
Qed.

Lemma line_rows_invoice_id invoiceId after lines r :
  In r (line_rows invoiceId after lines) -> InvoiceItem.invoice_id r = invoiceId.
Proof.
  revert after. induction lines as [| x lines IH]; intros after; simpl.
  - contradiction.
  - intros [<- | Hr]; [reflexivity | eauto].
Qed.

Lemma filter_all {R : Type} (p : R -> bool) (l : list R) :
  (forall r, In r l -> p r = true) -> filter p l = l.
Proof.
  induction l as [| r l IH]; intros Hp; simpl.
  - reflexivity.
  - rewrite (Hp r) by now left. f_equal. apply IH. intros r' Hr'. apply Hp. now right.
Qed.

Lemma filter_none {R : Type} (p : R -> bool) (l : list R) :
  (forall r, In r l -> p r = false) -> filter p l = [].
Proof.
  induction l as [| r l IH]; intros Hp; simpl.
  - reflexivity.
  - rewrite (Hp r) by now left. apply IH. intros r' Hr'. apply Hp. now right.
Qed.

Lemma select_line_rows invoiceId after lines :
  filter (fun r => InvoiceItem.invoice_id r =? invoiceId) (line_rows invoiceId after lines)
  = line_rows invoiceId after lines.
Proof.
  apply filter_all. intros r Hr. apply Z.eqb_eq. eapply line_rows_invoice_id; eauto.
Qed.

Lemma line_rows_extended invoiceId after lines :
  map InvoiceItem.extended_amount (line_rows invoiceId after lines)
  = map InvoiceItemData.extended_amount lines.
Proof.
  revert after. induction lines as [| x lines IH]; intros after; simpl.
  - reflexivity.
  - now rewrite IH.
Qed.

Lemma fold_add_map {A : Type} (f : A -> number) (l : list A) (acc : number) :
  fold_left (fun sum x => PrimFloat.add sum (f x)) l acc
  = fold_left PrimFloat.add (map f l) acc.
Proof.
  revert acc. induction l as [| x l IH]; intros acc; simpl.
  - reflexivity.
  - apply IH.
Qed.

Lemma stored_subtotal_line_rows invoiceId after lines :
  stored_subtotal (line_rows invoiceId after lines)
  = subtotal (CreateInvoiceScreen.calculateTotals
                (FormData.mk 0 "" lines)).
Proof.
  unfold stored_subtotal, CreateInvoiceScreen.calculateTotals. simpl.
  rewrite (fold_add_map InvoiceItem.extended_amount).
  rewrite (fold_add_map InvoiceItemData.extended_amount).
  now rewrite line_rows_extended.
Qed.

Lemma calculateTotals_lines (f g : FormData.t) :
  FormData.items f = FormData.items g ->
  CreateInvoiceScreen.calculateTotals f = CreateInvoiceScreen.calculateTotals g.
Proof.
  intros H. unfold CreateInvoiceScreen.calculateTotals. now rewrite H.
Qed.

Lemma created_db_lines now scr d :
  well_keyed d ->
  select_where (fun r => InvoiceItem.invoice_id r =? seq (invoices d) + 1)
    (invoice_items (created_db now scr d))
  = line_rows (seq (invoices d) + 1) (seq (invoice_items d))
      (FormData.items (Screen.formData scr)).
Proof.
  intros (_ & _ & Hlines). unfold select_where, created_db. cbv zeta.
  rewrite (fold_lines_invoice_items _ (seq (invoices d) + 1))
    by (intros; apply sell_line_db_invoice_items).
  rewrite filter_app, select_line_rows.
  replace (invoice_items (snd (insert_invoice _ _ _ _ _ _ _ d))) with (invoice_items d)
    by (unfold insert_invoice; now destruct (has_invoice_number _ _)).
  rewrite filter_none; [reflexivity |].
  intros r Hr. apply Z.eqb_neq. specialize (Hlines r Hr). lia.
Qed.

Lemma updated_db_lines scr invoiceId d :
  exists after,
    select_where (fun r => InvoiceItem.invoice_id r =? invoiceId)
      (invoice_items (updated_db scr invoiceId d))
    = line_rows invoiceId after (FormData.items (Screen.formData scr)).
Proof.
  unfold select_where, updated_db. cbv zeta.
  rewrite (fold_lines_invoice_items _ invoiceId) by reflexivity.
  rewrite filter_app, select_line_rows. eexists.
  cbn [delete_invoice_items snd set_invoice_items invoice_items delete_where rows].
  rewrite filter_none; [reflexivity |].
  intros r Hr. apply filter_In in Hr. destruct Hr as [_ Hr].
  now apply negb_true_iff in Hr.
Qed.

(** ** What a save leaves in the invoices table, and the way back *)

Lemma totals_match_saved (form : FormData.t) (inv : Invoice.t) invoiceId after :
  Invoice.subtotal inv = subtotal (CreateInvoiceScreen.calculateTotals form) ->
  Invoice.vat_amount inv = vatAmount (CreateInvoiceScreen.calculateTotals form) ->
  Invoice.total_amount inv = total (CreateInvoiceScreen.calculateTotals form) ->
  totals_match inv (line_rows invoiceId after (FormData.items form)).
Proof.
  intros Hs Hv Ht. unfold totals_match.
  rewrite stored_subtotal_line_rows.
  rewrite (calculateTotals_lines (FormData.mk 0 "" (FormData.items form)) form)
    by reflexivity.
  rewrite Ht, Hv, Hs. repeat split.
Qed.

Lemma created_db_invoice now scr d inv :
  well_keyed d ->
  has_invoice_number (Screen.invoiceNumber scr) (invoices d) = false ->
  In inv (rows (invoices (created_db now scr d))) ->
  Invoice.id inv = seq (invoices d) + 1 ->
  inv = (let totals := CreateInvoiceScreen.calculateTotals (Screen.formData scr) in
         Invoice.mk (seq (invoices d) + 1) (Screen.invoiceNumber scr)
           (FormData.customer_id (Screen.formData scr))
           (split_head "T" (FormData.invoice_date (Screen.formData scr)))
           (subtotal totals) (vatAmount totals) (total totals) now).
Proof.
  intros (_ & Hids & _) Hfresh Hin Hid.
  rewrite (created_db_invoices now scr d Hfresh) in Hin. cbn [insert_row snd rows] in Hin.
  apply in_app_or in Hin. destruct Hin as [Hold | [<- | []]].
  - specialize (Hids inv Hold). lia.
  - reflexivity.
Qed.

Lemma updated_db_invoices scr invoiceId d :
  invoices (updated_db scr invoiceId d)
  = invoices
      (snd (let totals := CreateInvoiceScreen.calculateTotals (Screen.formData scr) in
            update_invoice invoiceId (FormData.customer_id (Screen.formData scr))
              (split_head "T" (FormData.invoice_date (Screen.formData scr)))
              (subtotal totals) (vatAmount totals) (total totals) d)).
Proof.
  unfold updated_db. cbv zeta.
  set (d1 := snd (update_invoice _ _ _ _ _ _ d)).
  set (d2 := snd (delete_invoice_items invoiceId d1)).
  assert (H : forall lines acc,
             invoices (fold_left (fun acc x => add_line_db invoiceId x acc) lines acc)
             = invoices acc).
  { induction lines as [| x lines IH]; intros acc; simpl; [reflexivity |].
    now rewrite IH. }
  now rewrite H.
Qed.

Lemma find_present {R : Type} (p : R -> bool) (l : list R) (x : R) :
  In x l -> p x = true -> exists y, find p l = Some y /\ In y l /\ p y = true.
Proof.
  intros Hin Hp. destruct (find p l) as [y |] eqn:Hfind.
  - exists y. apply find_some in Hfind. tauto.
  - pose proof (find_none _ _ Hfind x Hin). congruence.
Qed.

Lemma loadData_edit_opened invoiceId today d :
  invoiceId <> 0 ->
  CreateInvoiceScreen.loadData (Screen.initial (Some invoiceId) today) (opened d)
  = (Screen.set_items
       (order_by (fun a b => String.leb (Item.name a) (Item.name b)) (rows (items d)))
       (Screen.initial (Some invoiceId) today), opened d).
Proof.
  intros Hnz. unfold CreateInvoiceScreen.loadData.
  unfold getCustomers, getCategories, getItems.
  rewrite (bind_Ok _ _ _ _ _ (query_opened _ _)).
  rewrite (bind_Ok _ _ _ _ _ (query_opened _ _)).
  rewrite (bind_Ok _ _ _ _ _ (query_opened _ _)).
  unfold ret. cbn [Screen.invoiceId Screen.initial truthy_id].
  apply Z.eqb_neq in Hnz. rewrite Hnz.
  now destruct (order_by (fun a b => String.leb (Customer.name a) (Customer.name b))
                  (rows (customers d))).
Qed.

Lemma mount_edit_opened invoiceId today d inv :
  invoiceId <> 0 ->
  In inv (rows (invoices d)) ->
  Invoice.id inv = invoiceId ->
  (forall i, In i (rows (invoices d)) -> Invoice.id i = invoiceId ->
             is_calendar_date (Invoice.invoice_date i) = true) ->
  exists scr inv',
    CreateInvoiceScreen.mount_edit invoiceId today (opened d) = Some (scr, opened d)
    /\ In inv' (rows (invoices d))
    /\ Invoice.id inv' = invoiceId
    /\ Screen.invoiceNumber scr = Invoice.invoice_number inv'
    /\ map InvoiceItemData.extended_amount (FormData.items (Screen.formData scr))
       = map InvoiceItem.extended_amount
           (select_where (fun r => InvoiceItem.invoice_id r =? invoiceId)
              (invoice_items d)).
Proof.
  intros Hnz Hin Hid Hdates.
  assert (Htruthy : truthy_id (Some invoiceId) = Some invoiceId).
  { unfold truthy_id. apply Z.eqb_neq in Hnz. now rewrite Hnz. }
  unfold CreateInvoiceScreen.mount_edit, CreateInvoiceScreen.mount.
  rewrite (loadData_edit_opened invoiceId today d Hnz), Htruthy.
  set (scr1 := Screen.set_items _ _).
  unfold CreateInvoiceScreen.loadInvoice.
  replace (truthy_id (Screen.invoiceId scr1)) with (Some invoiceId) by (symmetry; exact Htruthy).
  unfold getInvoices. rewrite query_opened.
  destruct (find_present (fun i => Invoice.id i =? invoiceId)
              (order_by (fun a b => Invoice.created_at b <=? Invoice.created_at a)
                 (rows (invoices d))) inv) as (inv' & Hfind & Hin' & Hid').
  { now apply order_by_In. }
  { now apply Z.eqb_eq. }
  rewrite Hfind.
  apply order_by_In in Hin'. apply Z.eqb_eq in Hid'.
  unfold CreateInvoiceScreen.iso_of_date. rewrite (Hdates inv' Hin' Hid').
  unfold getInvoiceItems, getItems.
  rewrite (bind_Ok _ _ _ _ _ (query_opened _ _)).
  rewrite (bind_Ok _ _ _ _ _ (query_opened _ _)).
  unfold ret.
  eexists _, inv'. split; [reflexivity |].
  split; [assumption | split; [assumption | split; [reflexivity |]]].
  cbn [Screen.formData Screen.set_formData FormData.items].
  rewrite map_map. reflexivity.
Qed.

Lemma calculateTotals_stored (form : FormData.t) (lines : list InvoiceItem.t)
  (inv : Invoice.t) :
  map InvoiceItemData.extended_amount (FormData.items form)
  = map InvoiceItem.extended_amount lines ->
  totals_match inv lines ->
  CreateInvoiceScreen.calculateTotals form
  = mkTotals (Invoice.subtotal inv) (Invoice.vat_amount inv) (Invoice.total_amount inv).
Proof.
  intros Hmap (Hs & Hv & Ht).
  assert (Hsub : subtotal (CreateInvoiceScreen.calculateTotals form) = Invoice.subtotal inv).
  { rewrite Hs. unfold CreateInvoiceScreen.calculateTotals, stored_subtotal. simpl.
    rewrite (fold_add_map InvoiceItemData.extended_amount).
    rewrite (fold_add_map InvoiceItem.extended_amount). now rewrite Hmap. }
  rewrite Ht, Hv, <- Hsub. reflexivity.
Qed.

Lemma handleSave_update_opened now scr invoiceId d :
  truthy_id (Screen.invoiceId scr) = Some invoiceId ->
  complete_form (Screen.formData scr) ->
  CreateInvoiceScreen.handleSave now scr (opened d)
  = (showSuccess "Invoice updated successfully", opened (updated_db scr invoiceId d)).
Proof.
  intros Hid [Hcust Hlines]. unfold CreateInvoiceScreen.handleSave.
  apply Z.eqb_neq in Hcust. rewrite Hcust.
  destruct (FormData.items (Screen.formData scr)) as [| l0 ls] eqn:Hl; [congruence |].
  cbn [List.length Nat.eqb].
  unfold CreateInvoiceScreen.saveInvoice. rewrite Hid, Hl.
  rewrite (bind_Ok _ _ _ _ _ (updateInvoice_opened _ _ _ _ _ _ _)).
  rewrite (bind_Ok _ _ _ _ _ (deleteInvoiceItems_opened _ _)).
  rewrite (for_of_opened _ _ (add_line_db invoiceId)) by (intros; apply addInvoiceItem_opened).
  unfold updated_db. now rewrite Hl.
Qed.

Lemma getInvoiceItems_opened invoiceId d :
  getInvoiceItems invoiceId (opened d)
  = (Ok (select_where (fun r => InvoiceItem.invoice_id r =? invoiceId) (invoice_items d)),
     opened d).
Proof.
  unfold getInvoiceItems. now rewrite query_opened.
Qed.

(** C2. After a successful save the invoice row carries
    subtotal = the sum of its stored line items' extended_amount (summed
    in stored order), vat_amount = subtotal * 0.15 (the binary64 nearest
    to 15/100, written out in the statement and not taken from the
    program's constant) and total_amount = subtotal + vat_amount; and
    the edit screen that loads the invoice and its lines back computes,
    with [calculateTotals], exactly the three persisted numbers. Stated
    for a new invoice (whose number is not taken, in a store where no
    line item points at a future invoice id) and for the update of an
    existing invoice. The way back through the edit screen is stated for
    a form whose date is a day of the calendar, which is what the screen
    holds. *)
Theorem saved_totals_round_trip now today scr d :
  complete_form (Screen.formData scr) ->
  (truthy_id (Screen.invoiceId scr) = None ->
   has_invoice_number (Screen.invoiceNumber scr) (invoices d) = false ->
   well_keyed d ->
   exists d' inv lines,
     CreateInvoiceScreen.handleSave now scr (opened d)
     = (showSuccess "Invoice created successfully", opened d')
     /\ In inv (rows (invoices d'))
     /\ Invoice.invoice_number inv = Screen.invoiceNumber scr
     /\ getInvoiceItems (Invoice.id inv) (opened d') = (Ok lines, opened d')
     /\ map InvoiceItem.extended_amount lines
        = map InvoiceItemData.extended_amount (FormData.items (Screen.formData scr))
     /\ Invoice.subtotal inv = stored_subtotal lines
     /\ Invoice.vat_amount inv = PrimFloat.mul (Invoice.subtotal inv) 0x1.3333333333333p-3
     /\ Invoice.total_amount inv
        = PrimFloat.add (Invoice.subtotal inv) (Invoice.vat_amount inv)
     /\ (is_calendar_date (split_head "T" (FormData.invoice_date (Screen.formData scr)))
         = true ->
         exists scr',
           CreateInvoiceScreen.mount_edit (Invoice.id inv) today (opened d')
           = Some (scr', opened d')
           /\ Screen.invoiceNumber scr' = Screen.invoiceNumber scr
           /\ CreateInvoiceScreen.calculateTotals (Screen.formData scr')
              = mkTotals (Invoice.subtotal inv) (Invoice.vat_amount inv)
                  (Invoice.total_amount inv)))
  /\ (forall invoiceId inv0,
        truthy_id (Screen.invoiceId scr) = Some invoiceId ->
        In inv0 (rows (invoices d)) ->
        Invoice.id inv0 = invoiceId ->
        exists d' lines,
          CreateInvoiceScreen.handleSave now scr (opened d)
          = (showSuccess "Invoice updated successfully", opened d')
          /\ getInvoiceItems invoiceId (opened d') = (Ok lines, opened d')
          /\ map InvoiceItem.extended_amount lines
             = map InvoiceItemData.extended_amount (FormData.items (Screen.formData scr))
          /\ (exists i, In i (rows (invoices d')) /\ Invoice.id i = invoiceId)
          /\ (forall i, In i (rows (invoices d')) -> Invoice.id i = invoiceId ->
                        Invoice.subtotal i = stored_subtotal lines
                        /\ Invoice.vat_amount i
                           = PrimFloat.mul (Invoice.subtotal i) 0x1.3333333333333p-3
                        /\ Invoice.total_amount i
                           = PrimFloat.add (Invoice.subtotal i) (Invoice.vat_amount i))
          /\ (is_calendar_date
                (split_head "T" (FormData.invoice_date (Screen.formData scr))) = true ->
              exists scr' inv,
                CreateInvoiceScreen.mount_edit invoiceId today (opened d')
                = Some (scr', opened d')
                /\ In inv (rows (invoices d'))
                /\ Invoice.id inv = invoiceId
                /\ CreateInvoiceScreen.calculateTotals (Screen.formData scr')
                   = mkTotals (Invoice.subtotal inv) (Invoice.vat_amount inv)
                       (Invoice.total_amount inv))).
Proof.
  intros Hform. split.
  - intros Hid Hfresh Hwk.
    pose proof (created_db_invoices now scr d Hfresh) as Hinv.
    cbn [insert_row snd] in Hinv.
    set (newId := seq (invoices d) + 1) in *.
    set (inv := Invoice.mk newId (Screen.invoiceNumber scr)
                  (FormData.customer_id (Screen.formData scr))
                  (split_head "T" (FormData.invoice_date (Screen.formData scr)))
                  (subtotal (CreateInvoiceScreen.calculateTotals (Screen.formData scr)))
                  (vatAmount (CreateInvoiceScreen.calculateTotals (Screen.formData scr)))
                  (total (CreateInvoiceScreen.calculateTotals (Screen.formData scr)))
                  now) in *.
    set (lines := line_rows newId (seq (invoice_items d))
                    (FormData.items (Screen.formData scr))).
    assert (Hin : In inv (rows (invoices (created_db now scr d)))).
    { rewrite Hinv. simpl. apply in_or_app. right. now left. }
    assert (Hmatch : totals_match inv lines) by (now apply totals_match_saved).
    assert (Hnz : newId <> 0) by (destruct Hwk as (H0 & _); unfold newId; lia).
    exists (created_db now scr d), inv, lines.
    split; [now apply handleSave_create_opened |].
    split; [assumption |]. split; [reflexivity |].
    split; [rewrite getInvoiceItems_opened; unfold lines, inv, newId; cbn [Invoice.id];
            now rewrite (created_db_lines now scr d Hwk) |].
    split; [apply line_rows_extended |].
    split; [apply Hmatch |]. split; [apply Hmatch |]. split; [apply Hmatch |].
    intros Hdate.
    destruct (mount_edit_opened newId today (created_db now scr d) inv Hnz Hin eq_refl)
      as (scr' & inv' & Hmount & Hin' & Hid' & Hnum' & Hext').
    { intros i Hi Hidi.
      now rewrite (created_db_invoice now scr d i Hwk Hfresh Hi Hidi). }
    assert (Hsame : inv' = inv) by (now apply (created_db_invoice now scr d inv')).
    subst inv'.
    exists scr'. split; [assumption |]. split; [assumption |].
    apply (calculateTotals_stored _ lines); [| assumption].
    rewrite Hext'. unfold newId, lines.
    now rewrite (created_db_lines now scr d Hwk).
  - intros invoiceId inv0 Hid Hin0 Hid0.
    destruct (updated_db_lines scr invoiceId d) as (after & Hlines).
    set (lines := line_rows invoiceId after (FormData.items (Screen.formData scr))) in *.
    assert (Hrow : forall i, In i (rows (invoices (updated_db scr invoiceId d))) ->
                             Invoice.id i = invoiceId ->
                             totals_match i lines
                             /\ Invoice.invoice_date i
                                = split_head "T" (FormData.invoice_date (Screen.formData scr))).
    { intros i Hi Hidi. rewrite updated_db_invoices in Hi. cbv zeta in Hi.
      cbn [update_invoice snd set_invoices invoices] in Hi.
      apply update_where_In in Hi. destruct Hi as [(r & _ & _ & ->) | (_ & Hne)].
      - split; [now apply totals_match_saved | reflexivity].
      - apply Z.eqb_neq in Hne. contradiction. }
    assert (Hnz : invoiceId <> 0).
    { unfold truthy_id in Hid. destruct (Screen.invoiceId scr) as [i |]; [| discriminate].
      destruct (i =? 0) eqn:Hi; [discriminate |]. apply Z.eqb_neq in Hi. congruence. }
    assert (Hin1 : exists inv1, In inv1 (rows (invoices (updated_db scr invoiceId d)))
                                /\ Invoice.id inv1 = invoiceId).
    { rewrite updated_db_invoices. cbv zeta.
      cbn [update_invoice snd set_invoices invoices update_where rows].
      eexists. split.
      - apply in_map_iff. exists inv0. split; [reflexivity | assumption].
      - apply Z.eqb_eq in Hid0. rewrite Hid0. simpl. now apply Z.eqb_eq. }
    destruct Hin1 as (inv1 & Hin1 & Hid1).
    exists (updated_db scr invoiceId d), lines.
    split; [now apply handleSave_update_opened |].
    split; [rewrite getInvoiceItems_opened; now rewrite Hlines |].
    split; [apply line_rows_extended |].
    split; [now exists inv1 |].
    split; [intros i Hi Hidi; apply (Hrow i Hi Hidi) |].
    intros Hdate.
    destruct (mount_edit_opened invoiceId today (updated_db scr invoiceId d) inv1
                Hnz Hin1 Hid1)
      as (scr' & inv' & Hmount & Hin' & Hid' & Hnum' & Hext').
    { intros i Hi Hidi. now rewrite (proj2 (Hrow i Hi Hidi)). }
    exists scr', inv'.
    split; [assumption |]. split; [assumption |]. split; [assumption |].
    apply (calculateTotals_stored _ lines); [| now apply Hrow].
    now rewrite Hext', Hlines.
Qed.

(** ** The key discipline is kept by the two save paths *)

Lemma well_keyed_empty : well_keyed empty_database.
Proof.
  unfold well_keyed. simpl. split; [lia |]. split; intros r [].
Qed.

Lemma well_keyed_created now scr d :
  well_keyed d ->
  has_invoice_number (Screen.invoiceNumber scr) (invoices d) = false ->
  well_keyed (created_db now scr d).
Proof.
  intros (Hseq & Hids & Hlines) Hfresh. unfold well_keyed.
  rewrite (created_db_invoices now scr d Hfresh). cbn [insert_row snd rows seq].
  split; [lia |]. split.
  - intros i Hi. apply in_app_or in Hi. destruct Hi as [Hold | [<- | []]].
    + specialize (Hids i Hold). lia.
    + simpl. lia.
  - intros r Hr. unfold created_db in Hr. cbv zeta in Hr.
    rewrite (fold_lines_invoice_items _ (seq (invoices d) + 1)) in Hr
      by (intros; apply sell_line_db_invoice_items).
    apply in_app_or in Hr. destruct Hr as [Hold | Hnew].
    + unfold insert_invoice in Hold. rewrite Hfresh in Hold. simpl in Hold.
      specialize (Hlines r Hold). lia.
    + apply line_rows_invoice_id in Hnew. lia.
Qed.

Lemma well_keyed_updated scr invoiceId d inv0 :
  well_keyed d ->
  In inv0 (rows (invoices d)) ->
  Invoice.id inv0 = invoiceId ->
  well_keyed (updated_db scr invoiceId d).
Proof.
  intros (Hseq & Hids & Hlines) Hin0 Hid0. unfold well_keyed.
  rewrite updated_db_invoices. cbv zeta.
  cbn [update_invoice snd set_invoices invoices update_where seq].
  split; [assumption |]. split.
  - intros i Hi. apply (update_where_In _ _ (invoices d)) in Hi.
    destruct Hi as [(r & Hr & _ & ->) | (Hold & _)]; simpl; auto.
  - intros r Hr. unfold updated_db in Hr. cbv zeta in Hr.
    rewrite (fold_lines_invoice_items _ invoiceId) in Hr by reflexivity.
    apply in_app_or in Hr. destruct Hr as [Hold | Hnew].
    + simpl in Hold. apply filter_In in Hold. destruct Hold as [Hold _]. auto.
    + apply line_rows_invoice_id in Hnew. specialize (Hids inv0 Hin0). lia.
Qed.

(** ** The create path and the stock *)

Lemma sell_line_db_items snapshot invoiceId x d :
  items (sell_line_db snapshot invoiceId x d)
  = match find (fun c => Item.id c =? InvoiceItemData.item_id x) snapshot with
    | Some currentItem =>
        update_where (fun i => Item.id i =? InvoiceItemData.item_id x)
          (with_quantity (Z.max 0 (Item.quantity currentItem - InvoiceItemData.quantity x)))
          (items d)
    | None => items d
    end.
Proof.
  unfold sell_line_db. cbv zeta.
  now destruct (find (fun c => Item.id c =? InvoiceItemData.item_id x) snapshot).
Qed.

Lemma stock_after_id snapshot lines i : Item.id (stock_after snapshot lines i) = Item.id i.
Proof.
  unfold stock_after.
  destruct (find _ (List.rev lines)); [| reflexivity].
  now destruct (find _ snapshot).
Qed.

Lemma with_quantity_stock_after q snapshot lines i :
  with_quantity q (stock_after snapshot lines i) = with_quantity q i.
Proof.
  unfold stock_after.
  destruct (find _ (List.rev lines)); [| reflexivity].
  now destruct (find _ snapshot).
Qed.

Lemma find_ext {R : Type} (p q : R -> bool) (l : list R) :
  (forall r, p r = q r) -> find p l = find q l.
Proof.
  intros H. induction l as [| r l IH]; simpl; [reflexivity |].
  now rewrite H, IH.
Qed.

Lemma stock_after_snoc snapshot lines x i :
  stock_after snapshot (lines ++ [x]) i
  = match find (fun c => Item.id c =? InvoiceItemData.item_id x) snapshot with
    | Some currentItem =>
        if Item.id (stock_after snapshot lines i) =? InvoiceItemData.item_id x
        then with_quantity
               (Z.max 0 (Item.quantity currentItem - InvoiceItemData.quantity x))
               (stock_after snapshot lines i)
        else stock_after snapshot lines i
    | None => stock_after snapshot lines i
    end.
Proof.
  rewrite stock_after_id. unfold stock_after at 1.
  rewrite rev_app_distr. simpl.
  destruct (Item.id i =? InvoiceItemData.item_id x) eqn:Hid.
  - apply Z.eqb_eq in Hid.
    rewrite (find_ext (fun c => Item.id c =? InvoiceItemData.item_id x)
               (fun c => Item.id c =? Item.id i))
      by (intros; now rewrite Hid).
    rewrite <- Hid, Z.eqb_refl.
    destruct (find (fun c => Item.id c =? Item.id i) snapshot) as [cur |] eqn:Hcur.
    + now rewrite with_quantity_stock_after.
    + unfold stock_after. rewrite Hcur. now destruct (find _ (List.rev lines)).
  - rewrite Z.eqb_sym, Hid. fold (stock_after snapshot lines i).
    now destruct (find (fun c => Item.id c =? InvoiceItemData.item_id x) snapshot).
Qed.

Lemma sell_lines_items snapshot invoiceId lines d :
  items (fold_left (fun acc x => sell_line_db snapshot invoiceId x acc) lines d)
  = mkTable (map (stock_after snapshot lines) (rows (items d))) (seq (items d)).
Proof.
  induction lines as [| x lines IH] using rev_ind.
  - simpl. unfold stock_after. simpl. rewrite map_id. now destruct (items d).
  - rewrite fold_left_app. simpl. rewrite sell_line_db_items, IH.
    destruct (find (fun c => Item.id c =? InvoiceItemData.item_id x) snapshot)
      as [cur |] eqn:Hcur.
    + unfold update_where. simpl. rewrite map_map. f_equal.
      apply map_ext. intros i. now rewrite stock_after_snoc, Hcur.
    + f_equal. apply map_ext. intros i. now rewrite stock_after_snoc, Hcur.
Qed.

Lemma created_db_items now scr d :
  items (created_db now scr d)
  = mkTable
      (map (stock_after (Screen.items scr) (FormData.items (Screen.formData scr)))
         (rows (items d)))
      (seq (items d)).
Proof.
  unfold created_db. cbv zeta. rewrite sell_lines_items.
  unfold insert_invoice. now destruct (has_invoice_number _ _).
Qed.

(** No quantity is driven below zero by the create path. *)
Lemma created_db_never_negative now scr d :
  (forall i, In i (rows (items d)) -> 0 <= Item.quantity i) ->
  forall i, In i (rows (items (created_db now scr d))) -> 0 <= Item.quantity i.
Proof.
  intros Hpos i. rewrite created_db_items. simpl. rewrite in_map_iff.
  intros (i0 & <- & Hi0). unfold stock_after.
  destruct (find _ (List.rev _)); [| auto].
  destruct (find _ (Screen.items scr)); [| auto].
  simpl. lia.
Qed.

Lemma NoDup_map_inj {A B : Type} (f : A -> B) (l : list A) (x y : A) :
  NoDup (map f l) -> In x l -> In y l -> f x = f y -> x = y.
Proof.
  induction l as [| a l IH]; simpl; intros Hnd Hx Hy Hf; [contradiction |].
  inversion Hnd as [| b bs Hnotin Hnd']; subst.
  destruct Hx as [-> | Hx], Hy as [-> | Hy]; auto.
  - exfalso. apply Hnotin. rewrite Hf. now apply in_map.
  - exfalso. apply Hnotin. rewrite <- Hf. now apply in_map.
Qed.

(** When no two lines name the same item and the screen's list shows the
    stored quantity, each line takes its own quantity off the stock,
    floored at zero. *)
Lemma stock_after_distinct (scr : Screen.t) (x : InvoiceItemData.t) (i cur : Item.t) :
  NoDup (map InvoiceItemData.item_id (FormData.items (Screen.formData scr))) ->
  In x (FormData.items (Screen.formData scr)) ->
  Item.id i = InvoiceItemData.item_id x ->
  find (fun c => Item.id c =? Item.id i) (Screen.items scr) = Some cur ->
  Item.quantity cur = Item.quantity i ->
  stock_after (Screen.items scr) (FormData.items (Screen.formData scr)) i
  = with_quantity (Z.max 0 (Item.quantity i - InvoiceItemData.quantity x)) i.
Proof.
  intros Hnd Hx Hid Hcur Hq. unfold stock_after. rewrite Hcur.
  destruct (find_present (fun y => InvoiceItemData.item_id y =? Item.id i)
              (List.rev (FormData.items (Screen.formData scr))) x) as (y & Hfind & Hy & Hpy).
  { now apply -> in_rev. }
  { apply Z.eqb_eq. congruence. }
  rewrite Hfind. apply in_rev in Hy. apply Z.eqb_eq in Hpy.
  assert (y = x) by (apply (NoDup_map_inj InvoiceItemData.item_id _ y x Hnd); congruence).
  subst y. now rewrite Hq.
Qed.

(** C1, at the failing input. The store holds 10 of the Widget and the
    form has two lines for it, of 3 and of 4. The save succeeds and
    leaves the Widget at 6 = max(0, 10 - 4): the second line is taken off
    the quantity the screen read at mount, and overwrites what the first
    line wrote (7); the stock is neither 7 nor 10 - 3 - 4 = 3. *)
Theorem handleSave_create_repeated_item :
  exists d',
    CreateInvoiceScreen.handleSave 200 repeated_item_screen (opened example_db)
    = (showSuccess "Invoice created successfully", opened d')
    /\ map (fun i => (Item.id i, Item.quantity i)) (rows (items example_db))
       = [(1, 10); (2, 2)]
    /\ map (fun r => (InvoiceItem.item_id r, InvoiceItem.quantity r))
         (rows (invoice_items d'))
       = [(1, 3); (1, 4)]
    /\ map (fun i => (Item.id i, Item.quantity i)) (rows (items d')) = [(1, 6); (2, 2)].
Proof.
  eexists. split; [| split; [| split]].
  - vm_compute. reflexivity.
  - reflexivity.
  - reflexivity.
  - reflexivity.
Qed.

(** The two examples of the stock rule, on lines for two different
    items: 10 less 3 is 7, and 2 less 5 is floored at 0. *)
Example handleSave_create_two_items :
  option_map (fun t => map (fun i => (Item.id i, Item.quantity i)) (rows t))
    (items_of
       (snd (CreateInvoiceScreen.handleSave 200
               (after_add (fill_item_modal 2 (Some 5) 2.5%float example_order_screen))
               (opened example_db))))
  = Some [(1, 7); (2, 0)].
Proof. vm_compute. reflexivity. Qed.

(** ** Who computes the extended amount *)

Lemma array_set_In {A : Type} (a : list A) (i : nat) (x y : A) (a' : list A) :
  array_set a i x = Some a' -> In y a' -> y = x \/ In y a.
Proof.
  revert i a'. induction a as [| z a IH]; intros [| i] a'; simpl.
  - intros [= <-] [<- | []]. now left.
  - discriminate.
  - intros [= <-] [<- | Hy]; auto.
  - destruct (array_set a i x) as [l |] eqn:Hset; [| discriminate].
    intros [= <-] [<- | Hy]; auto.
    destruct (IH i l Hset Hy); auto.
Qed.

Lemma line_rows_In invoiceId after lines r :
  In r (line_rows invoiceId after lines) ->
  exists x rowid, In x lines /\ r = line_row invoiceId rowid x.
Proof.
  revert after. induction lines as [| x lines IH]; intros after; simpl.
  - contradiction.
  - intros [<- | Hr].
    + exists x, (after + 1). auto.
    + destruct (IH _ Hr) as (y & rowid & Hy & ->). exists y, rowid. auto.
Qed.

Lemma addOrUpdateItem_priced scr scr' :
  CreateInvoiceScreen.addOrUpdateItem scr = Accepted scr' ->
  forall x, In x (FormData.items (Screen.formData scr')) ->
            In x (FormData.items (Screen.formData scr)) \/ priced x.
Proof.
  unfold CreateInvoiceScreen.addOrUpdateItem.
  destruct (Screen.selectedItemId scr =? 0); [discriminate |].
  destruct (Screen.itemQuantity scr) as [quantity |]; [| discriminate].
  destruct (quantity <=? 0); [discriminate |].
  destruct (PrimFloat.is_nan (Screen.itemPrice scr) || PrimFloat.leb (Screen.itemPrice scr) 0);
    [discriminate |].
  destruct (find _ (Screen.items scr)) as [item |]; [| discriminate].
  cbv zeta.
  destruct (Screen.editingItemIndex scr >=? 0).
  - destruct (array_set _ _ _) as [l |] eqn:Hset; [| discriminate].
    intros [= <-] x Hx. simpl in Hx.
    destruct (array_set_In _ _ _ x _ Hset Hx) as [-> | Hold]; [right | now left].
    reflexivity.
  - intros [= <-] x Hx. simpl in Hx.
    apply in_app_or in Hx. destruct Hx as [Hold | [<- | []]]; [now left | right].
    reflexivity.
Qed.

(** C3, as the code has it. The store writes the [extendedAmount] it is
    given: for a unit price and an amount that a [REAL] column keeps as
    they are (any number but NaN, which the column refuses, and -0,
    which it gives back as 0), [addInvoiceItem] appends a row carrying
    exactly its five arguments. The product quantity * unit price is
    computed by the form: every line that [addOrUpdateItem] adds or
    replaces is priced that way, the other lines are kept; and a
    successful save of an invoice whose lines are all priced that way,
    a new invoice or an existing one, stores for that invoice only rows
    with extended_amount = quantity * unit_price. *)
Theorem extended_amount_stored_as_given :
  (forall invoiceId itemId quantity unitPrice extendedAmount d,
     bind_REAL unitPrice = Some unitPrice ->
     bind_REAL extendedAmount = Some extendedAmount ->
     exists d',
       addInvoiceItem invoiceId itemId quantity unitPrice extendedAmount (opened d)
       = (Ok tt, opened d')
       /\ rows (invoice_items d')
          = (rows (invoice_items d)
             ++ [InvoiceItem.mk (seq (invoice_items d) + 1) invoiceId itemId quantity
                   unitPrice extendedAmount])%list)
  /\ (forall scr scr',
        CreateInvoiceScreen.addOrUpdateItem scr = Accepted scr' ->
        forall x, In x (FormData.items (Screen.formData scr')) ->
                  In x (FormData.items (Screen.formData scr)) \/ priced x)
  /\ (forall now scr d,
        truthy_id (Screen.invoiceId scr) = None ->
        complete_form (Screen.formData scr) ->
        has_invoice_number (Screen.invoiceNumber scr) (invoices d) = false ->
        well_keyed d ->
        (forall x, In x (FormData.items (Screen.formData scr)) -> priced x) ->
        exists d' lines,
          CreateInvoiceScreen.handleSave now scr (opened d)
          = (showSuccess "Invoice created successfully", opened d')
          /\ getInvoiceItems (seq (invoices d) + 1) (opened d') = (Ok lines, opened d')
          /\ List.length lines = List.length (FormData.items (Screen.formData scr))
          /\ (forall r, In r lines ->
                InvoiceItem.extended_amount r
                = PrimFloat.mul (number_of_Z (InvoiceItem.quantity r))
                    (InvoiceItem.unit_price r)))
  /\ (forall now scr d invoiceId,
        truthy_id (Screen.invoiceId scr) = Some invoiceId ->
        complete_form (Screen.formData scr) ->
        (forall x, In x (FormData.items (Screen.formData scr)) -> priced x) ->
        exists d' lines,
          CreateInvoiceScreen.handleSave now scr (opened d)
          = (showSuccess "Invoice updated successfully", opened d')
          /\ getInvoiceItems invoiceId (opened d') = (Ok lines, opened d')
          /\ List.length lines = List.length (FormData.items (Screen.formData scr))
          /\ (forall r, In r lines ->
                InvoiceItem.extended_amount r
                = PrimFloat.mul (number_of_Z (InvoiceItem.quantity r))
                    (InvoiceItem.unit_price r))).
Proof.
  split; [| split; [| split]].
  - intros. eexists. unfold addInvoiceItem. rewrite guarded_run_opened.
    split; reflexivity.
  - exact addOrUpdateItem_priced.
  - intros now scr d Hid Hform Hfresh Hwk Hpriced.
    exists (created_db now scr d).
    exists (line_rows (seq (invoices d) + 1) (seq (invoice_items d))
              (FormData.items (Screen.formData scr))).
    split; [now apply handleSave_create_opened |].
    split; [rewrite getInvoiceItems_opened; now rewrite (created_db_lines now scr d Hwk) |].
    split.
    + rewrite <- (length_map InvoiceItem.extended_amount), line_rows_extended.
      apply length_map.
    + intros r Hr. apply line_rows_In in Hr. destruct Hr as (x & rowid & Hx & ->).
      apply (Hpriced x Hx).
  - intros now scr d invoiceId Hid Hform Hpriced.
    destruct (updated_db_lines scr invoiceId d) as (after & Hlines).
    exists (updated_db scr invoiceId d).
    exists (line_rows invoiceId after (FormData.items (Screen.formData scr))).
    split; [now apply handleSave_update_opened |].
    split; [rewrite getInvoiceItems_opened; now rewrite Hlines |].
    split.
    + rewrite <- (length_map InvoiceItem.extended_amount), line_rows_extended.
      apply length_map.
    + intros r Hr. apply line_rows_In in Hr. destruct Hr as (x & rowid & Hx & ->).
      apply (Hpriced x Hx).
Qed.

(** C3, the claim as written, fails: the store does not recompute. A
    caller that passes 999 for 2 units at 5 gets 999 stored. *)
Lemma store_recomputes_extended_amount_counterexample :
  ~ (forall invoiceId itemId quantity unitPrice extendedAmount d d',
       addInvoiceItem invoiceId itemId quantity unitPrice extendedAmount (opened d)
       = (Ok tt, opened d') ->
       forall r, In r (rows (invoice_items d')) ->
                 InvoiceItem.extended_amount r
                 = PrimFloat.mul (number_of_Z (InvoiceItem.quantity r))
                     (InvoiceItem.unit_price r)).
Proof.
  intros H.
  specialize (H 1 1 2 5%float 999%float example_db _ eq_refl
                (InvoiceItem.mk 1 1 1 2 5%float 999%float) (or_introl eq_refl)).
  apply (f_equal Prim2SF) in H. vm_compute in H. discriminate H.
Qed.

(** ** The statements at work on the example store *)

Lemma well_keyed_example_sold_db : well_keyed example_sold_db.
Proof.
  unfold well_keyed. simpl. split; [lia |].
  split; intros r Hr; repeat destruct Hr as [<- | Hr]; simpl; try lia; contradiction.
Qed.

Lemma complete_second_order : complete_form (Screen.formData second_order_screen).
Proof. split; discriminate. Qed.

Lemma complete_example_edit : complete_form (Screen.formData example_edit_screen).
Proof. split; discriminate. Qed.

Lemma saved_totals_round_trip_witness :
  (exists d' inv lines scr',
      CreateInvoiceScreen.handleSave 210 second_order_screen (opened example_sold_db)
      = (showSuccess "Invoice created successfully", opened d')
      /\ In inv (rows (invoices d'))
      /\ Invoice.invoice_number inv = "INV-000002"
      /\ getInvoiceItems (Invoice.id inv) (opened d') = (Ok lines, opened d')
      /\ Invoice.subtotal inv = stored_subtotal lines
      /\ Invoice.vat_amount inv = PrimFloat.mul (Invoice.subtotal inv) 0x1.3333333333333p-3
      /\ Invoice.total_amount inv
         = PrimFloat.add (Invoice.subtotal inv) (Invoice.vat_amount inv)
      /\ CreateInvoiceScreen.mount_edit (Invoice.id inv) "2025-01-05T00:00:00.000Z"
           (opened d')
         = Some (scr', opened d')
      /\ CreateInvoiceScreen.calculateTotals (Screen.formData scr')
         = mkTotals (Invoice.subtotal inv) (Invoice.vat_amount inv)
             (Invoice.total_amount inv))
  /\ (exists d' lines,
        CreateInvoiceScreen.handleSave 220 example_edit_screen (opened example_sold_db)
        = (showSuccess "Invoice updated successfully", opened d')
        /\ getInvoiceItems 1 (opened d') = (Ok lines, opened d')
        /\ (forall i, In i (rows (invoices d')) -> Invoice.id i = 1 ->
                      Invoice.subtotal i = stored_subtotal lines
                      /\ Invoice.vat_amount i
                         = PrimFloat.mul (Invoice.subtotal i) 0x1.3333333333333p-3
                      /\ Invoice.total_amount i
                         = PrimFloat.add (Invoice.subtotal i) (Invoice.vat_amount i))).
Proof.
  split.
  - destruct (saved_totals_round_trip 210 "2025-01-05T00:00:00.000Z" second_order_screen
                example_sold_db complete_second_order) as [Hcreate _].
    destruct (Hcreate eq_refl eq_refl well_keyed_example_sold_db)
      as (d' & inv & lines & H1 & H2 & H3 & H4 & _ & H6 & H7 & H8 & H9).
    destruct (H9 eq_refl) as (scr' & H10 & _ & H12).
    exists d', inv, lines, scr'.
    repeat match goal with |- _ /\ _ => split end; assumption.
  - destruct (saved_totals_round_trip 220 "2025-01-05T00:00:00.000Z" example_edit_screen
                example_sold_db complete_example_edit) as [_ Hupdate].
    destruct (Hupdate 1 (Invoice.mk 1 "INV-000001" 1 "2025-01-02" 15%float 2.25%float
                           17.25%float 200) eq_refl (or_introl eq_refl) eq_refl)
      as (d' & lines & H1 & H2 & _ & _ & H5 & _).
    exists d', lines. split; [exact H1 | split; [exact H2 | exact H5]].
Defined.

Lemma handleSave_update_keeps_stock_witness :
  items_of (snd (CreateInvoiceScreen.handleSave 220 example_edit_screen
                   (opened example_sold_db)))
  = items_of (opened example_sold_db).
Proof.
  apply (handleSave_update_keeps_stock 220 example_edit_screen 1). reflexivity.
Defined.

Lemma initDatabase_idempotent_witness :
  category_rows (snd (initDatabase 600 (snd (initDatabase 500 edited_service))))
  = category_rows (snd (initDatabase 500 edited_service))
  /\ NoDup (map Category.name (category_rows (snd (initDatabase 500 edited_service)))).
Proof.
  destruct (initDatabase_idempotent edited_service 500 600)
    as (_ & _ & Hsame & _ & _ & Hnodup).
  split; [exact Hsame |].
  apply Hnodup. simpl.
  repeat (constructor; [simpl; intuition discriminate |]). constructor.
Defined.

Lemma invoice_numbers_sequential_witness :
  (exists digits,
      INV 42 = "INV-" ++ digits
      /\ number_of_digits digits = Some 42
      /\ (6 <= String.length digits)%nat
      /\ (String.length digits = 6%nat \/ digits = String_of 42))
  /\ (exists d',
        create_invoices
          [(200, Screen.formData example_order_screen);
           (210, Screen.formData second_order_screen)] (opened example_db)
        = opened d'
        /\ invoice_numbers d' = map (fun n => INV (Z.of_nat n)) (List.seq 1 2)).
Proof.
  destruct invoice_numbers_sequential as (_ & Hdigits & _ & _ & Hrun).
  split.
  - apply Hdigits. lia.
  - apply Hrun.
    + reflexivity.
    + repeat constructor; discriminate.
Defined.

Lemma extended_amount_stored_as_given_witness :
  (exists d',
      addInvoiceItem 1 1 2 5%float 999%float (opened example_db) = (Ok tt, opened d')
      /\ rows (invoice_items d')
         = (rows (invoice_items example_db)
            ++ [InvoiceItem.mk (seq (invoice_items example_db) + 1) 1 1 2 5%float
                  999%float])%list)
  /\ (forall x, In x (FormData.items (Screen.formData example_order_screen)) -> priced x)
  /\ (exists d' lines,
        CreateInvoiceScreen.handleSave 220 example_edit_screen (opened example_sold_db)
        = (showSuccess "Invoice updated successfully", opened d')
        /\ getInvoiceItems 1 (opened d') = (Ok lines, opened d')
        /\ List.length lines
           = List.length (FormData.items (Screen.formData example_edit_screen))
        /\ (forall r, In r lines ->
              InvoiceItem.extended_amount r
              = PrimFloat.mul (number_of_Z (InvoiceItem.quantity r))
                  (InvoiceItem.unit_price r)))
  /\ (exists d' lines,
        CreateInvoiceScreen.handleSave 210 second_order_screen (opened example_sold_db)
        = (showSuccess "Invoice created successfully", opened d')
        /\ getInvoiceItems (seq (invoices example_sold_db) + 1) (opened d')
           = (Ok lines, opened d')
        /\ List.length lines
           = List.length (FormData.items (Screen.formData second_order_screen))
        /\ (forall r, In r lines ->
              InvoiceItem.extended_amount r
              = PrimFloat.mul (number_of_Z (InvoiceItem.quantity r))
                  (InvoiceItem.unit_price r))).
Proof.
  destruct extended_amount_stored_as_given as (Hstore & Hform & Hsave & Hupdate).
  split; [| split; [| split]].
  - apply Hstore; reflexivity.
  - intros x Hx.
    destruct (Hform (fill_item_modal 1 (Some 3) 5%float
                       (fst (CreateInvoiceScreen.mount None "2025-01-02T10:00:00.000Z"
                               (opened example_db))))
                example_order_screen eq_refl x Hx) as [Hold | Hnew].
    + simpl in Hold. contradiction.
    + exact Hnew.
  - apply Hupdate.
    + reflexivity.
    + exact complete_example_edit.
    + intros x Hx. simpl in Hx. destruct Hx as [<- | []]. reflexivity.
  - apply Hsave.
    + reflexivity.
    + exact complete_second_order.
    + reflexivity.
    + exact well_keyed_example_sold_db.
    + intros x Hx. simpl in Hx. destruct Hx as [<- | []]. reflexivity.
Defined.

(** * Further properties of the store *)

(** ** The order of the listings *)

Section OrderBy.
Context {R : Type} (le : R -> R -> bool).
Hypothesis le_total : forall x y, le x y = true \/ le y x = true.

Lemma insert_sorted_Permutation (x : R) (l : list R) :
  Permutation (insert_sorted le x l) (x :: l).
Proof.
  induction l as [| y l IH]; simpl.
  - reflexivity.
  - destruct (le x y); [reflexivity |].
    rewrite IH. apply perm_swap.
Qed.

Lemma order_by_Permutation (l : list R) : Permutation (order_by le l) l.
Proof.
  induction l as [| x l IH]; simpl.
  - reflexivity.
  - rewrite insert_sorted_Permutation. now constructor.
Qed.

Lemma insert_sorted_HdRel (a x : R) (l : list R) :
  le a x = true ->
  HdRel (fun u v => le u v = true) a l ->
  HdRel (fun u v => le u v = true) a (insert_sorted le x l).
Proof.
  intros Hax Hal. destruct l as [| y l]; simpl.
  - now constructor.
  - destruct (le x y); constructor; [assumption |].
    now inversion Hal.
Qed.

Lemma insert_sorted_Sorted (x : R) (l : list R) :
  Sorted (fun u v => le u v = true) l ->
  Sorted (fun u v => le u v = true) (insert_sorted le x l).
Proof.
  induction l as [| y l IH]; intros Hs; simpl.
  - repeat constructor.
  - destruct (le x y) eqn:Hxy.
    + constructor; [assumption | now constructor].
    + inversion Hs as [| ? ? Hl Hhd]; subst.
      constructor; [now apply IH |].
      apply insert_sorted_HdRel; [| assumption].
      destruct (le_total x y); congruence.
Qed.

Lemma order_by_Sorted (l : list R) : Sorted (fun u v => le u v = true) (order_by le l).
Proof.
  induction l as [| x l IH]; simpl.
  - constructor.
  - now apply insert_sorted_Sorted.
Qed.
End OrderBy.

Lemma name_order_total {R : Type} (name : R -> string) (x y : R) :
  String.leb (name x) (name y) = true \/ String.leb (name y) (name x) = true.
Proof. apply String.leb_total. Qed.

Lemma newest_first_total (x y : Invoice.t) :
  (Invoice.created_at y <=? Invoice.created_at x) = true
  \/ (Invoice.created_at x <=? Invoice.created_at y) = true.
Proof.
  destruct (Z.le_ge_cases (Invoice.created_at y) (Invoice.created_at x)) as [H | H];
    [left | right]; apply Z.leb_le; lia.
Qed.

(** X1. The three listings by name return every row of their table, no
    more and no less (a permutation), with each name at most the next
    one in the byte order of the strings. *)
Theorem listings_sorted_by_name (d : Database) :
  (exists listing,
      getCategories (opened d) = (Ok listing, opened d)
      /\ Permutation listing (rows (categories d))
      /\ Sorted (fun a b => String.leb (Category.name a) (Category.name b) = true) listing)
  /\ (exists listing,
        getItems (opened d) = (Ok listing, opened d)
        /\ Permutation listing (rows (items d))
        /\ Sorted (fun a b => String.leb (Item.name a) (Item.name b) = true) listing)
  /\ (exists listing,
        getCustomers (opened d) = (Ok listing, opened d)
        /\ Permutation listing (rows (customers d))
        /\ Sorted (fun a b => String.leb (Customer.name a) (Customer.name b) = true)
             listing).
Proof.
  split; [| split]; eexists;
    (split; [unfold getCategories, getItems, getCustomers; apply query_opened |]);
    (split; [apply order_by_Permutation | apply order_by_Sorted]);
    intros x y; apply String.leb_total.
Qed.

(** X2. [getInvoices] returns every invoice row, newest first: each
    creation time is at least the next one. *)
Theorem getInvoices_newest_first (d : Database) :
  exists listing,
    getInvoices (opened d) = (Ok listing, opened d)
    /\ Permutation listing (rows (invoices d))
    /\ Sorted (fun a b => Invoice.created_at b <= Invoice.created_at a) listing.
Proof.
  eexists. split; [unfold getInvoices; apply query_opened |].
  split; [apply order_by_Permutation |].
  eapply Sorted_ind with (P := Sorted _);
    [constructor | | apply (order_by_Sorted _ newest_first_total)].
  intros a l _ IH Hhd. constructor; [assumption |].
  destruct Hhd as [| b l' Hab]; constructor. now apply Z.leb_le.
Qed.

(** X3. [getItemsByCategory c] returns exactly the items whose
    category_id is [c], each once, sorted by name; items of other
    categories never appear. *)
Theorem getItemsByCategory_exact (d : Database) (categoryId : Z) :
  exists listing,
    getItemsByCategory categoryId (opened d) = (Ok listing, opened d)
    /\ Permutation listing
         (filter (fun i => Item.category_id i =? categoryId) (rows (items d)))
    /\ (forall i, In i listing <-> In i (rows (items d)) /\ Item.category_id i = categoryId)
    /\ Sorted (fun a b => String.leb (Item.name a) (Item.name b) = true) listing.
Proof.
  eexists. split; [unfold getItemsByCategory; apply query_opened |].
  split; [apply order_by_Permutation |]. split.
  - intros i. rewrite order_by_In. unfold select_where.
    rewrite filter_In, Z.eqb_eq. reflexivity.
  - apply order_by_Sorted. intros x y. apply String.leb_total.
Qed.

(** ** Keys and unique columns *)

Lemma snd_bind_ret {A : Type} (m : M A) (s : DatabaseService) :
  snd ((_ <- m ;; ret tt) s) = snd (m s).
Proof.
  unfold bind. now destruct (m s) as [[a | e] s'].
Qed.

Lemma perform_opened (c : Call) (d : Database) :
  snd (perform c (opened d)) = opened (effect c d).
Proof.
  destruct c; cbn [perform effect]; rewrite ?snd_bind_ret;
    try (unfold addCategory, updateCategory, deleteCategory, addItem, updateItem,
           updateItemQuantity, deleteItem, addCustomer, updateCustomer, deleteCustomer,
           addInvoice, addInvoiceItem, updateInvoice, deleteInvoiceItems;
         rewrite guarded_run_opened; reflexivity).
  now rewrite initDatabase_opened.
Qed.

Lemma perform_all_opened (calls : list Call) (d : Database) :
  perform_all calls (opened d)
  = opened (fold_left (fun acc c => effect c acc) calls d).
Proof.
  revert d. induction calls as [| c calls IH]; intros d; simpl.
  - reflexivity.
  - now rewrite perform_opened, IH.
Qed.

Section Keyed.
Context {R : Type} (id : R -> Z).

Lemma keyed_insert (mk : Z -> R) (t : Table R) :
  (forall i, id (mk i) = i) -> keyed id t -> keyed id (snd (insert_row mk t)).
Proof.
  intros Hmk (Hseq & Hids & Hnd). unfold keyed, insert_row. simpl.
  split; [lia |]. split.
  - intros r Hr. apply in_app_or in Hr. destruct Hr as [Hr | [<- | []]].
    + specialize (Hids r Hr). lia.
    + rewrite Hmk. lia.
  - rewrite map_app. simpl. rewrite Hmk.
    apply NoDup_app; [assumption | repeat constructor; intros [] |].
    intros i Hi [<- | []]. apply in_map_iff in Hi. destruct Hi as (r & Hr & Hin).
    specialize (Hids r Hin). lia.
Qed.

Lemma keyed_update (p : R -> bool) (f : R -> R) (t : Table R) :
  (forall r, id (f r) = id r) -> keyed id t -> keyed id (update_where p f t).
Proof.
  intros Hf (Hseq & Hids & Hnd). unfold keyed, update_where. simpl.
  assert (Hmap : map id (map (fun r => if p r then f r else r) (rows t)) = map id (rows t)).
  { rewrite map_map. apply map_ext. intros r. destruct (p r); auto. }
  split; [assumption |]. split.
  - intros r Hr. apply in_map_iff in Hr. destruct Hr as (r0 & <- & Hr0).
    destruct (p r0); [rewrite Hf |]; auto.
  - now rewrite Hmap.
Qed.

Lemma NoDup_map_filter {B : Type} (g : R -> B) (p : R -> bool) (l : list R) :
  NoDup (map g l) -> NoDup (map g (filter p l)).
Proof.
  induction l as [| r l IH]; simpl; intros Hnd; [constructor |].
  inversion Hnd as [| ? ? Hnotin Hnd']; subst.
  destruct (p r); simpl; [constructor |]; auto.
  intros Hin. apply Hnotin. apply in_map_iff in Hin. destruct Hin as (r' & <- & Hr').
  apply filter_In in Hr'. apply in_map. tauto.
Qed.

Lemma keyed_delete (p : R -> bool) (t : Table R) :
  keyed id t -> keyed id (delete_where p t).
Proof.
  intros (Hseq & Hids & Hnd). unfold keyed, delete_where. simpl.
  split; [assumption |]. split.
  - intros r Hr. apply filter_In in Hr. apply Hids. tauto.
  - now apply NoDup_map_filter.
Qed.
End Keyed.

(** Renaming the row with a given key keeps names unique when no other
    row bears the new name. *)
Lemma rename_NoDup (id : Z) (name : string) (f : Category.t -> Category.t)
  (l : list Category.t) :
  (forall c, Category.name (f c) = name) ->
  NoDup (map Category.id l) ->
  NoDup (map Category.name l) ->
  (forall c, In c l -> Category.id c <> id -> Category.name c <> name) ->
  NoDup (map Category.name
           (map (fun c => if Category.id c =? id then f c else c) l)).
Proof.
  intros Hf. induction l as [| c l IH]; simpl; intros Hids Hnames Hfree; [constructor |].
  inversion Hids as [| ? ? Hidc Hids']; subst.
  inversion Hnames as [| ? ? Hnamec Hnames']; subst.
  assert (IH' := IH Hids' Hnames' (fun c' Hc' => Hfree c' (or_intror Hc'))).
  destruct (Category.id c =? id) eqn:Hc.
  - apply Z.eqb_eq in Hc.
    rewrite map_unmatched.
    + rewrite Hf. constructor; [| assumption].
      intros Hin. apply in_map_iff in Hin. destruct Hin as (c' & Hname' & Hc').
      apply (Hfree c' (or_intror Hc')); [| assumption].
      intros Heq. apply Hidc. rewrite Hc, <- Heq. now apply in_map.
    + intros c' Hc'. apply Z.eqb_neq. intros Heq.
      apply Hidc. rewrite Hc, <- Heq. now apply in_map.
  - apply Z.eqb_neq in Hc. constructor; [| assumption].
    intros Hin. apply in_map_iff in Hin. destruct Hin as (c' & Hname' & Hc').
    apply in_map_iff in Hc'. destruct Hc' as (c0 & <- & Hc0).
    destruct (Category.id c0 =? id) eqn:Hc0id.
    + rewrite Hf in Hname'. apply (Hfree c (or_introl eq_refl) Hc). now symmetry.
    + apply Hnamec. rewrite <- Hname'. now apply in_map.
Qed.

Lemma consistent_set_categories t d :
  consistent d -> keyed Category.id t -> NoDup (map Category.name (rows t)) ->
  consistent (set_categories t d).
Proof. unfold consistent. simpl. tauto. Qed.

Lemma consistent_set_items t d :
  consistent d -> keyed Item.id t -> consistent (set_items t d).
Proof. unfold consistent. simpl. tauto. Qed.

Lemma consistent_set_customers t d :
  consistent d -> keyed Customer.id t -> consistent (set_customers t d).
Proof. unfold consistent. simpl. tauto. Qed.

Lemma consistent_set_invoices t d :
  consistent d -> keyed Invoice.id t -> NoDup (map Invoice.invoice_number (rows t)) ->
  consistent (set_invoices t d).
Proof. unfold consistent. simpl. tauto. Qed.

Lemma consistent_set_invoice_items t d :
  consistent d -> keyed InvoiceItem.id t -> consistent (set_invoice_items t d).
Proof. unfold consistent. simpl. tauto. Qed.

Lemma keyed_skip {R : Type} (id : R -> Z) (t : Table R) :
  keyed id t -> keyed id (mkTable (rows t) (seq t + 1)).
Proof.
  intros (Hseq & Hids & Hnd). unfold keyed. simpl.
  split; [lia |]. split; [| assumption].
  intros r Hr. specialize (Hids r Hr). lia.
Qed.

Lemma insert_or_ignore_consistent now n description d :
  consistent d -> consistent (snd (insert_or_ignore_category now n description d)).
Proof.
  intros Hc.
  pose proof (insert_or_ignore_NoDup now n description d) as Hnames.
  unfold insert_or_ignore_category in *.
  destruct (has_category_name n (categories d)).
  - cbn [snd] in *.
    apply consistent_set_categories; [assumption | | apply Hc].
    apply keyed_skip, Hc.
  - cbn [snd] in *. destruct (insert_row _ (categories d)) as [rowid t] eqn:Hins.
    cbn [snd set_categories categories] in *.
    assert (Ht : t = snd (insert_row (fun i => Category.mk i n (Some description) now)
                            (categories d))) by now rewrite Hins.
    apply consistent_set_categories; [assumption | | apply Hnames; apply Hc].
    rewrite Ht. apply keyed_insert; [reflexivity | apply Hc].
Qed.

Lemma insert_category_consistent now n description d :
  consistent d -> consistent (snd (insert_category now n description d)).
Proof.
  intros Hc. unfold insert_category.
  destruct (has_category_name n (categories d)) eqn:Hn; [exact Hc |].
  cbn [insert_row snd].
  apply consistent_set_categories; [assumption | |].
  - apply (keyed_insert Category.id (fun i => Category.mk i n (Some description) now));
      [reflexivity | apply Hc].
  - cbn [rows]. rewrite map_app. simpl.
    apply NoDup_app; [apply Hc | repeat constructor; intros [] |].
    intros m Hm [<- | []]. apply has_category_name_In in Hm. congruence.
Qed.

Lemma has_invoice_number_In n (t : Table Invoice.t) :
  has_invoice_number n t = true <-> In n (map Invoice.invoice_number (rows t)).
Proof.
  unfold has_invoice_number. rewrite existsb_exists, in_map_iff.
  split; intros (c & H1 & H2).
  - exists c. apply String.eqb_eq in H2. auto.
  - exists c. subst n. split; [assumption | apply String.eqb_refl].
Qed.

Lemma insert_invoice_consistent now number customerId invoiceDate sub vat tot d :
  consistent d ->
  consistent (snd (insert_invoice now number customerId invoiceDate sub vat tot d)).
Proof.
  intros Hc. unfold insert_invoice.
  destruct (has_invoice_number number (invoices d)) eqn:Hn; [exact Hc |].
  cbn [insert_row snd].
  apply consistent_set_invoices; [assumption | |].
  - apply (keyed_insert Invoice.id
             (fun i => Invoice.mk i number customerId invoiceDate sub vat tot now));
      [reflexivity | apply Hc].
  - cbn [rows]. rewrite map_app. simpl.
    apply NoDup_app; [apply Hc | repeat constructor; intros [] |].
    intros m Hm [<- | []]. apply has_invoice_number_In in Hm. congruence.
Qed.

Lemma update_category_consistent id name description d :
  consistent d -> consistent (snd (update_category id name description d)).
Proof.
  intros Hc. unfold update_category.
  destruct (existsb (fun c => Category.id c =? id) (rows (categories d))) eqn:Hid.
  - destruct (existsb (fun c => negb (Category.id c =? id)
                                && String.eqb (Category.name c) name)
                (rows (categories d))) eqn:Hother; [exact Hc |].
    cbn [andb snd].
    apply consistent_set_categories; [assumption | |].
    + apply keyed_update; [reflexivity | apply Hc].
    + apply (rename_NoDup id name); try apply Hc; [reflexivity |].
      intros c Hin Hne Hname.
      rewrite <- not_true_iff_false in Hother. apply Hother.
      apply existsb_exists. exists c. split; [assumption |].
      apply Z.eqb_neq in Hne. rewrite Hne. simpl. now apply String.eqb_eq.
  - cbn [andb snd]. rewrite update_where_unmatched, set_categories_same; [exact Hc |].
    intros c Hin. destruct (Category.id c =? id) eqn:E; [| reflexivity].
    rewrite <- not_true_iff_false in Hid. exfalso. apply Hid.
    apply existsb_exists. eauto.
Qed.

Lemma effect_consistent (c : Call) (d : Database) :
  consistent d -> consistent (effect c d).
Proof.
  intros Hc. pose proof Hc as (Hcat & Hitem & Hcust & Hinv & Hline & Hnames & Hnums).
  destruct c; cbn [effect].
  - unfold seed_db. cbv zeta. now repeat apply insert_or_ignore_consistent.
  - now apply insert_category_consistent.
  - now apply update_category_consistent.
  - apply consistent_set_categories; [assumption | now apply keyed_delete |].
    now apply NoDup_map_filter.
  - unfold insert_item. destruct (bind_REAL price) as [stored |]; [| exact Hc].
    apply consistent_set_items; [assumption |].
    now apply (keyed_insert Item.id
                 (fun i => Item.mk i name categoryId stored quantity
                             (Some (or_empty description)) now)).
  - unfold update_item. destruct (bind_REAL price) as [stored |].
    + apply consistent_set_items; [assumption |]. now apply keyed_update.
    + now destruct (existsb _ _).
  - apply consistent_set_items; [assumption |]. now apply keyed_update.
  - apply consistent_set_items; [assumption | now apply keyed_delete].
  - apply consistent_set_customers; [assumption |].
    now apply (keyed_insert Customer.id
                 (fun i => Customer.mk i name phone (Some (or_empty email)) now)).
  - apply consistent_set_customers; [assumption |]. now apply keyed_update.
  - apply consistent_set_customers; [assumption | now apply keyed_delete].
  - now apply insert_invoice_consistent.
  - apply consistent_set_invoice_items; [assumption |].
    now apply (keyed_insert InvoiceItem.id
                 (fun i => InvoiceItem.mk i invoiceId itemId quantity unitPrice
                             extendedAmount)).
  - apply consistent_set_invoices; [assumption | now apply keyed_update |].
    cbn [update_where rows]. rewrite map_map.
    replace (map _ (rows (invoices d)))
      with (map Invoice.invoice_number (rows (invoices d))); [assumption |].
    apply map_ext. intros i. now destruct (Invoice.id i =? id).
  - apply consistent_set_invoice_items; [assumption | now apply keyed_delete].
Qed.

Lemma consistent_empty : consistent empty_database.
Proof.
  unfold consistent, keyed. simpl.
  repeat split; try lia; try constructor; intros r [].
Qed.

(** X4. Whatever calls are made, in whatever order and whether they
    succeed or throw, the store keeps the promises of its schema: in
    every table the rowids are positive, unique and bounded by the
    table's counter, category names are unique and invoice numbers are
    unique. This holds from a first [initDatabase] on a file without
    tables, and from any store that already satisfies it. *)
Theorem store_stays_consistent (calls : list Call) :
  (forall now,
     exists d,
       perform_all calls (snd (initDatabase now (mkService false None))) = opened d
       /\ consistent d)
  /\ (forall d,
        consistent d ->
        exists d', perform_all calls (opened d) = opened d' /\ consistent d').
Proof.
  assert (Hgen : forall d, consistent d ->
                   exists d', perform_all calls (opened d) = opened d' /\ consistent d').
  { intros d Hc. rewrite perform_all_opened. eexists. split; [reflexivity |].
    revert d Hc. induction calls as [| c calls IH]; intros d Hc; simpl.
    - assumption.
    - apply IH. now apply effect_consistent. }
  split; [| exact Hgen].
  intros now. rewrite initDatabase_opened. cbn [snd inventory_db].
  apply Hgen. apply (effect_consistent (InitDatabase now)). apply consistent_empty.
Qed.

Lemma consistent_example_sold_db : consistent example_sold_db.
Proof.
  unfold consistent, keyed. simpl.
  repeat match goal with |- _ /\ _ => split end; try lia;
    try (intros r Hr; repeat destruct Hr as [<- | Hr]; simpl; try lia; contradiction);
    repeat (constructor; [simpl; intuition congruence |]); constructor.
Qed.

Lemma store_stays_consistent_witness :
  exists d',
    perform_all
      [DeleteCategory 2;
       AddCategory 300 "Books" None;
       UpdateCategory 1 "Books" (Some "clash");
       AddItem 301 "Sprocket" 2 1.5%float 4 None;
       DeleteItem 1;
       AddInvoice 302 "INV-000001" 1 "2025-02-01" 2%float 0.25%float 2.25%float;
       InitDatabase 303]
      (opened example_sold_db)
    = opened d'
    /\ consistent d'.
Proof.
  apply store_stays_consistent. exact consistent_example_sold_db.
Defined.

(** ** Rowids are handed out once *)

Lemma insert_or_ignore_seqs now n description d :
  let d' := snd (insert_or_ignore_category now n description d) in
  seq (categories d) <= seq (categories d')
  /\ items d' = items d /\ customers d' = customers d
  /\ invoices d' = invoices d /\ invoice_items d' = invoice_items d.
Proof.
  unfold insert_or_ignore_category.
  destruct (has_category_name n (categories d)); simpl; repeat split; lia.
Qed.

Lemma seed_db_seqs now d :
  seq (categories d) <= seq (categories (seed_db now d))
  /\ items (seed_db now d) = items d /\ customers (seed_db now d) = customers d
  /\ invoices (seed_db now d) = invoices d
  /\ invoice_items (seed_db now d) = invoice_items d.
Proof.
  unfold seed_db. cbv zeta.
  set (d1 := snd (insert_or_ignore_category now "Electronics" _ d)).
  set (d2 := snd (insert_or_ignore_category now "Clothing" _ d1)).
  set (d3 := snd (insert_or_ignore_category now "Books" _ d2)).
  pose proof (insert_or_ignore_seqs now "Electronics" "Electronic devices and accessories" d)
    as H1.
  pose proof (insert_or_ignore_seqs now "Clothing" "Apparel and fashion items" d1) as H2.
  pose proof (insert_or_ignore_seqs now "Books" "Books and educational materials" d2) as H3.
  pose proof (insert_or_ignore_seqs now "Home & Garden"
                "Home improvement and garden supplies" d3) as H4.
  cbv zeta in H1, H2, H3, H4. fold d1 in H1. fold d2 in H2. fold d3 in H3.
  destruct H1 as (? & ? & ? & ? & ?), H2 as (? & ? & ? & ? & ?),
    H3 as (? & ? & ? & ? & ?), H4 as (? & ? & ? & ? & ?).
  repeat split; try lia; congruence.
Qed.

Lemma effect_counters (c : Call) (d : Database) :
  seq (categories d) <= seq (categories (effect c d))
  /\ seq (items d) <= seq (items (effect c d))
  /\ seq (customers d) <= seq (customers (effect c d))
  /\ seq (invoices d) <= seq (invoices (effect c d)).
Proof.
  destruct c; cbn [effect];
    try (simpl; repeat split; lia).
  - pose proof (seed_db_seqs now d) as (? & -> & -> & -> & _). repeat split; lia.
  - unfold insert_category. destruct (has_category_name _ _); simpl; repeat split; lia.
  - unfold update_category. destruct (_ && _); simpl; repeat split; lia.
  - unfold insert_item. destruct (bind_REAL price); simpl; repeat split; lia.
  - unfold update_item. destruct (bind_REAL price); [| destruct (existsb _ _)];
      simpl; repeat split; lia.
  - unfold insert_invoice. destruct (has_invoice_number _ _); simpl; repeat split; lia.
Qed.

Lemma perform_all_counters (calls : list Call) (d : Database) :
  let d' := fold_left (fun acc c => effect c acc) calls d in
  seq (categories d) <= seq (categories d')
  /\ seq (items d) <= seq (items d')
  /\ seq (customers d) <= seq (customers d')
  /\ seq (invoices d) <= seq (invoices d').
Proof.
  cbv zeta. revert d. induction calls as [| c calls IH]; intros d; simpl.
  - repeat split; lia.
  - pose proof (effect_counters c d). pose proof (IH (effect c d)). intuition lia.
Qed.

(** X5. A rowid is handed out once. If an add returns [id1] and, after
    any sequence of further calls (deletes included), a later add on the
    same table returns [id2], then [id1 < id2]: the id of a deleted row
    is never given to a new row. For items, customers, categories and
    invoices. *)
Theorem ids_never_reused (calls : list Call) (d : Database) :
  (forall now1 n1 c1 p1 q1 ds1 now2 n2 c2 p2 q2 ds2 id1 s1 id2 s2,
     addItem now1 n1 c1 p1 q1 ds1 (opened d) = (Ok id1, s1) ->
     addItem now2 n2 c2 p2 q2 ds2 (perform_all calls s1) = (Ok id2, s2) ->
     id1 < id2)
  /\ (forall now1 n1 ph1 e1 now2 n2 ph2 e2 id1 s1 id2 s2,
        addCustomer now1 n1 ph1 e1 (opened d) = (Ok id1, s1) ->
        addCustomer now2 n2 ph2 e2 (perform_all calls s1) = (Ok id2, s2) ->
        id1 < id2)
  /\ (forall now1 n1 ds1 now2 n2 ds2 id1 s1 id2 s2,
        addCategory now1 n1 ds1 (opened d) = (Ok id1, s1) ->
        addCategory now2 n2 ds2 (perform_all calls s1) = (Ok id2, s2) ->
        id1 < id2)
  /\ (forall now1 n1 c1 dt1 a1 b1 t1 now2 n2 c2 dt2 a2 b2 t2 id1 s1 id2 s2,
        addInvoice now1 n1 c1 dt1 a1 b1 t1 (opened d) = (Ok id1, s1) ->
        addInvoice now2 n2 c2 dt2 a2 b2 t2 (perform_all calls s1) = (Ok id2, s2) ->
        id1 < id2).
Proof.
  split; [| split; [| split]]; intros.
  - unfold addItem in *. rewrite guarded_run_opened in H. unfold insert_item in H.
    destruct (bind_REAL p1) as [stored1 |]; [| discriminate H]. simpl in H.
    injection H as <- <-. rewrite perform_all_opened, guarded_run_opened in H0.
    unfold insert_item in H0.
    destruct (bind_REAL p2) as [stored2 |]; [| discriminate H0].
    simpl in H0. injection H0 as <- _.
    match goal with
    | |- _ < seq (items (fold_left _ _ ?x)) + 1 =>
        pose proof (perform_all_counters calls x) as Hm
    end.
    cbv zeta in Hm. simpl in Hm. lia.
  - unfold addCustomer in *. rewrite guarded_run_opened in H. simpl in H.
    injection H as <- <-. rewrite perform_all_opened, guarded_run_opened in H0.
    simpl in H0. injection H0 as <- _.
    match goal with
    | |- _ < seq (customers (fold_left _ _ ?x)) + 1 =>
        pose proof (perform_all_counters calls x) as Hm
    end.
    cbv zeta in Hm. simpl in Hm. lia.
  - unfold addCategory in *. rewrite guarded_run_opened in H.
    unfold insert_category in H.
    destruct (has_category_name n1 (categories d)); [discriminate |].
    simpl in H. injection H as <- <-.
    rewrite perform_all_opened, guarded_run_opened in H0.
    unfold insert_category in H0.
    match type of H0 with
    | context [fold_left _ _ ?x] => pose proof (perform_all_counters calls x) as Hm
    end.
    destruct (has_category_name n2 _); [discriminate |].
    simpl in H0. injection H0 as <- _.
    cbv zeta in Hm. simpl in Hm. lia.
  - unfold addInvoice in *. rewrite guarded_run_opened in H.
    unfold insert_invoice in H.
    destruct (has_invoice_number n1 (invoices d)); [discriminate |].
    simpl in H. injection H as <- <-.
    rewrite perform_all_opened, guarded_run_opened in H0.
    unfold insert_invoice in H0.
    match type of H0 with
    | context [fold_left _ _ ?x] => pose proof (perform_all_counters calls x) as Hm
    end.
    destruct (has_invoice_number n2 _); [discriminate |].
    simpl in H0. injection H0 as <- _.
    cbv zeta in Hm. simpl in Hm. lia.
Qed.

Lemma ids_never_reused_witness :
  fst (addItem 300 "Sprocket" 1 1%float 1 None (opened example_db)) = Ok 3
  /\ fst (addItem 400 "Cog" 1 1%float 1 None
            (perform_all [DeleteItem 3; DeleteItem 1]
               (snd (addItem 300 "Sprocket" 1 1%float 1 None (opened example_db)))))
     = Ok 4
  /\ 3 < 4.
Proof.
  split; [reflexivity | split; [reflexivity |]].
  destruct (ids_never_reused [DeleteItem 3; DeleteItem 1] example_db) as (Hitems & _).
  apply (Hitems 300 "Sprocket" 1 1%float 1 None 400 "Cog" 1 1%float 1 None
           3 (snd (addItem 300 "Sprocket" 1 1%float 1 None (opened example_db)))
           4 (snd (addItem 400 "Cog" 1 1%float 1 None
                     (perform_all [DeleteItem 3; DeleteItem 1]
                        (snd (addItem 300 "Sprocket" 1 1%float 1 None
                                (opened example_db)))))));
    reflexivity.
Defined.

(** ** Unique columns: what is refused, and what is not *)



(** ** Adding and deleting *)

(** X7. On a store whose keys are in order, deleting the row that an add
    has just returned gives back the rows that were there before, in the
    same order; only the counter of the table has moved on. For items
    (added at a price that is a number: with NaN the add throws),
    customers and (under a free name) categories. *)
Theorem delete_undoes_add (d : Database) :
  (keyed Item.id (items d) ->
   forall now name categoryId price quantity description,
     PrimFloat.is_nan price = false ->
     exists id d1 d2,
       addItem now name categoryId price quantity description (opened d)
       = (Ok id, opened d1)
       /\ deleteItem id (opened d1) = (Ok tt, opened d2)
       /\ d2 = set_items (mkTable (rows (items d)) (seq (items d) + 1)) d)
  /\ (keyed Customer.id (customers d) ->
      forall now name phone email,
        exists id d1 d2,
          addCustomer now name phone email (opened d) = (Ok id, opened d1)
          /\ deleteCustomer id (opened d1) = (Ok tt, opened d2)
          /\ d2 = set_customers (mkTable (rows (customers d)) (seq (customers d) + 1)) d)
  /\ (keyed Category.id (categories d) ->
      forall now name description,
        ~ In name (map Category.name (rows (categories d))) ->
        exists id d1 d2,
          addCategory now name description (opened d) = (Ok id, opened d1)
          /\ deleteCategory id (opened d1) = (Ok tt, opened d2)
          /\ d2 = set_categories
                    (mkTable (rows (categories d)) (seq (categories d) + 1)) d).
Proof.
  split; [| split].
  - intros (_ & Hids & _) now name categoryId price quantity description Hprice.
    unfold addItem, deleteItem. rewrite guarded_run_opened.
    unfold insert_item, bind_REAL. rewrite Hprice.
    destruct (PrimFloat.eqb price 0); cbn [fst snd insert_row];
      (eexists _, _, _; split; [reflexivity |]);
      (rewrite guarded_run_opened; cbn [delete_item fst snd]; split; [reflexivity |]);
      unfold set_items, delete_where;
      cbn [items rows seq categories customers invoices invoice_items];
      rewrite filter_app; cbn [filter Item.id]; rewrite Z.eqb_refl; cbn [negb];
      (rewrite app_nil_r, filter_unmatched; [reflexivity |]);
      intros r Hr; apply Z.eqb_neq; specialize (Hids r Hr); lia.
  - intros (_ & Hids & _) now name phone email.
    unfold addCustomer, deleteCustomer. rewrite guarded_run_opened.
    cbn [insert_customer fst snd insert_row].
    eexists _, _, _. split; [reflexivity |].
    rewrite guarded_run_opened. cbn [delete_customer fst snd]. split; [reflexivity |].
    unfold set_customers, delete_where. cbn [items rows seq categories customers invoices
                                              invoice_items].
    rewrite filter_app. cbn [filter Customer.id]. rewrite Z.eqb_refl. cbn [negb].
    rewrite app_nil_r, filter_unmatched; [reflexivity |].
    intros r Hr. apply Z.eqb_neq. specialize (Hids r Hr). lia.
  - intros (_ & Hids & _) now name description Hfree.
    assert (Hhas : has_category_name name (categories d) = false).
    { apply not_true_iff_false. intros H. apply Hfree. now apply has_category_name_In. }
    unfold addCategory, deleteCategory. rewrite guarded_run_opened.
    unfold insert_category. rewrite Hhas. cbn [fst snd insert_row].
    eexists _, _, _. split; [reflexivity |].
    rewrite guarded_run_opened. cbn [delete_category fst snd]. split; [reflexivity |].
    unfold set_categories, delete_where. cbn [items rows seq categories customers invoices
                                               invoice_items].
    rewrite filter_app. cbn [filter Category.id]. rewrite Z.eqb_refl. cbn [negb].
    rewrite app_nil_r, filter_unmatched; [reflexivity |].
    intros r Hr. apply Z.eqb_neq. specialize (Hids r Hr). lia.
Qed.

Lemma delete_undoes_add_witness :
  exists id d1 d2,
    addItem 300 "Sprocket" 1 1%float 1 None (opened example_sold_db) = (Ok id, opened d1)
    /\ deleteItem id (opened d1) = (Ok tt, opened d2)
    /\ d2 = set_items (mkTable (rows (items example_sold_db))
                         (seq (items example_sold_db) + 1)) example_sold_db.
Proof.
  destruct (delete_undoes_add example_sold_db) as (Hitems & _).
  apply Hitems; [apply consistent_example_sold_db | reflexivity].
Defined.

(** * Further properties of the invoice form *)

(** ** When a save fails *)

Lemma updated_db_frame scr invoiceId d :
  categories (updated_db scr invoiceId d) = categories d
  /\ items (updated_db scr invoiceId d) = items d
  /\ customers (updated_db scr invoiceId d) = customers d.
Proof.
  unfold updated_db. cbv zeta.
  set (d2 := snd (delete_invoice_items invoiceId _)).
  assert (H : forall lines acc,
             categories (fold_left (fun acc x => add_line_db invoiceId x acc) lines acc)
             = categories acc
             /\ items (fold_left (fun acc x => add_line_db invoiceId x acc) lines acc)
                = items acc
             /\ customers (fold_left (fun acc x => add_line_db invoiceId x acc) lines acc)
                = customers acc).
  { induction lines as [| x lines IH]; intros acc; simpl; [auto |].
    destruct (IH (add_line_db invoiceId x acc)) as (-> & -> & ->). auto. }
  destruct (H (FormData.items (Screen.formData scr)) d2) as (-> & -> & ->). auto.
Qed.

(** X8. [handleSave] on an initialized store ends in exactly one of five
    ways. Without a customer, or with a customer but no line, it shows
    the validation message and writes nothing. With a complete form, an
    update always goes through; a new invoice goes through when its
    number is free, and otherwise fails with 'Failed to save invoice'
    without writing anything: no invoice row, no line, no stock
    change. *)
Theorem handleSave_outcomes now scr d :
  (FormData.customer_id (Screen.formData scr) = 0 ->
   CreateInvoiceScreen.handleSave now scr (opened d)
   = (showError "Please select a customer", opened d))
  /\ (FormData.customer_id (Screen.formData scr) <> 0 ->
      FormData.items (Screen.formData scr) = [] ->
      CreateInvoiceScreen.handleSave now scr (opened d)
      = (showError "Please add at least one item", opened d))
  /\ (complete_form (Screen.formData scr) ->
      truthy_id (Screen.invoiceId scr) = None ->
      In (Screen.invoiceNumber scr) (map Invoice.invoice_number (rows (invoices d))) ->
      CreateInvoiceScreen.handleSave now scr (opened d)
      = (showError "Failed to save invoice", opened d))
  /\ (complete_form (Screen.formData scr) ->
      truthy_id (Screen.invoiceId scr) = None ->
      ~ In (Screen.invoiceNumber scr) (map Invoice.invoice_number (rows (invoices d))) ->
      exists d',
        CreateInvoiceScreen.handleSave now scr (opened d)
        = (showSuccess "Invoice created successfully", opened d'))
  /\ (complete_form (Screen.formData scr) ->
      forall invoiceId,
        truthy_id (Screen.invoiceId scr) = Some invoiceId ->
        exists d',
          CreateInvoiceScreen.handleSave now scr (opened d)
          = (showSuccess "Invoice updated successfully", opened d')).
Proof.
  split; [| split; [| split; [| split]]].
  - intros Hcust. unfold CreateInvoiceScreen.handleSave. now rewrite Hcust.
  - intros Hcust Hlines. unfold CreateInvoiceScreen.handleSave.
    apply Z.eqb_neq in Hcust. now rewrite Hcust, Hlines.
  - intros Hform Hid Htaken. apply has_invoice_number_In in Htaken.
    destruct Hform as [Hcust Hlines]. unfold CreateInvoiceScreen.handleSave.
    apply Z.eqb_neq in Hcust. rewrite Hcust.
    destruct (FormData.items (Screen.formData scr)) as [| l0 ls] eqn:Hl; [congruence |].
    cbn [List.length Nat.eqb].
    now rewrite (saveInvoice_duplicate_number now scr d Hid Htaken).
  - intros Hform Hid Hfree. eexists. apply handleSave_create_opened; try assumption.
    apply not_true_iff_false. intros H. apply Hfree. now apply has_invoice_number_In.
  - intros Hform invoiceId Hid. exists (updated_db scr invoiceId d).
    now apply handleSave_update_opened.
Qed.

Lemma handleSave_outcomes_witness :
  CreateInvoiceScreen.handleSave 300 (Screen.initial None "2025-01-02T10:00:00.000Z")
    (opened example_sold_db)
  = (showError "Please select a customer", opened example_sold_db)
  /\ CreateInvoiceScreen.handleSave 300 example_order_screen (opened example_sold_db)
     = (showError "Failed to save invoice", opened example_sold_db)
  /\ (exists d',
        CreateInvoiceScreen.handleSave 300 second_order_screen (opened example_sold_db)
        = (showSuccess "Invoice created successfully", opened d'))
  /\ (exists d',
        CreateInvoiceScreen.handleSave 300 example_edit_screen (opened example_sold_db)
        = (showSuccess "Invoice updated successfully", opened d')).
Proof.
  split; [| split; [| split]].
  - apply (handleSave_outcomes 300 (Screen.initial None "2025-01-02T10:00:00.000Z")
             example_sold_db). reflexivity.
  - apply (handleSave_outcomes 300 example_order_screen example_sold_db).
    + split; discriminate.
    + reflexivity.
    + simpl. auto.
  - apply (handleSave_outcomes 300 second_order_screen example_sold_db).
    + exact complete_second_order.
    + reflexivity.
    + simpl. intros [H | []]. discriminate H.
  - apply (handleSave_outcomes 300 example_edit_screen example_sold_db) with (invoiceId := 1).
    + exact complete_example_edit.
    + reflexivity.
Defined.

(** ** The stock after a save *)

(** X9. Whatever the form holds and however the save ends, [handleSave]
    never leaves a negative quantity in a store that had none. *)
Theorem handleSave_keeps_stock_nonnegative now scr d :
  (forall i, In i (rows (items d)) -> 0 <= Item.quantity i) ->
  exists d',
    snd (CreateInvoiceScreen.handleSave now scr (opened d)) = opened d'
    /\ (forall i, In i (rows (items d')) -> 0 <= Item.quantity i).
Proof.
  intros Hpos.
  destruct (Z.eq_dec (FormData.customer_id (Screen.formData scr)) 0) as [Hcust | Hcust].
  { exists d. split; [| assumption].
    unfold CreateInvoiceScreen.handleSave. now rewrite Hcust. }
  destruct (FormData.items (Screen.formData scr)) as [| l0 ls] eqn:Hlines.
  { exists d. split; [| assumption].
    unfold CreateInvoiceScreen.handleSave. apply Z.eqb_neq in Hcust.
    now rewrite Hcust, Hlines. }
  assert (Hform : complete_form (Screen.formData scr))
    by (split; [assumption | now rewrite Hlines]).
  destruct (truthy_id (Screen.invoiceId scr)) as [invoiceId |] eqn:Hid.
  - exists (updated_db scr invoiceId d).
    rewrite (handleSave_update_opened now scr invoiceId d Hid Hform).
    split; [reflexivity |].
    destruct (updated_db_frame scr invoiceId d) as (_ & -> & _). assumption.
  - destruct (has_invoice_number (Screen.invoiceNumber scr) (invoices d)) eqn:Hnum.
    + exists d. split; [| assumption].
      unfold CreateInvoiceScreen.handleSave. apply Z.eqb_neq in Hcust.
      rewrite Hcust, Hlines. cbn [List.length Nat.eqb].
      now rewrite (saveInvoice_duplicate_number now scr d Hid Hnum).
    + exists (created_db now scr d).
      rewrite (handleSave_create_opened now scr d Hid Hform Hnum).
      split; [reflexivity |]. now apply created_db_never_negative.
Qed.

Lemma handleSave_keeps_stock_nonnegative_witness :
  exists d',
    snd (CreateInvoiceScreen.handleSave 300 second_order_screen (opened example_sold_db))
    = opened d'
    /\ (forall i, In i (rows (items d')) -> 0 <= Item.quantity i).
Proof.
  apply handleSave_keeps_stock_nonnegative.
  simpl. intros i Hi. repeat destruct Hi as [<- | Hi]; simpl; try lia; try contradiction.
Defined.





(** ** What a save leaves alone *)

Lemma sell_lines_frame snapshot invoiceId lines d :
  categories (fold_left (fun acc x => sell_line_db snapshot invoiceId x acc) lines d)
  = categories d
  /\ customers (fold_left (fun acc x => sell_line_db snapshot invoiceId x acc) lines d)
     = customers d.
Proof.
  revert d. induction lines as [| x lines IH]; intros d; simpl; [auto |].
  destruct (IH (sell_line_db snapshot invoiceId x d)) as (-> & ->).
  unfold sell_line_db. cbv zeta.
  now destruct (find (fun i => Item.id i =? InvoiceItemData.item_id x) snapshot).
Qed.

Lemma getDashboardStats_opened d :
  getDashboardStats (opened d)
  = (Ok (mkStats (count_rows (items d)) (count_rows (invoices d))
           (count_rows (customers d))), opened d).
Proof.
  unfold getDashboardStats. rewrite require_db_open by reflexivity.
  rewrite (bind_Ok _ _ _ _ _ (run_query_opened _ _)).
  rewrite (bind_Ok _ _ _ _ _ (run_query_opened _ _)).
  rewrite (bind_Ok _ _ _ _ _ (run_query_opened _ _)).
  unfold ret. do 2 f_equal.
  assert (H : forall z, (if z =? 0 then 0 else z) = z).
  { intros z. destruct (z =? 0) eqn:E; [apply Z.eqb_eq in E; congruence | reflexivity]. }
  now rewrite !H.
Qed.

(** X11. A successful new-invoice save adds exactly one invoice row, with
    the number shown on the screen, and one line row per line of the
    form, after the rows that were there; it leaves the categories and
    customers tables untouched and changes nothing but quantities in the
    items table. The dashboard then counts one invoice more and the same
    items and customers. *)
Theorem handleSave_create_frame now scr d :
  complete_form (Screen.formData scr) ->
  truthy_id (Screen.invoiceId scr) = None ->
  ~ In (Screen.invoiceNumber scr) (map Invoice.invoice_number (rows (invoices d))) ->
  exists d' inv lines,
    CreateInvoiceScreen.handleSave now scr (opened d)
    = (showSuccess "Invoice created successfully", opened d')
    /\ categories d' = categories d
    /\ customers d' = customers d
    /\ rows (invoices d') = (rows (invoices d) ++ [inv])%list
    /\ Invoice.invoice_number inv = Screen.invoiceNumber scr
    /\ Invoice.customer_id inv = FormData.customer_id (Screen.formData scr)
    /\ rows (invoice_items d') = (rows (invoice_items d) ++ lines)%list
    /\ List.length lines = List.length (FormData.items (Screen.formData scr))
    /\ map (with_quantity 0) (rows (items d')) = map (with_quantity 0) (rows (items d))
    /\ getDashboardStats (opened d')
       = (Ok (mkStats (count_rows (items d)) (count_rows (invoices d) + 1)
                (count_rows (customers d))), opened d').
Proof.
  intros Hform Hid Hfree.
  assert (Hnum : has_invoice_number (Screen.invoiceNumber scr) (invoices d) = false).
  { apply not_true_iff_false. intros H. apply Hfree. now apply has_invoice_number_In. }
  pose proof (created_db_invoices now scr d Hnum) as Hinv. cbn [insert_row snd] in Hinv.
  pose proof (created_db_items now scr d) as Hitems.
  assert (Hframe : categories (created_db now scr d) = categories d
                   /\ customers (created_db now scr d) = customers d).
  { unfold created_db. cbv zeta.
    destruct (sell_lines_frame (Screen.items scr) (seq (invoices d) + 1)
                (FormData.items (Screen.formData scr))
                (snd (insert_invoice now (Screen.invoiceNumber scr)
                        (FormData.customer_id (Screen.formData scr))
                        (split_head "T" (FormData.invoice_date (Screen.formData scr)))
                        (subtotal (CreateInvoiceScreen.calculateTotals (Screen.formData scr)))
                        (vatAmount (CreateInvoiceScreen.calculateTotals (Screen.formData scr)))
                        (total (CreateInvoiceScreen.calculateTotals (Screen.formData scr)))
                        d))) as (-> & ->).
    unfold insert_invoice. rewrite Hnum. auto. }
  destruct Hframe as (Hcat & Hcust).
  assert (Hlines : rows (invoice_items (created_db now scr d))
                   = (rows (invoice_items d)
                      ++ line_rows (seq (invoices d) + 1) (seq (invoice_items d))
                           (FormData.items (Screen.formData scr)))%list).
  { unfold created_db. cbv zeta.
    rewrite (fold_lines_invoice_items _ (seq (invoices d) + 1))
      by (intros; apply sell_line_db_invoice_items).
    unfold insert_invoice. now rewrite Hnum. }
  eexists (created_db now scr d), _, _.
  split; [now apply handleSave_create_opened |].
  split; [exact Hcat |]. split; [exact Hcust |].
  split; [rewrite Hinv; reflexivity |].
  split; [reflexivity |]. split; [reflexivity |].
  split; [exact Hlines |].
  split.
  { rewrite <- (length_map InvoiceItem.extended_amount), line_rows_extended.
    apply length_map. }
  split.
  { rewrite Hitems. cbn [rows]. rewrite map_map. apply map_ext. intros i.
    apply with_quantity_stock_after. }
  rewrite getDashboardStats_opened. do 2 f_equal. unfold count_rows.
  rewrite Hitems, Hinv, Hcust. cbn [rows]. rewrite length_map, length_app. simpl.
  f_equal. lia.
Qed.

Lemma handleSave_create_frame_witness :
  exists d' inv lines,
    CreateInvoiceScreen.handleSave 300 second_order_screen (opened example_sold_db)
    = (showSuccess "Invoice created successfully", opened d')
    /\ rows (invoices d') = (rows (invoices example_sold_db) ++ [inv])%list
    /\ rows (invoice_items d') = (rows (invoice_items example_sold_db) ++ lines)%list
    /\ getDashboardStats (opened d') = (Ok (mkStats 2 2 1), opened d').
Proof.
  destruct (handleSave_create_frame 300 second_order_screen example_sold_db)
    as (d' & inv & lines & H1 & _ & _ & H4 & _ & _ & H7 & _ & _ & H10).
  - exact complete_second_order.
  - reflexivity.
  - simpl. intros [H | []]. discriminate H.
  - exists d', inv, lines. split; [exact H1 |]. split; [exact H4 |].
    split; [exact H7 | exact H10].
Defined.

(** ** Adding, editing and removing lines *)

Lemma array_set_spec {A : Type} (a : list A) (i : nat) (x : A) :
  array_set a i x
  = if (i <=? List.length a)%nat then Some (firstn i a ++ x :: skipn (S i) a)%list
    else None.
Proof.
  revert i. induction a as [| y a IH]; intros [| i]; simpl; try reflexivity.
  rewrite IH. now destruct (i <=? List.length a)%nat.
Qed.

(** X12. When [addOrUpdateItem] accepts, the item is one of the screen's
    list, the quantity is positive, and the new line carries the item's
    current name, the typed quantity and price, and their product. With
    no line open for editing the new line goes to the end; with line [k]
    open it takes the place of line [k] and the others stay where they
    are. Customer, date, invoice number and item list are not touched,
    and the modal is reset. *)
Theorem addOrUpdateItem_lines scr scr' :
  CreateInvoiceScreen.addOrUpdateItem scr = Accepted scr' ->
  exists item quantity,
    find (fun i => Item.id i =? Screen.selectedItemId scr) (Screen.items scr) = Some item
    /\ Screen.itemQuantity scr = Some quantity
    /\ 0 < quantity
    /\ Screen.selectedItemId scr <> 0
    /\ (let newItem :=
          InvoiceItemData.mk None (Screen.selectedItemId scr) (Item.name item) quantity
            (Screen.itemPrice scr)
            (PrimFloat.mul (number_of_Z quantity) (Screen.itemPrice scr)) in
        let lines := FormData.items (Screen.formData scr) in
        let k := Z.to_nat (Screen.editingItemIndex scr) in
        (Screen.editingItemIndex scr < 0 ->
         FormData.items (Screen.formData scr') = (lines ++ [newItem])%list)
        /\ (0 <= Screen.editingItemIndex scr ->
            (k <= List.length lines)%nat
            /\ FormData.items (Screen.formData scr')
               = (firstn k lines ++ newItem :: skipn (S k) lines)%list))
    /\ FormData.customer_id (Screen.formData scr')
       = FormData.customer_id (Screen.formData scr)
    /\ FormData.invoice_date (Screen.formData scr')
       = FormData.invoice_date (Screen.formData scr)
    /\ Screen.invoiceId scr' = Screen.invoiceId scr
    /\ Screen.invoiceNumber scr' = Screen.invoiceNumber scr
    /\ Screen.items scr' = Screen.items scr
    /\ Screen.editingItemIndex scr' = -1
    /\ Screen.selectedItemId scr' = 0.
Proof.
  unfold CreateInvoiceScreen.addOrUpdateItem.
  destruct (Screen.selectedItemId scr =? 0) eqn:Hsel; [discriminate |].
  destruct (Screen.itemQuantity scr) as [quantity |]; [| discriminate].
  destruct (quantity <=? 0) eqn:Hq; [discriminate |].
  destruct (PrimFloat.is_nan (Screen.itemPrice scr) || PrimFloat.leb (Screen.itemPrice scr) 0);
    [discriminate |].
  destruct (find _ (Screen.items scr)) as [item |]; [| discriminate].
  cbv zeta. intros Hacc. exists item, quantity.
  apply Z.eqb_neq in Hsel. apply Z.leb_gt in Hq.
  split; [reflexivity |]. split; [reflexivity |]. split; [assumption |].
  split; [assumption |].
  destruct (Screen.editingItemIndex scr >=? 0) eqn:Hedit.
  - rewrite array_set_spec in Hacc.
    destruct (Z.to_nat (Screen.editingItemIndex scr)
              <=? List.length (FormData.items (Screen.formData scr)))%nat eqn:Hk;
      [| discriminate].
    injection Hacc as <-. cbn.
    apply Z.geb_le in Hedit. apply Nat.leb_le in Hk.
    repeat split; auto; lia.
  - injection Hacc as <-. cbn.
    rewrite Z.geb_leb in Hedit. apply Z.leb_gt in Hedit.
    repeat split; auto; lia.
Qed.

Lemma addOrUpdateItem_lines_witness :
  exists item quantity,
    find (fun i => Item.id i =? 1) (Screen.items example_order_screen) = Some item
    /\ Some 4 = Some quantity
    /\ 0 < quantity.
Proof.
  destruct (addOrUpdateItem_lines (fill_item_modal 1 (Some 4) 5%float example_order_screen)
              repeated_item_screen eq_refl)
    as (item & quantity & H1 & H2 & H3 & _).
  exists item, quantity. split; [exact H1 |]. split; [exact H2 | exact H3].
Defined.

Lemma filter_index_keep_all {A : Type} (p : Z -> bool) (i : Z) (a : list A) :
  (forall j, i <= j < i + Z.of_nat (List.length a) -> p j = true) ->
  filter_index p i a = a.
Proof.
  revert i. induction a as [| x a IH]; intros i Hp; simpl; [reflexivity |].
  rewrite Hp by (simpl List.length; lia). f_equal. apply IH.
  intros j Hj. apply Hp. simpl List.length. lia.
Qed.

Lemma filter_index_remove {A : Type} (index : Z) (a : list A) :
  forall i,
    i <= index < i + Z.of_nat (List.length a) ->
    filter_index (fun j => negb (j =? index)) i a
    = (firstn (Z.to_nat (index - i)) a ++ skipn (S (Z.to_nat (index - i))) a)%list.
Proof.
  induction a as [| x a IH]; intros i Hi; simpl List.length in Hi; [lia |].
  simpl filter_index. destruct (i =? index) eqn:E.
  - apply Z.eqb_eq in E. subst. rewrite Z.sub_diag. simpl.
    apply filter_index_keep_all. intros j Hj. apply negb_true_iff, Z.eqb_neq. lia.
  - apply Z.eqb_neq in E. simpl negb. cbv iota.
    replace (Z.to_nat (index - i)) with (S (Z.to_nat (index - (i + 1)))) by lia.
    simpl. f_equal. apply IH. lia.
Qed.

Lemma addOrUpdateItem_priced_lines scr scr' :
  Screen.editingItemIndex scr < 0 ->
  CreateInvoiceScreen.addOrUpdateItem scr = Accepted scr' ->
  exists x,
    FormData.items (Screen.formData scr')
    = (FormData.items (Screen.formData scr) ++ [x])%list.
Proof.
  intros Hadd. unfold CreateInvoiceScreen.addOrUpdateItem.
  destruct (Screen.selectedItemId scr =? 0); [discriminate |].
  destruct (Screen.itemQuantity scr) as [quantity |]; [| discriminate].
  destruct (quantity <=? 0); [discriminate |].
  destruct (PrimFloat.is_nan (Screen.itemPrice scr) || PrimFloat.leb (Screen.itemPrice scr) 0);
    [discriminate |].
  destruct (find _ (Screen.items scr)) as [item |]; [| discriminate].
  cbv zeta.
  replace (Screen.editingItemIndex scr >=? 0) with false
    by (symmetry; rewrite Z.geb_leb; apply Z.leb_gt; lia).
  intros [= <-]. eexists. reflexivity.
Qed.

(** X13. Removing a line: for a position within the lines, the line at
    that position goes and the others keep their order; for any other
    position nothing changes. Removing the last position right after a
    line was added gives back the lines as they were. *)
Theorem handleRemoveItem_lines (index : Z) (scr : Screen.t) :
  let lines := FormData.items (Screen.formData scr) in
  (0 <= index < Z.of_nat (List.length lines) ->
   FormData.items (Screen.formData (handleRemoveItem index scr))
   = (firstn (Z.to_nat index) lines ++ skipn (S (Z.to_nat index)) lines)%list)
  /\ (index < 0 \/ Z.of_nat (List.length lines) <= index ->
      handleRemoveItem index scr = scr)
  /\ (forall scr',
        Screen.editingItemIndex scr < 0 ->
        CreateInvoiceScreen.addOrUpdateItem scr = Accepted scr' ->
        FormData.items
          (Screen.formData (handleRemoveItem (Z.of_nat (List.length lines)) scr'))
        = lines).
Proof.
  cbv zeta. split; [| split].
  - intros Hin. unfold handleRemoveItem. cbn.
    rewrite filter_index_remove by lia. now rewrite Z.sub_0_r.
  - intros Hout. unfold handleRemoveItem. cbv zeta.
    rewrite filter_index_keep_all.
    + now destruct scr as [? ? ? ? ? ? ? [? ? ?]].
    + intros j Hj. apply negb_true_iff, Z.eqb_neq. lia.
  - intros scr' Hadd Hacc.
    destruct (addOrUpdateItem_priced_lines scr scr' Hadd Hacc) as (x & Hx).
    unfold handleRemoveItem. cbn. rewrite Hx.
    rewrite filter_index_remove by (rewrite length_app; simpl; lia).
    rewrite Z.sub_0_r, Nat2Z.id, firstn_app, Nat.sub_diag, firstn_all.
    rewrite skipn_all2 by (rewrite length_app; simpl; lia).
    cbn [firstn]. now rewrite !app_nil_r.
Qed.

Lemma handleRemoveItem_lines_witness :
  FormData.items (Screen.formData (handleRemoveItem 0 repeated_item_screen))
  = (firstn (Z.to_nat 0) (FormData.items (Screen.formData repeated_item_screen))
     ++ skipn (S (Z.to_nat 0)) (FormData.items (Screen.formData repeated_item_screen)))%list
  /\ handleRemoveItem 2 repeated_item_screen = repeated_item_screen.
Proof.
  destruct (handleRemoveItem_lines 0 repeated_item_screen) as (Hin & _).
  destruct (handleRemoveItem_lines 2 repeated_item_screen) as (_ & Hout & _).
  split.
  - apply Hin. simpl. lia.
  - apply Hout. simpl. lia.
Defined.

(** ** Updating one invoice among others *)

Lemma filter_filter_other (invoiceId other : Z) (l : list InvoiceItem.t) :
  other <> invoiceId ->
  filter (fun r => InvoiceItem.invoice_id r =? other)
    (filter (fun r => negb (InvoiceItem.invoice_id r =? invoiceId)) l)
  = filter (fun r => InvoiceItem.invoice_id r =? other) l.
Proof.
  intros Hne. induction l as [| r l IH]; simpl; [reflexivity |].
  destruct (InvoiceItem.invoice_id r =? invoiceId) eqn:E1; simpl.
  - apply Z.eqb_eq in E1.
    replace (InvoiceItem.invoice_id r =? other) with false
      by (symmetry; apply Z.eqb_neq; congruence).
    exact IH.
  - now rewrite IH.
Qed.

Lemma updated_db_invoice_items scr invoiceId d :
  exists after,
    rows (invoice_items (updated_db scr invoiceId d))
    = (filter (fun r => negb (InvoiceItem.invoice_id r =? invoiceId))
         (rows (invoice_items d))
       ++ line_rows invoiceId after (FormData.items (Screen.formData scr)))%list.
Proof.
  unfold updated_db. cbv zeta.
  rewrite (fold_lines_invoice_items _ invoiceId) by reflexivity.
  eexists. reflexivity.
Qed.

(** X14. Saving an update of one invoice leaves every other invoice as
    it was: the lines read for any other invoice are the same, an
    invoice row with another id is in the table after the save exactly
    if it was before, and no row changes its id, number or creation
    time. Categories, items and customers are not touched. *)
Theorem handleSave_update_leaves_other_invoices now scr invoiceId d :
  truthy_id (Screen.invoiceId scr) = Some invoiceId ->
  complete_form (Screen.formData scr) ->
  exists d',
    CreateInvoiceScreen.handleSave now scr (opened d)
    = (showSuccess "Invoice updated successfully", opened d')
    /\ (forall other,
          other <> invoiceId ->
          fst (getInvoiceItems other (opened d')) = fst (getInvoiceItems other (opened d)))
    /\ (forall inv,
          Invoice.id inv <> invoiceId ->
          (In inv (rows (invoices d')) <-> In inv (rows (invoices d))))
    /\ map (fun i => (Invoice.id i, Invoice.invoice_number i, Invoice.created_at i))
         (rows (invoices d'))
       = map (fun i => (Invoice.id i, Invoice.invoice_number i, Invoice.created_at i))
           (rows (invoices d))
    /\ categories d' = categories d
    /\ items d' = items d
    /\ customers d' = customers d.
Proof.
  intros Hid Hform. exists (updated_db scr invoiceId d).
  split; [now apply handleSave_update_opened |].
  destruct (updated_db_frame scr invoiceId d) as (Hcat & Hitems & Hcust).
  split; [| split; [| split; [| auto]]].
  - intros other Hother. rewrite !getInvoiceItems_opened. cbn [fst]. f_equal.
    unfold select_where.
    destruct (updated_db_invoice_items scr invoiceId d) as (after & ->).
    rewrite filter_app, filter_filter_other by assumption.
    rewrite (filter_none _ (line_rows _ _ _)); [apply app_nil_r |].
    intros r Hr. apply line_rows_invoice_id in Hr. apply Z.eqb_neq. congruence.
  - intros inv Hinv. rewrite updated_db_invoices. cbv zeta.
    cbn [update_invoice snd set_invoices invoices]. split.
    + intros Hin. apply update_where_In in Hin.
      destruct Hin as [(r & _ & Hp & ->) | (Hin & _)]; [| assumption].
      simpl in Hinv. apply Z.eqb_eq in Hp. contradiction.
    + intros Hin. unfold update_where. cbn [rows]. apply in_map_iff.
      exists inv. split; [| assumption].
      apply Z.eqb_neq in Hinv. now rewrite Hinv.
  - rewrite updated_db_invoices. cbv zeta.
    cbn [update_invoice snd set_invoices invoices update_where rows].
    rewrite map_map. apply map_ext. intros i. now destruct (Invoice.id i =? invoiceId).
Qed.

Lemma handleSave_update_leaves_other_invoices_witness :
  exists d',
    CreateInvoiceScreen.handleSave 300 example_edit_screen (opened example_two_invoices_db)
    = (showSuccess "Invoice updated successfully", opened d')
    /\ fst (getInvoiceItems 2 (opened d'))
       = fst (getInvoiceItems 2 (opened example_two_invoices_db))
    /\ items d' = items example_two_invoices_db.
Proof.
  destruct (handleSave_update_leaves_other_invoices 300 example_edit_screen 1
              example_two_invoices_db eq_refl complete_example_edit)
    as (d' & H1 & H2 & _ & _ & _ & H6 & _).
  exists d'. split; [exact H1 |]. split; [| exact H6].
  apply H2. discriminate.
Defined.

(** ** Opening an invoice and saving it as it is *)

Lemma split_head_iso (sep : ascii) (s rest : string) :
  split_head sep s = s -> split_head sep (s ++ String sep rest) = s.
Proof.
  induction s as [| c s IH]; simpl.
  - intros _. now rewrite Ascii.eqb_refl.
  - destruct (Ascii.eqb c sep); [discriminate |].
    intros [= H]. now rewrite IH.
Qed.

Lemma update_where_fixed {R : Type} (p : R -> bool) (f : R -> R) (t : Table R) :
  (forall r, In r (rows t) -> p r = true -> f r = r) -> update_where p f t = t.
Proof.
  intros Hf. unfold update_where.
  replace (map (fun r => if p r then f r else r) (rows t)) with (rows t);
    [now destruct t |].
  rewrite <- (map_id (rows t)) at 1. apply map_ext_in. intros r Hr.
  destruct (p r) eqn:Hp; [symmetry; now apply Hf | reflexivity].
Qed.

Lemma digit_not_T (c : ascii) (n : Z) : digit_of c = Some n -> Ascii.eqb c "T" = false.
Proof.
  destruct c as [[] [] [] [] [] [] [] []]; intros H; try reflexivity; discriminate H.
Qed.

(** A calendar date has no 'T': it is the part of its ISO string before
    the time. *)
Lemma calendar_date_split_head (s : string) :
  is_calendar_date s = true -> split_head "T" s = s.
Proof.
  intros H. unfold is_calendar_date in H.
  destruct s as [| y1 s]; [discriminate H |].
  destruct s as [| y2 s]; [discriminate H |].
  destruct s as [| y3 s]; [discriminate H |].
  destruct s as [| y4 s]; [discriminate H |].
  destruct s as [| sep1 s]; [discriminate H |].
  destruct s as [| m1 s]; [discriminate H |].
  destruct s as [| m2 s]; [discriminate H |].
  destruct s as [| sep2 s]; [discriminate H |].
  destruct s as [| d1 s]; [discriminate H |].
  destruct s as [| d2 s]; [discriminate H |].
  destruct s as [| c s]; [| discriminate H].
  destruct (digit_of y1) eqn:E1; [| discriminate H].
  destruct (digit_of y2) eqn:E2; [| discriminate H].
  destruct (digit_of y3) eqn:E3; [| discriminate H].
  destruct (digit_of y4) eqn:E4; [| discriminate H].
  destruct (digit_of m1) eqn:E5; [| discriminate H].
  destruct (digit_of m2) eqn:E6; [| discriminate H].
  destruct (digit_of d1) eqn:E7; [| discriminate H].
  destruct (digit_of d2) eqn:E8; [| discriminate H].
  cbv zeta in H. repeat (apply andb_true_iff in H; destruct H as [H ?]).
  apply Ascii.eqb_eq in H. subst sep1.
  match goal with Hs : Ascii.eqb sep2 _ = true |- _ => apply Ascii.eqb_eq in Hs; subst sep2 end.
  cbn [split_head].
  rewrite (digit_not_T _ _ E1), (digit_not_T _ _ E2), (digit_not_T _ _ E3),
    (digit_not_T _ _ E4), (digit_not_T _ _ E5), (digit_not_T _ _ E6),
    (digit_not_T _ _ E7), (digit_not_T _ _ E8).
  reflexivity.
Qed.

Lemma mount_edit_form invoiceId today d inv :
  invoiceId <> 0 ->
  In inv (rows (invoices d)) ->
  Invoice.id inv = invoiceId ->
  (forall i, In i (rows (invoices d)) -> Invoice.id i = invoiceId ->
             is_calendar_date (Invoice.invoice_date i) = true) ->
  exists scr inv',
    CreateInvoiceScreen.mount_edit invoiceId today (opened d) = Some (scr, opened d)
    /\ In inv' (rows (invoices d))
    /\ Invoice.id inv' = invoiceId
    /\ truthy_id (Screen.invoiceId scr) = Some invoiceId
    /\ Screen.invoiceNumber scr = Invoice.invoice_number inv'
    /\ FormData.customer_id (Screen.formData scr) = Invoice.customer_id inv'
    /\ FormData.invoice_date (Screen.formData scr)
       = Invoice.invoice_date inv' ++ "T00:00:00.000Z"
    /\ map (fun x => (invoiceId, InvoiceItemData.item_id x, InvoiceItemData.quantity x,
                      InvoiceItemData.unit_price x, InvoiceItemData.extended_amount x))
         (FormData.items (Screen.formData scr))
       = map (fun r => (invoiceId, InvoiceItem.item_id r, InvoiceItem.quantity r,
                        InvoiceItem.unit_price r, InvoiceItem.extended_amount r))
           (select_where (fun r => InvoiceItem.invoice_id r =? invoiceId)
              (invoice_items d)).
Proof.
  intros Hnz Hin Hid Hdates.
  assert (Htruthy : truthy_id (Some invoiceId) = Some invoiceId).
  { unfold truthy_id. apply Z.eqb_neq in Hnz. now rewrite Hnz. }
  unfold CreateInvoiceScreen.mount_edit, CreateInvoiceScreen.mount.
  rewrite (loadData_edit_opened invoiceId today d Hnz), Htruthy.
  set (scr1 := Screen.set_items _ _).
  unfold CreateInvoiceScreen.loadInvoice.
  replace (truthy_id (Screen.invoiceId scr1)) with (Some invoiceId) by (symmetry; exact Htruthy).
  unfold getInvoices. rewrite query_opened.
  destruct (find_present (fun i => Invoice.id i =? invoiceId)
              (order_by (fun a b => Invoice.created_at b <=? Invoice.created_at a)
                 (rows (invoices d))) inv) as (inv' & Hfind & Hin' & Hid').
  { now apply order_by_In. }
  { now apply Z.eqb_eq. }
  rewrite Hfind.
  apply order_by_In in Hin'. apply Z.eqb_eq in Hid'.
  unfold CreateInvoiceScreen.iso_of_date. rewrite (Hdates inv' Hin' Hid').
  unfold getInvoiceItems, getItems.
  rewrite (bind_Ok _ _ _ _ _ (query_opened _ _)).
  rewrite (bind_Ok _ _ _ _ _ (query_opened _ _)).
  unfold ret.
  eexists _, inv'. split; [reflexivity |].
  split; [assumption |]. split; [assumption |]. split; [exact Htruthy |].
  split; [reflexivity |]. split; [reflexivity |]. split; [reflexivity |].
  cbn [Screen.formData Screen.set_formData FormData.items].
  rewrite map_map. reflexivity.
Qed.

Lemma line_rows_content invoiceId after lines :
  map line_content (line_rows invoiceId after lines)
  = map (fun x => (invoiceId, InvoiceItemData.item_id x, InvoiceItemData.quantity x,
                   InvoiceItemData.unit_price x, InvoiceItemData.extended_amount x))
      lines.
Proof.
  revert after. induction lines as [| x lines IH]; intros after; simpl.
  - reflexivity.
  - now rewrite IH.
Qed.

(** X15. Opening an invoice for editing and saving it without touching
    the form changes nothing that matters: in a store that keeps its
    keys, for an invoice with a customer, at least one line, a stored
    date that is a day of the calendar written YYYY-MM-DD (what a save
    of the form stores) and totals that agree with its lines, the save
    succeeds and leaves the invoices, items, customers and categories
    tables identical; the invoice's lines are written again with the
    same content, in the same order. *)
Theorem edit_and_save_unchanged now today d inv :
  consistent d ->
  In inv (rows (invoices d)) ->
  Invoice.customer_id inv <> 0 ->
  is_calendar_date (Invoice.invoice_date inv) = true ->
  select_where (fun r => InvoiceItem.invoice_id r =? Invoice.id inv) (invoice_items d) <> [] ->
  totals_match inv
    (select_where (fun r => InvoiceItem.invoice_id r =? Invoice.id inv) (invoice_items d)) ->
  exists scr d',
    CreateInvoiceScreen.mount_edit (Invoice.id inv) today (opened d) = Some (scr, opened d)
    /\ CreateInvoiceScreen.handleSave now scr (opened d)
       = (showSuccess "Invoice updated successfully", opened d')
    /\ invoices d' = invoices d
    /\ items d' = items d
    /\ customers d' = customers d
    /\ categories d' = categories d
    /\ map line_content
         (select_where (fun r => InvoiceItem.invoice_id r =? Invoice.id inv)
            (invoice_items d'))
       = map line_content
           (select_where (fun r => InvoiceItem.invoice_id r =? Invoice.id inv)
              (invoice_items d)).
Proof.
  intros Hcons Hin Hcust Hdate Hlines Hmatch.
  set (invoiceId := Invoice.id inv) in *.
  set (stored := select_where (fun r => InvoiceItem.invoice_id r =? invoiceId)
                   (invoice_items d)) in *.
  destruct Hcons as (_ & _ & _ & (_ & Hids & Hnd) & _).
  assert (Hnz : invoiceId <> 0) by (specialize (Hids inv Hin); unfold invoiceId; lia).
  destruct (mount_edit_form invoiceId today d inv Hnz Hin eq_refl)
    as (scr & inv' & Hmount & Hin' & Hid' & Htruthy & _ & Hc & Hd & Hcontent).
  { intros i Hi Hidi.
    now rewrite (NoDup_map_inj Invoice.id (rows (invoices d)) i inv Hnd Hi Hin Hidi). }
  assert (inv' = inv) by (now apply (NoDup_map_inj Invoice.id (rows (invoices d)))).
  subst inv'. fold stored in Hcontent.
  assert (Hext : map InvoiceItemData.extended_amount (FormData.items (Screen.formData scr))
                 = map InvoiceItem.extended_amount stored).
  { apply (f_equal (map snd)) in Hcontent. now rewrite !map_map in Hcontent. }
  assert (Hform : complete_form (Screen.formData scr)).
  { split; [now rewrite Hc |]. intros Hempty. apply Hlines.
    rewrite Hempty in Hcontent. simpl in Hcontent.
    destruct stored; [reflexivity | discriminate]. }
  pose proof (calculateTotals_stored (Screen.formData scr) stored inv Hext Hmatch) as Htot.
  exists scr, (updated_db scr invoiceId d).
  destruct (updated_db_frame scr invoiceId d) as (Hcat' & Hitems' & Hcust').
  split; [exact Hmount |]. split; [now apply handleSave_update_opened |].
  split; [| split; [assumption | split; [assumption | split; [assumption |]]]].
  - rewrite updated_db_invoices. cbv zeta.
    cbn [update_invoice snd set_invoices invoices].
    rewrite update_where_fixed; [now destruct d |].
    intros r Hr Hp. apply Z.eqb_eq in Hp.
    assert (r = inv) by (now apply (NoDup_map_inj Invoice.id (rows (invoices d)))).
    subst r. rewrite Htot, Hc, Hd. cbn [subtotal vatAmount total].
    rewrite (split_head_iso "T" _ "00:00:00.000Z" (calendar_date_split_head _ Hdate)).
    now destruct inv.
  - destruct (updated_db_lines scr invoiceId d) as (after & ->).
    rewrite line_rows_content, Hcontent. unfold stored, select_where.
    apply map_ext_in. intros r Hr. apply filter_In in Hr. destruct Hr as [_ Hr].
    apply Z.eqb_eq in Hr. unfold line_content. now rewrite Hr.
Qed.

Lemma consistent_example_two_invoices_db : consistent example_two_invoices_db.
Proof.
  unfold consistent, keyed. simpl.
  repeat match goal with |- _ /\ _ => split end; try lia;
    try (intros r Hr; repeat destruct Hr as [<- | Hr]; simpl; try lia; contradiction);
    repeat (constructor; [simpl; intuition congruence |]); constructor.
Qed.

Lemma edit_and_save_unchanged_witness :
  exists scr d',
    CreateInvoiceScreen.mount_edit 1 "2025-01-04T09:00:00.000Z"
      (opened example_two_invoices_db)
    = Some (scr, opened example_two_invoices_db)
    /\ CreateInvoiceScreen.handleSave 300 scr (opened example_two_invoices_db)
       = (showSuccess "Invoice updated successfully", opened d')
    /\ invoices d' = invoices example_two_invoices_db
    /\ items d' = items example_two_invoices_db.
Proof.
  destruct (edit_and_save_unchanged 300 "2025-01-04T09:00:00.000Z" example_two_invoices_db
              (Invoice.mk 1 "INV-000001" 1 "2025-01-02" 15%float 2.25%float 17.25%float 200))
    as (scr & d' & H1 & H2 & H3 & H4 & _).
  - exact consistent_example_two_invoices_db.
  - simpl. auto.
  - discriminate.
  - reflexivity.
  - discriminate.
  - repeat split; reflexivity.
  - exists scr, d'. split; [exact H1 |]. split; [exact H2 |]. split; [exact H3 | exact H4].
Defined.

(** ** The item modal *)

(** X16. Two ways through the item modal. Opening line [k], typing a
    new quantity and confirming replaces line [k] by a line for the same
    item at the same unit price, with the new quantity and their
    product, and leaves the other lines in place. Opening the modal for
    a new line, picking an item of the screen's list and confirming
    appends a line for one unit at the item's catalog price. *)
Theorem item_modal_flows (scr : Screen.t) :
  (forall (k : nat) (q : Z) scr1 scr',
     openItemModal (Z.of_nat k) scr = Some scr1 ->
     CreateInvoiceScreen.addOrUpdateItem (setItemQuantity (Some q) scr1) = Accepted scr' ->
     exists line item,
       nth_error (FormData.items (Screen.formData scr)) k = Some line
       /\ find (fun i => Item.id i =? InvoiceItemData.item_id line) (Screen.items scr)
          = Some item
       /\ FormData.items (Screen.formData scr')
          = (firstn k (FormData.items (Screen.formData scr))
             ++ InvoiceItemData.mk None (InvoiceItemData.item_id line) (Item.name item) q
                  (InvoiceItemData.unit_price line)
                  (PrimFloat.mul (number_of_Z q) (InvoiceItemData.unit_price line))
                :: skipn (S k) (FormData.items (Screen.formData scr)))%list)
  /\ (forall itemId item,
        itemId <> 0 ->
        find (fun i => Item.id i =? itemId) (Screen.items scr) = Some item ->
        PrimFloat.is_nan (Item.price item) = false ->
        PrimFloat.leb (Item.price item) 0 = false ->
        exists scr0 scr',
          openItemModal (-1) scr = Some scr0
          /\ CreateInvoiceScreen.addOrUpdateItem (selectItem itemId scr0) = Accepted scr'
          /\ FormData.items (Screen.formData scr')
             = (FormData.items (Screen.formData scr)
                ++ [InvoiceItemData.mk None itemId (Item.name item) 1 (Item.price item)
                      (PrimFloat.mul (number_of_Z 1) (Item.price item))])%list).
Proof.
  split.
  - intros k q scr1 scr'. unfold openItemModal.
    replace (Z.of_nat k >=? 0) with true by (symmetry; rewrite Z.geb_leb; apply Z.leb_le; lia).
    rewrite Nat2Z.id.
    destruct (nth_error (FormData.items (Screen.formData scr)) k) as [line |] eqn:Hnth;
      [| discriminate].
    intros [= <-]. unfold CreateInvoiceScreen.addOrUpdateItem, setItemQuantity.
    cbn [Screen.selectedItemId Screen.itemQuantity Screen.itemPrice Screen.items
         Screen.editingItemIndex Screen.formData].
    destruct (InvoiceItemData.item_id line =? 0); [discriminate |].
    destruct (q <=? 0); [discriminate |].
    destruct (PrimFloat.is_nan _ || PrimFloat.leb _ 0); [discriminate |].
    destruct (find _ (Screen.items scr)) as [item |] eqn:Hfind; [| discriminate].
    cbv zeta.
    replace (Z.of_nat k >=? 0) with true by (symmetry; rewrite Z.geb_leb; apply Z.leb_le; lia).
    rewrite Nat2Z.id, array_set_spec.
    destruct (k <=? List.length (FormData.items (Screen.formData scr)))%nat; [| discriminate].
    intros [= <-]. exists line, item. split; [reflexivity | split; [exact Hfind | reflexivity]].
  - intros itemId item Hnz Hfind Hnan Hpos.
    eexists _, _. split; [reflexivity |].
    unfold selectItem. cbn [Screen.items]. rewrite Hfind.
    unfold CreateInvoiceScreen.addOrUpdateItem.
    cbn [Screen.selectedItemId Screen.itemQuantity Screen.itemPrice Screen.items
         Screen.editingItemIndex Screen.formData].
    apply Z.eqb_neq in Hnz. rewrite Hnz, Hnan, Hpos, Hfind. cbn.
    split; reflexivity.
Qed.

Lemma item_modal_flows_witness :
  exists scr0 scr',
    openItemModal (-1) example_order_screen = Some scr0
    /\ CreateInvoiceScreen.addOrUpdateItem (selectItem 2 scr0) = Accepted scr'
    /\ FormData.items (Screen.formData scr')
       = (FormData.items (Screen.formData example_order_screen)
          ++ [InvoiceItemData.mk None 2 "Gadget" 1 2.5%float
                (PrimFloat.mul (number_of_Z 1) 2.5%float)])%list.
Proof.
  destruct (item_modal_flows example_order_screen) as (_ & Hnew).
  apply (Hnew 2 (Item.mk 2 "Gadget" 1 2.5%float 2 (Some "small") 101));
    [discriminate | reflexivity | reflexivity | reflexivity].
Defined.

(** * Properties of the category screen *)

Lemma loadCategories_opened now scr d :
  CategoryListScreen.loadCategories now scr (opened d)
  = (CategoryScreen.set_categories
       (order_by (fun a b => String.leb (Category.name a) (Category.name b))
          (rows (categories (seed_db now d)))) scr,
     [], opened (seed_db now d)).
Proof.
  unfold CategoryListScreen.loadCategories.
  rewrite (bind_Ok _ _ _ _ _ (initDatabase_opened now (opened d))).
  cbn [opened inventory_db]. fold (opened (seed_db now d)).
  unfold getCategories. now rewrite query_opened.
Qed.

Lemma insert_or_ignore_new_rows now n description d c :
  In c (rows (categories (snd (insert_or_ignore_category now n description d)))) ->
  In c (rows (categories d))
  \/ (seq (categories d) < Category.id c /\ Category.name c = n).
Proof.
  rewrite insert_or_ignore_rows.
  destruct (has_category_name n (categories d)); intros Hin; apply in_app_or in Hin.
  - destruct Hin as [Hin | []]. now left.
  - destruct Hin as [Hin | [<- | []]]; [now left | right]. simpl. split; [lia | reflexivity].
Qed.

Lemma insert_or_ignore_seq_le now n description d :
  seq (categories d) <= seq (categories (snd (insert_or_ignore_category now n description d))).
Proof. apply (insert_or_ignore_seqs now n description d). Qed.

Lemma seed_db_new_rows now d c :
  In c (rows (categories (seed_db now d))) ->
  In c (rows (categories d))
  \/ (seq (categories d) < Category.id c /\ In (Category.name c) default_categories).
Proof.
  unfold seed_db, default_categories. cbv zeta.
  set (d1 := snd (insert_or_ignore_category now "Electronics" _ d)).
  set (d2 := snd (insert_or_ignore_category now "Clothing" _ d1)).
  set (d3 := snd (insert_or_ignore_category now "Books" _ d2)).
  pose proof (insert_or_ignore_seq_le now "Electronics" "Electronic devices and accessories" d)
    as L1.
  pose proof (insert_or_ignore_seq_le now "Clothing" "Apparel and fashion items" d1) as L2.
  pose proof (insert_or_ignore_seq_le now "Books" "Books and educational materials" d2) as L3.
  fold d1 in L1. fold d2 in L2. fold d3 in L3.
  intros H4. apply insert_or_ignore_new_rows in H4.
  destruct H4 as [H3 | (Hid & Hname)]; [| right; simpl; split; [lia | auto 6]].
  apply insert_or_ignore_new_rows in H3.
  destruct H3 as [H2 | (Hid & Hname)]; [| right; simpl; split; [lia | auto 6]].
  apply insert_or_ignore_new_rows in H2.
  destruct H2 as [H1 | (Hid & Hname)]; [| right; simpl; split; [lia | auto 6]].
  apply insert_or_ignore_new_rows in H1.
  destruct H1 as [H0 | (Hid & Hname)]; [now left | right; simpl; split; [lia | auto 6]].
Qed.

(** X17. The category screen cannot get rid of a default category.
    [confirmDelete] deletes the row and reloads the list, and every load
    initializes the store again: afterwards the list shows the store's
    categories, all four default names among them. In a store that keeps
    its keys, no listed category has the id of the deleted one, so a
    deleted default is back under a new id, and the items that pointed
    at the old id are left as they were. *)
Theorem confirmDelete_defaults_return now (category : Category.t) scr d :
  exists scr' d',
    CategoryListScreen.confirmDelete now category scr (opened d)
    = (scr', [showSuccess "Category deleted successfully"], opened d')
    /\ Permutation (CategoryScreen.categories scr') (rows (categories d'))
    /\ (forall n, In n default_categories ->
                  In n (map Category.name (CategoryScreen.categories scr')))
    /\ items d' = items d
    /\ (consistent d ->
        In category (rows (categories d)) ->
        (forall c, In c (CategoryScreen.categories scr') ->
                   Category.id c <> Category.id category)
        /\ (In (Category.name category) default_categories ->
            exists c,
              In c (CategoryScreen.categories scr')
              /\ Category.name c = Category.name category
              /\ seq (categories d) < Category.id c)).
Proof.
  set (d1 := snd (delete_category (Category.id category) d)).
  exists (CategoryScreen.set_categories
            (order_by (fun a b => String.leb (Category.name a) (Category.name b))
               (rows (categories (seed_db now d1)))) scr), (seed_db now d1).
  split.
  { unfold CategoryListScreen.confirmDelete, deleteCategory.
    rewrite guarded_run_opened. cbn [delete_category fst snd].
    fold (delete_category (Category.id category) d). fold d1.
    now rewrite loadCategories_opened. }
  cbn [CategoryScreen.categories CategoryScreen.set_categories].
  split; [apply order_by_Permutation |].
  split.
  { intros n Hn. apply in_map_iff.
    assert (Hin : In n (map Category.name (rows (categories (seed_db now d1)))))
      by (apply seed_db_names; now left).
    apply in_map_iff in Hin. destruct Hin as (c & Hc & Hin).
    exists c. split; [assumption | now apply order_by_In]. }
  split.
  { now destruct (seed_db_seqs now d1) as (_ & -> & _). }
  intros ((Hseq & Hids & Hnd) & _ & _ & _ & _ & Hnames & _) Hin.
  assert (Hgone : forall c, In c (rows (categories d1)) -> Category.id c <> Category.id category).
  { intros c Hc. unfold d1 in Hc. simpl in Hc. apply filter_In in Hc.
    destruct Hc as [_ Hc]. apply negb_true_iff in Hc. now apply Z.eqb_neq. }
  assert (Hseq1 : seq (categories d1) = seq (categories d)) by reflexivity.
  split.
  - intros c Hc. apply order_by_In in Hc. apply seed_db_new_rows in Hc.
    destruct Hc as [Hc | (Hid & _)]; [now apply Hgone |].
    specialize (Hids category Hin). lia.
  - intros Hdefault.
    assert (Hin' : In (Category.name category)
                     (map Category.name (rows (categories (seed_db now d1)))))
      by (apply seed_db_names; now left).
    apply in_map_iff in Hin'. destruct Hin' as (c & Hname & Hc).
    exists c. split; [now apply order_by_In |]. split; [assumption |].
    apply seed_db_new_rows in Hc. destruct Hc as [Hc | (Hid & _)]; [| lia].
    exfalso. apply (Hgone c Hc). f_equal.
    apply (NoDup_map_inj Category.name (rows (categories d)) c category Hnames);
      [| assumption | assumption].
    unfold d1 in Hc. simpl in Hc. apply filter_In in Hc. tauto.
Qed.

Lemma confirmDelete_defaults_return_witness :
  exists scr' d',
    CategoryListScreen.confirmDelete 400
      (Category.mk 3 "Books" (Some "Books and educational materials") 100)
      (CategoryScreen.mk [] false None "" "" "") (opened example_sold_db)
    = (scr', [showSuccess "Category deleted successfully"], opened d')
    /\ (forall c, In c (CategoryScreen.categories scr') -> Category.id c <> 3)
    /\ (exists c,
          In c (CategoryScreen.categories scr')
          /\ Category.name c = "Books"
          /\ seq (categories example_sold_db) < Category.id c).
Proof.
  destruct (confirmDelete_defaults_return 400
              (Category.mk 3 "Books" (Some "Books and educational materials") 100)
              (CategoryScreen.mk [] false None "" "" "") example_sold_db)
    as (scr' & d' & H1 & _ & _ & _ & H5).
  destruct (H5 consistent_example_sold_db) as (Hgone & Hback).
  { simpl. auto. }
  exists scr', d'. split; [exact H1 |]. split; [exact Hgone |].
  apply Hback. simpl. auto.
Defined.

Lemma trimEnd_idempotent (s : string) : trimEnd (trimEnd s) = trimEnd s.
Proof.
  induction s as [| c s IH]; simpl; [reflexivity |].
  destruct (trimEnd s) as [| c' t] eqn:Ht.
  - destruct (is_space c) eqn:Hc; simpl; [reflexivity | now rewrite Hc].
  - simpl in *. now rewrite IH.
Qed.

Lemma trimStart_fixed (s : string) :
  match s with String c _ => is_space c = false | EmptyString => True end ->
  trimStart s = s.
Proof.
  destruct s as [| c s]; simpl; [reflexivity |]. now intros ->.
Qed.

Lemma trim_starts_clean (s : string) :
  match trim s with String c _ => is_space c = false | EmptyString => True end.
Proof.
  unfold trim. induction s as [| c s IH]; simpl; [exact I |].
  destruct (is_space c) eqn:Hc; [exact IH |].
  simpl. destruct (trimEnd s); now rewrite ?Hc.
Qed.

Lemma trim_idempotent (s : string) : trim (trim s) = trim s.
Proof.
  unfold trim at 1. rewrite trimStart_fixed by apply trim_starts_clean.
  unfold trim. apply trimEnd_idempotent.
Qed.

Lemma or_empty_Some (x : string) : or_empty (Some x) = x.
Proof.
  unfold or_empty. destruct (String.eqb x "") eqn:E; [| reflexivity].
  apply String.eqb_eq in E. now subst.
Qed.

Lemma unique_violation_lemma d now name description :
  In name (map Category.name (rows (categories d))) ->
  addCategory now name description (opened d)
  = (Throw (SqlError "UNIQUE constraint failed: categories.name"), opened d).
Proof.
  intros Hin. apply has_category_name_In in Hin.
  unfold addCategory. rewrite guarded_run_opened. unfold insert_category.
  now rewrite Hin.
Qed.

(** X18. Saving in the category modal. A name that is blank once trimmed
    is refused on the screen and nothing reaches the store. A new
    category whose trimmed name is in use fails with 'Failed to save
    category' and changes nothing. Otherwise the category is stored
    under the trimmed name (trimming it again changes nothing) with the
    trimmed description, the modal closes and the reloaded list shows
    the new row. *)
Theorem category_handleSave now scr d :
  let name := trim (CategoryScreen.categoryName scr) in
  let description := trim (CategoryScreen.categoryDescription scr) in
  (name = "" ->
   forall s,
     CategoryListScreen.handleSave now scr s
     = (CategoryScreen.set_nameError "Category name is required" scr, [], s))
  /\ (name <> "" ->
      CategoryScreen.editingCategory scr = None ->
      In name (map Category.name (rows (categories d))) ->
      CategoryListScreen.handleSave now scr (opened d)
      = (CategoryScreen.set_nameError "" scr, [showError "Failed to save category"],
         opened d))
  /\ (name <> "" ->
      CategoryScreen.editingCategory scr = None ->
      ~ In name (map Category.name (rows (categories d))) ->
      exists scr' d',
        CategoryListScreen.handleSave now scr (opened d)
        = (scr', [showSuccess "Category added successfully"], opened d')
        /\ CategoryScreen.modalVisible scr' = false
        /\ In (Category.mk (seq (categories d) + 1) name (Some description) now)
             (CategoryScreen.categories scr')
        /\ trim name = name).
Proof.
  cbv zeta. split; [| split].
  - intros Hblank s. unfold CategoryListScreen.handleSave, CategoryListScreen.validateForm.
    now rewrite Hblank.
  - intros Hname Hadd Htaken.
    unfold CategoryListScreen.handleSave, CategoryListScreen.validateForm.
    apply String.eqb_neq in Hname. rewrite Hname. cbn [negb].
    cbn [CategoryScreen.set_nameError CategoryScreen.editingCategory
         CategoryScreen.categoryName CategoryScreen.categoryDescription].
    rewrite Hadd.
    pose proof (unique_violation_lemma d now (trim (CategoryScreen.categoryName scr))
                  (Some (trim (CategoryScreen.categoryDescription scr))) Htaken) as Hthrow.
    now rewrite (bind_Throw _ _ _ _ _ Hthrow).
  - intros Hname Hadd Hfree.
    unfold CategoryListScreen.handleSave, CategoryListScreen.validateForm.
    apply String.eqb_neq in Hname. rewrite Hname. cbn [negb].
    cbn [CategoryScreen.set_nameError CategoryScreen.editingCategory
         CategoryScreen.categoryName CategoryScreen.categoryDescription].
    rewrite Hadd.
    assert (Hhas : has_category_name (trim (CategoryScreen.categoryName scr))
                     (categories d) = false).
    { apply not_true_iff_false. intros H. apply Hfree. now apply has_category_name_In. }
    assert (Hok : addCategory now (trim (CategoryScreen.categoryName scr))
                    (Some (trim (CategoryScreen.categoryDescription scr))) (opened d)
                  = (Ok (seq (categories d) + 1),
                     opened (snd (insert_category now (trim (CategoryScreen.categoryName scr))
                                    (trim (CategoryScreen.categoryDescription scr)) d)))).
    { unfold addCategory. rewrite guarded_run_opened, or_empty_Some.
      unfold insert_category. now rewrite Hhas. }
    rewrite (bind_Ok _ _ _ _ _ Hok). unfold ret. rewrite loadCategories_opened.
    eexists _, _. split; [reflexivity |].
    split; [reflexivity |]. split; [| apply trim_idempotent].
    cbn [CategoryScreen.categories CategoryScreen.set_categories].
    apply order_by_In.
    destruct (seed_db_rows now (snd (insert_category now
                                       (trim (CategoryScreen.categoryName scr))
                                       (trim (CategoryScreen.categoryDescription scr)) d)))
      as (seeded & ->).
    apply in_or_app. left. unfold insert_category. rewrite Hhas. simpl.
    apply in_or_app. right. now left.
Qed.

Lemma category_handleSave_witness :
  exists scr' d',
    CategoryListScreen.handleSave 400
      (CategoryScreen.mk [] true None "  Garden " " Plants and tools  " "")
      (opened example_db)
    = (scr', [showSuccess "Category added successfully"], opened d')
    /\ CategoryScreen.modalVisible scr' = false
    /\ In (Category.mk (seq (categories example_db) + 1)
             (trim "  Garden ") (Some (trim " Plants and tools  ")) 400)
          (CategoryScreen.categories scr')
    /\ trim (trim "  Garden ") = trim "  Garden ".
Proof.
  apply (proj2 (proj2 (category_handleSave 400
                         (CategoryScreen.mk [] true None "  Garden " " Plants and tools  " "")
                         example_db))).
  - vm_compute. discriminate.
  - reflexivity.
  - vm_compute. intros H.
    repeat (destruct H as [H | H]; [discriminate H |]). exact H.
Defined.

(** * Properties of the inventory screen *)

Lemma is_space_lower_char (c : ascii) : is_space (lower_char c) = is_space c.
Proof. destruct c as [[] [] [] [] [] [] [] []]; reflexivity. Qed.

Lemma trimStart_clean (s : string) :
  match trimStart s with String c _ => is_space c = false | EmptyString => True end.
Proof.
  induction s as [| c s IH]; simpl; [exact I |].
  destruct (is_space c) eqn:Hc; [exact IH | exact Hc].
Qed.

Lemma trim_empty (s : string) : trim s = "" <-> trimStart s = "".
Proof.
  unfold trim. pose proof (trimStart_clean s) as Hclean.
  destruct (trimStart s) as [| c t]; [simpl; tauto |].
  split; [| discriminate]. simpl. rewrite Hclean.
  destruct (trimEnd t); discriminate.
Qed.

Lemma trimStart_empty_lower (s : string) :
  trimStart (toLowerCase s) = "" <-> trimStart s = "".
Proof.
  induction s as [| c s IH]; simpl; [tauto |].
  rewrite is_space_lower_char. destruct (is_space c); [exact IH |].
  split; discriminate.
Qed.

Lemma blank_lower (s : string) :
  String.eqb (trim (toLowerCase s)) "" = String.eqb (trim s) "".
Proof.
  destruct (String.eqb (trim s) "") eqn:E.
  - apply String.eqb_eq. apply String.eqb_eq in E.
    apply trim_empty, trimStart_empty_lower, trim_empty, E.
  - apply String.eqb_neq. apply String.eqb_neq in E. intros H. apply E.
    apply trim_empty, trimStart_empty_lower, trim_empty, H.
Qed.

Lemma stock_cases (q : Z) :
  (q < 0 /\ (q =? 0) = false /\ (q >? 0) = false /\ (q <=? 10) = true
   /\ (q >? 10) = false /\ (q <? 0) = true)
  \/ (q = 0 /\ (q =? 0) = true /\ (q >? 0) = false /\ (q <=? 10) = true
      /\ (q >? 10) = false /\ (q <? 0) = false)
  \/ (0 < q <= 10 /\ (q =? 0) = false /\ (q >? 0) = true /\ (q <=? 10) = true
      /\ (q >? 10) = false /\ (q <? 0) = false)
  \/ (10 < q /\ (q =? 0) = false /\ (q >? 0) = true /\ (q <=? 10) = false
      /\ (q >? 10) = true /\ (q <? 0) = false).
Proof.
  rewrite !Z.gtb_ltb.
  destruct (Z.eqb_spec q 0), (Z.ltb_spec 0 q), (Z.leb_spec q 10), (Z.ltb_spec 10 q),
    (Z.ltb_spec q 0); try lia; intuition lia.
Qed.

Lemma badge_out (q : Z) :
  status (InventoryScreen.getStockStatus q) = "Out of Stock" <-> q = 0.
Proof.
  unfold InventoryScreen.getStockStatus.
  destruct (Z.eqb_spec q 0) as [E | E], (Z.leb_spec q 10) as [L | L]; cbn [status];
    split; intros H; try discriminate H; try reflexivity; lia.
Qed.

Lemma badge_low (q : Z) :
  status (InventoryScreen.getStockStatus q) = "Low Stock" <-> q <> 0 /\ q <= 10.
Proof.
  unfold InventoryScreen.getStockStatus.
  destruct (Z.eqb_spec q 0) as [E | E], (Z.leb_spec q 10) as [L | L]; cbn [status];
    split; intros H; try discriminate H; try reflexivity; lia.
Qed.

Lemma badge_in (q : Z) :
  status (InventoryScreen.getStockStatus q) = "In Stock" <-> 10 < q.
Proof.
  unfold InventoryScreen.getStockStatus.
  destruct (Z.eqb_spec q 0) as [E | E], (Z.leb_spec q 10) as [L | L]; cbn [status];
    split; intros H; try discriminate H; try reflexivity; lia.
Qed.

(** X19. What the inventory list shows. With a search box that is empty
    or all white space, the category chooser on "All" and the stock
    filter on 'all', every item is shown. Two queries that differ only
    in the case of their letters show the same items. Every shown item
    is one of the loaded items, belongs to the chosen category when one
    is chosen, and carries the badge 'Out of Stock' under the 'out'
    filter and 'Low Stock' under the 'low' filter. With no query and no
    category chosen, the 'out' filter shows exactly the items with the
    badge 'Out of Stock', and the 'low' filter exactly the items with
    the badge 'Low Stock' among those whose quantity is not negative. *)
Theorem filterItems_shown (scr : InventoryState.t) :
  let shown := InventoryState.filteredItems (InventoryScreen.filterItems scr) in
  let badge x :=
    status (InventoryScreen.getStockStatus (Item.quantity (ItemWithCategory.item x))) in
  (trim (InventoryState.searchQuery scr) = "" ->
   InventoryState.selectedCategory scr <= 0 ->
   InventoryState.stockFilter scr = all ->
   shown = InventoryState.items scr)
  /\ (forall scr2,
        InventoryState.items scr2 = InventoryState.items scr ->
        InventoryState.selectedCategory scr2 = InventoryState.selectedCategory scr ->
        InventoryState.stockFilter scr2 = InventoryState.stockFilter scr ->
        toLowerCase (InventoryState.searchQuery scr2)
        = toLowerCase (InventoryState.searchQuery scr) ->
        InventoryState.filteredItems (InventoryScreen.filterItems scr2) = shown)
  /\ (forall x,
        In x shown ->
        In x (InventoryState.items scr)
        /\ (0 < InventoryState.selectedCategory scr ->
            Item.category_id (ItemWithCategory.item x) = InventoryState.selectedCategory scr)
        /\ (InventoryState.stockFilter scr = out -> badge x = "Out of Stock")
        /\ (InventoryState.stockFilter scr = low -> badge x = "Low Stock"))
  /\ (trim (InventoryState.searchQuery scr) = "" ->
      InventoryState.selectedCategory scr <= 0 ->
      forall x,
        In x (InventoryState.items scr) ->
        (InventoryState.stockFilter scr = out ->
         (In x shown <-> badge x = "Out of Stock"))
        /\ (InventoryState.stockFilter scr = low ->
            0 <= Item.quantity (ItemWithCategory.item x) ->
            (In x shown <-> badge x = "Low Stock"))).
Proof.
  cbv zeta. split; [| split; [| split]].
  - intros Hq Hcat Hall. unfold InventoryScreen.filterItems. cbv zeta.
    rewrite Hq, Hall. cbn [String.eqb negb InventoryState.filteredItems
                           InventoryState.set_filteredItems].
    destruct (Z.gtb_spec (InventoryState.selectedCategory scr) 0) as [Hgt | Hle];
      [lia | reflexivity].
  - intros scr2 Hitems Hcat Hstock Hquery.
    unfold InventoryScreen.filterItems. cbv zeta.
    cbn [InventoryState.filteredItems InventoryState.set_filteredItems].
    rewrite Hitems, Hcat, Hstock, Hquery.
    now rewrite <- (blank_lower (InventoryState.searchQuery scr2)), Hquery, blank_lower.
  - intros x. unfold InventoryScreen.filterItems. cbv zeta.
    cbn [InventoryState.filteredItems InventoryState.set_filteredItems].
    set (l0 := InventoryState.items scr).
    set (l1 := if negb _ then _ else l0).
    set (l2 := if _ >? 0 then _ else l1).
    assert (H1 : In x l1 -> In x l0).
    { unfold l1. destruct (negb _); [| tauto]. intros H. apply filter_In in H. tauto. }
    assert (H2 : In x l2 ->
                 In x l1
                 /\ (0 < InventoryState.selectedCategory scr ->
                     Item.category_id (ItemWithCategory.item x)
                     = InventoryState.selectedCategory scr)).
    { unfold l2.
      destruct (Z.gtb_spec (InventoryState.selectedCategory scr) 0) as [Hgt | Hle].
      - intros H. apply filter_In in H. destruct H as [H Hid].
        apply Z.eqb_eq in Hid. tauto.
      - intros H. split; [assumption | lia]. }
    destruct (InventoryState.stockFilter scr) eqn:Hsf; intros Hx.
    + apply H2 in Hx. destruct Hx as [Hx Hid]. apply H1 in Hx.
      split; [exact Hx |]. split; [exact Hid |]. split; discriminate.
    + apply filter_In in Hx. destruct Hx as [Hx Hp].
      apply andb_true_iff in Hp. destruct Hp as [Hpos Hle].
      apply H2 in Hx. destruct Hx as [Hx Hid]. apply H1 in Hx.
      split; [exact Hx |]. split; [exact Hid |]. split; [discriminate |].
      intros _. apply badge_low. rewrite Z.gtb_ltb in Hpos. lia.
    + apply filter_In in Hx. destruct Hx as [Hx Hp].
      apply H2 in Hx. destruct Hx as [Hx Hid]. apply H1 in Hx.
      split; [exact Hx |]. split; [exact Hid |]. split; [| discriminate].
      intros _. apply badge_out. lia.
  - intros Hq Hcat x Hx. unfold InventoryScreen.filterItems. cbv zeta.
    cbn [InventoryState.filteredItems InventoryState.set_filteredItems].
    rewrite Hq. cbn [String.eqb negb].
    destruct (Z.gtb_spec (InventoryState.selectedCategory scr) 0) as [Hgt | Hle]; [lia |].
    split.
    + intros ->. rewrite filter_In, badge_out. split; [lia |].
      intros ->. split; [exact Hx | reflexivity].
    + intros -> Hnonneg. rewrite filter_In, badge_low, andb_true_iff, Z.gtb_ltb.
      split.
      * intros (_ & Hpos & Hten). lia.
      * intros (Hne & Hten). split; [exact Hx |]. split; lia.
Qed.

Lemma filterItems_shown_witness :
  InventoryState.filteredItems
    (InventoryScreen.filterItems
       (InventoryState.mk
          [ItemWithCategory.mk (Item.mk 1 "Widget" 1 5%float 10 (Some "") 100) "Electronics";
           ItemWithCategory.mk (Item.mk 2 "Gadget" 1 2.5%float 0 (Some "") 100) "Electronics"]
          [] [] false "   " 0 all))
  = [ItemWithCategory.mk (Item.mk 1 "Widget" 1 5%float 10 (Some "") 100) "Electronics";
     ItemWithCategory.mk (Item.mk 2 "Gadget" 1 2.5%float 0 (Some "") 100) "Electronics"].
Proof.
  apply (proj1 (filterItems_shown
                  (InventoryState.mk
                     [ItemWithCategory.mk (Item.mk 1 "Widget" 1 5%float 10 (Some "") 100)
                        "Electronics";
                      ItemWithCategory.mk (Item.mk 2 "Gadget" 1 2.5%float 0 (Some "") 100)
                        "Electronics"]
                     [] [] false "   " 0 all))).
  - reflexivity.
  - simpl. lia.
  - reflexivity.
Defined.

Lemma badge_eqb (q : Z) :
  String.eqb (status (InventoryScreen.getStockStatus q)) "Out of Stock" = (q =? 0)
  /\ String.eqb (status (InventoryScreen.getStockStatus q)) "In Stock" = (q >? 10)
  /\ String.eqb (status (InventoryScreen.getStockStatus q)) "Low Stock"
     = negb (q =? 0) && (q <=? 10).
Proof.
  unfold InventoryScreen.getStockStatus.
  destruct (stock_cases q) as [C | [C | [C | C]]];
    destruct C as (_ & -> & _ & -> & -> & _); cbn [status]; repeat split; reflexivity.
Qed.

(** X20. The summary line of the inventory screen and the badges. The
    'out of stock' count is the number of shown items with the badge
    'Out of Stock' and the 'in stock' count the number with the badge
    'In Stock'. An item with a negative quantity has the badge 'Low
    Stock' but is in none of the three counts: the 'low stock' count and
    the number of negative quantities together give the number of 'Low
    Stock' badges, and the three counts and that number add up to the
    total. *)
Theorem getFilterSummary_buckets (scr : InventoryState.t) :
  let summary := InventoryScreen.getFilterSummary scr in
  let badges (label : string) :=
    List.length
      (filter (fun x =>
                 String.eqb
                   (status (InventoryScreen.getStockStatus
                              (Item.quantity (ItemWithCategory.item x)))) label)
         (InventoryState.filteredItems scr)) in
  let negative :=
    List.length
      (filter (fun x => Item.quantity (ItemWithCategory.item x) <? 0)
         (InventoryState.filteredItems scr)) in
  (summary_total summary
   = outOfStock summary + lowStock summary + inStock summary + negative)%nat
  /\ outOfStock summary = badges "Out of Stock"
  /\ inStock summary = badges "In Stock"
  /\ (lowStock summary + negative)%nat = badges "Low Stock".
Proof.
  cbv zeta. unfold InventoryScreen.getFilterSummary.
  cbn [summary_total outOfStock lowStock inStock].
  induction (InventoryState.filteredItems scr) as [| x l IH]; [simpl; auto |].
  destruct IH as (IH1 & IH2 & IH3 & IH4).
  cbn [filter List.length].
  destruct (badge_eqb (Item.quantity (ItemWithCategory.item x))) as (-> & -> & ->).
  destruct (stock_cases (Item.quantity (ItemWithCategory.item x)))
    as [C | [C | [C | C]]];
    destruct C as (_ & -> & -> & -> & -> & ->); cbn [andb negb List.length];
    repeat match goal with |- _ /\ _ => split end; lia.
Qed.

Lemma InventoryScreen_loadData_opened now scr d :
  InventoryScreen.loadData now scr (opened d)
  = (InventoryState.set_loaded
       (map (InventoryScreen.with_category
               (order_by (fun a b => String.leb (Category.name a) (Category.name b))
                  (rows (categories (seed_db now d)))))
          (order_by (fun a b => String.leb (Item.name a) (Item.name b)) (rows (items d))))
       (order_by (fun a b => String.leb (Category.name a) (Category.name b))
          (rows (categories (seed_db now d)))) scr,
     [], opened (seed_db now d)).
Proof.
  unfold InventoryScreen.loadData.
  rewrite (bind_Ok _ _ _ _ _ (initDatabase_opened now (opened d))).
  cbn [opened inventory_db]. fold (opened (seed_db now d)).
  unfold getItems, getCategories.
  rewrite (bind_Ok _ _ _ _ _ (query_opened _ _)).
  rewrite (bind_Ok _ _ _ _ _ (query_opened _ _)). unfold ret.
  now destruct (seed_db_seqs now d) as (_ & -> & _).
Qed.

(** X21. Items of a deleted category. After the category screen has
    deleted a category of a store that keeps its keys, the inventory
    screen still lists every item, sorted by name: an item that pointed
    at the deleted category is listed under 'Unknown', also when the
    category was a default one that has come back under a new id, and an
    item of another category with a non-empty name is listed under that
    name. Loading the inventory screen initializes the store once more:
    no row changes, the counter of the categories table moves on by
    four. *)
Theorem deleted_category_items_Unknown now (category : Category.t) scrC scr d :
  consistent d ->
  In category (rows (categories d)) ->
  exists scrC' d' scr' d'',
    CategoryListScreen.confirmDelete now category scrC (opened d)
    = (scrC', [showSuccess "Category deleted successfully"], opened d')
    /\ InventoryScreen.loadData now scr (opened d') = (scr', [], opened d'')
    /\ d'' = set_categories
               (mkTable (rows (categories d')) (seq (categories d') + 4)) d'
    /\ map ItemWithCategory.item (InventoryState.items scr')
       = order_by (fun a b => String.leb (Item.name a) (Item.name b)) (rows (items d))
    /\ (forall x,
          In x (InventoryState.items scr') ->
          Item.category_id (ItemWithCategory.item x) = Category.id category ->
          ItemWithCategory.category_name x = "Unknown")
    /\ (forall x c,
          In x (InventoryState.items scr') ->
          In c (rows (categories d)) ->
          Category.id c = Item.category_id (ItemWithCategory.item x) ->
          Category.id c <> Category.id category ->
          Category.name c <> "" ->
          ItemWithCategory.category_name x = Category.name c).
Proof.
  intros Hc Hin.
  set (d1 := snd (delete_category (Category.id category) d)).
  set (d2 := seed_db now d1).
  assert (Hc2 : consistent d2).
  { apply (effect_consistent (InitDatabase now)).
    now apply (effect_consistent (DeleteCategory (Category.id category))). }
  assert (Hagain : seed_db now d2
                   = set_categories
                       (mkTable (rows (categories d2)) (seq (categories d2) + 4)) d2).
  { apply seed_db_again. intros m Hm. unfold d2. apply seed_db_names. now left. }
  assert (Hitems : items d2 = items d).
  { unfold d2. now destruct (seed_db_seqs now d1) as (_ & -> & _). }
  destruct Hc as ((Hseq & Hids & Hnd) & _).
  assert (Hgone : forall c, In c (rows (categories d2)) -> Category.id c <> Category.id category).
  { intros c Hcin. unfold d2 in Hcin. apply seed_db_new_rows in Hcin.
    destruct Hcin as [Hcin | (Hid & _)].
    - unfold d1 in Hcin. simpl in Hcin. apply filter_In in Hcin.
      destruct Hcin as [_ Hcin]. apply negb_true_iff in Hcin. now apply Z.eqb_neq.
    - specialize (Hids category Hin). change (seq (categories d1)) with (seq (categories d)) in Hid.
      lia. }
  eexists _, d2, _, _. split.
  { unfold CategoryListScreen.confirmDelete, deleteCategory.
    rewrite guarded_run_opened. cbn [delete_category fst snd].
    fold (delete_category (Category.id category) d). fold d1.
    rewrite loadCategories_opened. fold d2. reflexivity. }
  split.
  { rewrite InventoryScreen_loadData_opened, Hagain.
    cbn [set_categories categories rows]. reflexivity. }
  split; [reflexivity |].
  cbn [InventoryState.items InventoryState.set_loaded]. rewrite Hitems.
  split.
  { rewrite map_map. cbn [ItemWithCategory.item InventoryScreen.with_category].
    apply map_id. }
  split.
  - intros x Hx Hid. apply in_map_iff in Hx. destruct Hx as (i & <- & _).
    cbn [ItemWithCategory.item InventoryScreen.with_category] in Hid.
    unfold InventoryScreen.with_category. cbn [ItemWithCategory.category_name].
    destruct (find _ _) as [cat |] eqn:Hfind; [| reflexivity].
    apply find_some in Hfind. destruct Hfind as [Hcat Hsame].
    apply order_by_In in Hcat. apply Z.eqb_eq in Hsame.
    exfalso. apply (Hgone cat Hcat). congruence.
  - intros x c Hx Hcin Hsame Hother Hname.
    apply in_map_iff in Hx. destruct Hx as (i & <- & _).
    cbn [ItemWithCategory.item InventoryScreen.with_category] in Hsame.
    unfold InventoryScreen.with_category. cbn [ItemWithCategory.category_name].
    assert (Hc2in : In c (rows (categories d2))).
    { unfold d2. destruct (seed_db_rows now d1) as (seeded & ->).
      apply in_or_app. left. unfold d1. simpl. apply filter_In. split; [assumption |].
      apply negb_true_iff. now apply Z.eqb_neq. }
    destruct (find_present (fun cat => Category.id cat =? Item.category_id i)
                (order_by (fun a b => String.leb (Category.name a) (Category.name b))
                   (rows (categories d2))) c) as (y & -> & Hy & Hpy).
    { now apply order_by_In. }
    { now apply Z.eqb_eq. }
    apply order_by_In in Hy. apply Z.eqb_eq in Hpy.
    destruct Hc2 as ((_ & _ & Hnd2) & _).
    assert (y = c).
    { apply (NoDup_map_inj Category.id (rows (categories d2)) y c Hnd2); congruence. }
    subst y. apply String.eqb_neq in Hname. now rewrite Hname.
Qed.

Lemma deleted_category_items_Unknown_witness :
  exists scrC' d' scr' d'',
    CategoryListScreen.confirmDelete 400
      (Category.mk 1 "Electronics" (Some "Electronic devices and accessories") 100)
      (CategoryScreen.mk [] false None "" "" "") (opened example_sold_db)
    = (scrC', [showSuccess "Category deleted successfully"], opened d')
    /\ InventoryScreen.loadData 400 (InventoryState.mk [] [] [] true "" 0 all) (opened d')
       = (scr', [], opened d'')
    /\ (forall x,
          In x (InventoryState.items scr') ->
          Item.category_id (ItemWithCategory.item x) = 1 ->
          ItemWithCategory.category_name x = "Unknown").
Proof.
  destruct (deleted_category_items_Unknown 400
              (Category.mk 1 "Electronics" (Some "Electronic devices and accessories") 100)
              (CategoryScreen.mk [] false None "" "" "")
              (InventoryState.mk [] [] [] true "" 0 all) example_sold_db
              consistent_example_sold_db)
    as (scrC' & d' & scr' & d'' & H1 & H2 & _ & _ & H5 & _).
  { simpl. auto. }
  exists scrC', d', scr', d''. split; [exact H1 |]. split; [exact H2 | exact H5].
Defined.

(** * Properties of the customer and invoice lists *)

Lemma prefix_refl (s : string) : String.prefix s s = true.
Proof.
  induction s as [| c s IH]; simpl; [reflexivity |].
  destruct (ascii_dec c c); [exact IH | congruence].
Qed.

Lemma includes_refl (s : string) : includes s s = true.
Proof.
  destruct s as [| c s]; [reflexivity |].
  cbn [includes]. now rewrite prefix_refl.
Qed.

Lemma loadCustomers_opened now scr d :
  CustomerListScreen.loadCustomers now scr (opened d)
  = (CustomerListState.set_loaded
       (order_by (fun a b => String.leb (Customer.name a) (Customer.name b))
          (rows (customers d))) scr,
     [], opened (seed_db now d)).
Proof.
  unfold CustomerListScreen.loadCustomers.
  rewrite (bind_Ok _ _ _ _ _ (initDatabase_opened now (opened d))).
  cbn [opened inventory_db]. fold (opened (seed_db now d)).
  unfold getCustomers. rewrite query_opened.
  now destruct (seed_db_seqs now d) as (_ & _ & -> & _).
Qed.

Lemma InvoiceListScreen_loadData_opened now scr d :
  InvoiceListScreen.loadData now scr (opened d)
  = (InvoiceListState.set_loaded
       (map (InvoiceListScreen.with_customer
               (order_by (fun a b => String.leb (Customer.name a) (Customer.name b))
                  (rows (customers d))))
          (order_by (fun a b => Invoice.created_at b <=? Invoice.created_at a)
             (rows (invoices d))))
       (order_by (fun a b => String.leb (Customer.name a) (Customer.name b))
          (rows (customers d))) scr,
     [], opened (seed_db now d)).
Proof.
  unfold InvoiceListScreen.loadData.
  rewrite (bind_Ok _ _ _ _ _ (initDatabase_opened now (opened d))).
  cbn [opened inventory_db]. fold (opened (seed_db now d)).
  unfold getInvoices, getCustomers.
  rewrite (bind_Ok _ _ _ _ _ (query_opened _ _)).
  rewrite (bind_Ok _ _ _ _ _ (query_opened _ _)). unfold ret.
  now destruct (seed_db_seqs now d) as (_ & _ & -> & -> & _).
Qed.

(** X22. Invoices of a deleted customer. Deleting a customer on the
    customer screen always succeeds; the reloaded customer list is the
    old one without the rows of that id, and the invoices table is as it
    was. The invoice list then still shows every invoice, newest first,
    those of the deleted customer under 'Unknown Customer'. Whatever the
    store, an invoice of the list is found by typing its number into the
    search box, in any letter case. Loading the invoice list initializes
    the store once more: no row changes, the counter of the categories
    table moves on by four. *)
Theorem deleted_customer_invoices_Unknown now (customer : Customer.t) scrC scr d :
  exists scrC' d' scr' d'',
    CustomerListScreen.confirmDelete now customer scrC (opened d)
    = (scrC', [showSuccess "Customer deleted successfully"], opened d')
    /\ (forall c,
          In c (CustomerListState.customers scrC')
          <-> In c (rows (customers d)) /\ Customer.id c <> Customer.id customer)
    /\ invoices d' = invoices d
    /\ InvoiceListScreen.loadData now scr (opened d') = (scr', [], opened d'')
    /\ d'' = set_categories
               (mkTable (rows (categories d')) (seq (categories d') + 4)) d'
    /\ map InvoiceWithCustomer.invoice (InvoiceListState.invoices scr')
       = order_by (fun a b => Invoice.created_at b <=? Invoice.created_at a)
           (rows (invoices d))
    /\ (forall x,
          In x (InvoiceListState.invoices scr') ->
          Invoice.customer_id (InvoiceWithCustomer.invoice x) = Customer.id customer ->
          InvoiceWithCustomer.customer_name x = "Unknown Customer")
    /\ (forall x q,
          In x (InvoiceListState.invoices scr') ->
          toLowerCase q
          = toLowerCase (Invoice.invoice_number (InvoiceWithCustomer.invoice x)) ->
          In x (InvoiceListState.filteredInvoices
                  (InvoiceListScreen.filterInvoices
                     (InvoiceListState.set_searchQuery q scr')))).
Proof.
  set (d1 := snd (delete_customer (Customer.id customer) d)).
  set (d2 := seed_db now d1).
  assert (Hagain : seed_db now d2
                   = set_categories
                       (mkTable (rows (categories d2)) (seq (categories d2) + 4)) d2).
  { apply seed_db_again. intros m Hm. unfold d2. apply seed_db_names. now left. }
  assert (Hframe : customers d2 = customers d1 /\ invoices d2 = invoices d).
  { unfold d2. destruct (seed_db_seqs now d1) as (_ & _ & -> & -> & _). now split. }
  destruct Hframe as (Hcust & Hinv).
  assert (Hrows : forall c,
             In c (rows (customers d1))
             <-> In c (rows (customers d)) /\ Customer.id c <> Customer.id customer).
  { intros c. unfold d1. simpl. rewrite filter_In, negb_true_iff, Z.eqb_neq. tauto. }
  eexists _, d2, _, _. split.
  { unfold CustomerListScreen.confirmDelete, deleteCustomer.
    rewrite guarded_run_opened. cbn [delete_customer fst snd].
    fold (delete_customer (Customer.id customer) d). fold d1.
    rewrite loadCustomers_opened. fold d2. reflexivity. }
  split.
  { intros c. cbn [CustomerListState.customers CustomerListState.set_loaded].
    rewrite order_by_In. apply Hrows. }
  split; [exact Hinv |].
  split.
  { rewrite InvoiceListScreen_loadData_opened, Hagain. reflexivity. }
  split; [reflexivity |].
  cbn [InvoiceListState.invoices InvoiceListState.set_loaded]. rewrite Hinv, Hcust.
  split.
  { rewrite map_map. cbn [InvoiceWithCustomer.invoice InvoiceListScreen.with_customer].
    apply map_id. }
  split.
  - intros x Hx Hid. apply in_map_iff in Hx. destruct Hx as (i & <- & _).
    cbn [InvoiceWithCustomer.invoice InvoiceListScreen.with_customer] in Hid.
    unfold InvoiceListScreen.with_customer. cbn [InvoiceWithCustomer.customer_name].
    destruct (find _ _) as [c |] eqn:Hfind; [| reflexivity].
    apply find_some in Hfind. destruct Hfind as [Hc Hsame].
    apply order_by_In, Hrows in Hc. apply Z.eqb_eq in Hsame.
    exfalso. apply (proj2 Hc). congruence.
  - intros x q Hx Hq. unfold InvoiceListScreen.filterInvoices.
    cbn [InvoiceListState.searchQuery InvoiceListState.set_searchQuery
         InvoiceListState.invoices].
    destruct (String.eqb (trim q) ""); cbv zeta;
      cbn [InvoiceListState.filteredInvoices InvoiceListState.set_filteredInvoices
           InvoiceListState.invoices]; [exact Hx |].
    apply filter_In. split; [exact Hx |].
    now rewrite Hq, includes_refl.
Qed.

Lemma deleted_customer_invoices_Unknown_witness :
  exists scrC' d' scr' d'',
    CustomerListScreen.confirmDelete 400 (Customer.mk 1 "Bob" "0123456789" (Some "") 101)
      (CustomerListState.mk [] [] false "" false) (opened example_two_invoices_db)
    = (scrC', [showSuccess "Customer deleted successfully"], opened d')
    /\ invoices d' = invoices example_two_invoices_db
    /\ InvoiceListScreen.loadData 400 (InvoiceListState.mk [] [] [] true "")
         (opened d')
       = (scr', [], opened d'')
    /\ (forall x,
          In x (InvoiceListState.invoices scr') ->
          Invoice.customer_id (InvoiceWithCustomer.invoice x) = 1 ->
          InvoiceWithCustomer.customer_name x = "Unknown Customer").
Proof.
  destruct (deleted_customer_invoices_Unknown 400
              (Customer.mk 1 "Bob" "0123456789" (Some "") 101)
              (CustomerListState.mk [] [] false "" false)
              (InvoiceListState.mk [] [] [] true "") example_two_invoices_db)
    as (scrC' & d' & scr' & d'' & H1 & _ & H3 & H4 & _ & _ & H7 & _).
  exists scrC', d', scr', d''.
  split; [exact H1 |]. split; [exact H3 |]. split; [exact H4 | exact H7].
Defined.

(** * The conventions of the model at known values *)

(** 0.15 as the statements write it is the quotient 15/100 rounded to
    binary64, and it is the constant of the invoice form. *)
Lemma fifteen_percent_value :
  fifteen_percent = PrimFloat.div 15 100 /\ VAT_RATE = fifteen_percent.
Proof. split; reflexivity. Qed.

(** An integer becomes the nearest number: 10^19 at a price of 5 is
    5e19, 2^63 is itself, and 2^53 + 1 falls on 2^53. *)
Lemma number_of_Z_values :
  PrimFloat.mul (number_of_Z (10 ^ 19)) 5 = 5e19%float
  /\ number_of_Z (2 ^ 63) = 9223372036854775808%float
  /\ number_of_Z (2 ^ 53 + 1) = 9007199254740992%float
  /\ number_of_Z (-7) = (-7)%float.
Proof. repeat split; reflexivity. Qed.

(** What a [REAL NOT NULL] column does with NaN, with -0 and with an
    ordinary number. *)
Lemma bind_REAL_values :
  bind_REAL nan = None
  /\ bind_REAL (-0)%float = Some 0%float
  /\ bind_REAL 2.5%float = Some 2.5%float
  /\ bind_REAL infinity = Some infinity.
Proof. repeat split; reflexivity. Qed.

(** Days of the calendar, and strings that are not. *)
Lemma is_calendar_date_values :
  is_calendar_date "2025-01-02" = true
  /\ is_calendar_date "2024-02-29" = true
  /\ is_calendar_date "2025-02-29" = false
  /\ is_calendar_date "1900-02-29" = false
  /\ is_calendar_date "2025-13-01" = false
  /\ is_calendar_date "2025-04-31" = false
  /\ is_calendar_date "2025" = false
  /\ is_calendar_date "" = false
  /\ is_calendar_date "2025-01-02T00:00:00.000Z" = false.
Proof. repeat split; reflexivity. Qed.

(** A second [initDatabase] on a fresh store inserts nothing, leaves the
    counter of the categories table at 8, and the next category gets
    id 9. *)
Lemma second_initDatabase_counter :
  exists d1 d2,
    snd (initDatabase 1 (mkService false None)) = opened d1
    /\ snd (initDatabase 2 (opened d1)) = opened d2
    /\ rows (categories d2) = rows (categories d1)
    /\ seq (categories d1) = 4
    /\ seq (categories d2) = 8
    /\ fst (addCategory 3 "Toys" None (opened d2)) = Ok 9.
Proof.
  eexists _, _. split; [vm_compute; reflexivity |].
  split; [vm_compute; reflexivity |].
  repeat split; reflexivity.
Qed.
